(** * 9router translation core: request and stream translators

    A shallow embedding of the translators of
    [open-sse/translator/to-openai/openai.js] (OpenAI requests to Claude
    and to Gemini), of the Gemini request and response translators and of
    the Claude/OpenAI stream translators, with the properties the
    specification states about them.

    JavaScript values are embedded as the type [value] below; a translator
    that reads a property of [null] or [undefined], or calls something that
    is not a function, throws a TypeError, which the embedding returns as
    [inl TypeError]. *)

From Stdlib Require Import ZArith List String Ascii Bool Lia DecimalString.
Import ListNotations.
Local Open Scope string_scope.
Local Open Scope list_scope.
Local Open Scope Z_scope.
Set Warnings "-register-all".

(** ** JavaScript values *)

Module Import Js.

(** Numbers: the integers, and NaN (what [undefined++] leaves behind).
    The wire formats carry counters, indices and token counts; no
    translator divides or rounds one, except for the clock. *)
Inductive num := NaN | Fin (z : Z).

(** A value as [JSON.parse] delivers it, plus [undefined] and
    [VInherited k], the member [k] that a plain object inherits from
    [Object.prototype] (a function, or the prototype itself for
    [__proto__]): an opaque truthy value. An object lists its own
    properties in insertion order, with distinct keys. Strings are
    sequences of code units below 256. *)
Inductive value :=
| VUndef
| VNull
| VBool (b : bool)
| VNum (n : num)
| VStr (s : string)
| VArr (items : list value)
| VObj (fields : list (string * value))
| VInherited (name : string).

Definition int (z : Z) : value := VNum (Fin z).

(** Errors: a TypeError thrown by the code, or an operation the embedding
    does not cover ([Unmodelled]: replacing the prototype of a lookup
    table through the key [__proto__], adding a named property to an
    array). *)
Inductive err := TypeError | Unmodelled.

Definition result (A : Type) : Type := (err + A)%type.
Definition ret {A} (a : A) : result A := inr a.
Definition throw {A} : result A := inl TypeError.
Definition bind {A B} (m : result A) (f : A -> result B) : result B :=
  match m with inl e => inl e | inr a => f a end.

Notation "x <- m ;; k" := (bind m (fun x => k))
  (at level 61, m at next level, right associativity).

Fixpoint mapM {A B} (f : A -> result B) (l : list A) : result (list B) :=
  match l with
  | [] => ret []
  | a :: r => bind (f a) (fun b => bind (mapM f r) (fun bs => ret (b :: bs)))
  end.

(** [for (const x of l) s = body(x, s)] *)
Fixpoint foldM {A S} (body : S -> A -> result S) (l : list A) (s : S) : result S :=
  match l with
  | [] => ret s
  | a :: r => bind (body s a) (foldM body r)
  end.

(** Truthiness: [if (v)], [!v], [a || b], [a && b]. *)
Definition truthy (v : value) : bool :=
  match v with
  | VUndef | VNull => false
  | VBool b => b
  | VNum NaN => false
  | VNum (Fin z) => negb (z =? 0)
  | VStr s => negb (String.eqb s "")
  | VArr _ | VObj _ | VInherited _ => true
  end.

Definition or_else (a b : value) : value := if truthy a then a else b.

Definition nullish (v : value) : bool :=
  match v with VUndef | VNull => true | _ => false end.

(** [v === "s"] *)
Definition is_str (v : value) (s : string) : bool :=
  match v with VStr t => String.eqb t s | _ => false end.

(** [v === undefined] and [v !== undefined] *)
Definition is_undef (v : value) : bool :=
  match v with VUndef => true | _ => false end.

(** [typeof v === "string"], [Array.isArray(v)], [typeof v === "object"] *)
Definition is_string (v : value) : bool :=
  match v with VStr _ => true | _ => false end.
Definition is_array (v : value) : bool :=
  match v with VArr _ => true | _ => false end.
Definition typeof_object (v : value) : bool :=
  match v with VNull | VArr _ | VObj _ => true | VInherited n => String.eqb n "__proto__" | _ => false end.

Definition string_of_Z (z : Z) : string := NilZero.string_of_int (Z.to_int z).

(** ToString, as template literals, [+=] on a string and property keys
    apply it. *)
Fixpoint to_string (v : value) : string :=
  match v with
  | VUndef => "undefined"
  | VNull => "null"
  | VBool true => "true"
  | VBool false => "false"
  | VNum NaN => "NaN"
  | VNum (Fin z) => string_of_Z z
  | VStr s => s
  | VArr l =>
      String.concat ","
        (map (fun x => match x with VUndef | VNull => "" | _ => to_string x end) l)
  | VObj _ => "[object Object]"
  | VInherited n =>
      if String.eqb n "__proto__" then "[object Object]"
      else ("function " ++ n ++ "() { [native code] }")%string
  end.

(** [l.join(sep)] *)
Definition join (sep : string) (l : list value) : string :=
  String.concat sep
    (map (fun x => match x with VUndef | VNull => "" | _ => to_string x end) l).

(** *** Objects *)

Fixpoint assoc {A} (k : string) (fs : list (string * A)) : option A :=
  match fs with
  | [] => None
  | (k', v) :: r => if String.eqb k k' then Some v else assoc k r
  end.

(** [o.k = v] on an object of the translator's own making: the property
    keeps its place when it exists, and is added last otherwise. *)
Fixpoint set_field (k : string) (v : value) (fs : list (string * value))
  : list (string * value) :=
  match fs with
  | [] => [(k, v)]
  | (k', v') :: r =>
      if String.eqb k k' then (k, v) :: r else (k', v') :: set_field k v r
  end.

(** The member names of [Object.prototype]. *)
Definition object_prototype_members : list string :=
  [ "constructor"; "hasOwnProperty"; "isPrototypeOf"; "propertyIsEnumerable";
    "toLocaleString"; "toString"; "valueOf"; "__proto__";
    "__defineGetter__"; "__defineSetter__"; "__lookupGetter__";
    "__lookupSetter__" ].

Definition inherited (k : string) : value :=
  if existsb (String.eqb k) object_prototype_members
  then VInherited k else VUndef.

(** [o[k]] on an object whose prototype is [Object.prototype]. *)
Definition obj_get (fs : list (string * value)) (k : string) : value :=
  match assoc k fs with
  | Some v => v
  | None => inherited k
  end.

(** [v.k] for a field name [k] of the wire formats (none of them is an
    array index or a method name of a built-in prototype other than
    [Object.prototype]'s). Reading a property of [null] or [undefined]
    throws. *)
Definition get (k : string) (v : value) : result value :=
  match v with
  | VUndef | VNull => throw
  | VObj fs => ret (obj_get fs k)
  | VArr l => ret (if String.eqb k "length" then int (Z.of_nat (List.length l)) else inherited k)
  | VStr s => ret (if String.eqb k "length" then int (Z.of_nat (String.length s)) else inherited k)
  | VBool _ | VNum _ => ret (inherited k)
  | VInherited _ => ret VUndef
  end.

(** [v?.k] *)
Definition getq (k : string) (v : value) : value :=
  match get k v with
  | inr x => x
  | inl _ => VUndef
  end.

(** [v?.[0]], and [v[0]] where [v] is known not to be nullish. *)
Definition first (v : value) : value :=
  match v with
  | VArr (x :: _) => x
  | VStr (String c _) => VStr (String c "")
  | VObj fs => obj_get fs "0"
  | _ => VUndef
  end.

(** *** Lookup tables: [const t = {}], filled by [t[k] = v] *)

(** ToPropertyKey of a value used as a key. *)
Definition key_of (v : value) : string := to_string v.

(** [t[k] = v]. The key [__proto__] is the prototype accessor: a value
    that is no object is ignored, an object would replace the
    prototype. *)
Definition table_set (t : list (string * value)) (k : string) (v : value)
  : result (list (string * value)) :=
  if String.eqb k "__proto__" then
    match v with
    | VNull | VArr _ | VObj _ | VInherited _ => inl Unmodelled
    | _ => ret t
    end
  else ret (set_field k v t).

(** *** Maps: [new Map()], with values of type [A] *)

(** SameValueZero on keys. Arrays and objects are compared by identity,
    and every chunk is parsed afresh, so two of them never agree. *)
Definition same_key (a b : value) : bool :=
  match a, b with
  | VUndef, VUndef => true
  | VNull, VNull => true
  | VBool x, VBool y => Bool.eqb x y
  | VNum NaN, VNum NaN => true
  | VNum (Fin x), VNum (Fin y) => x =? y
  | VStr x, VStr y => String.eqb x y
  | _, _ => false
  end.

(** [a === b], under the same reading of identity. *)
Definition strict_eq (a b : value) : bool :=
  match a, b with
  | VNum NaN, VNum NaN => false
  | _, _ => same_key a b
  end.

Fixpoint map_get {A} (k : value) (m : list (value * A)) : option A :=
  match m with
  | [] => None
  | (k', v) :: r => if same_key k' k then Some v else map_get k r
  end.

(** [m.set(k, v)]: an existing key keeps its place in the iteration
    order. *)
Fixpoint map_set {A} (k : value) (v : A) (m : list (value * A)) : list (value * A) :=
  match m with
  | [] => [(k, v)]
  | (k', v') :: r =>
      if same_key k' k then (k', v) :: r else (k', v') :: map_set k v r
  end.

(** *** Numbers *)

(** [x++] on a counter field: the old value as a number, and the new
    value. ToNumber of a string goes through [str_num]. *)
Definition to_number (str_num : string -> num) (v : value) : num :=
  match v with
  | VUndef => NaN
  | VNull => Fin 0
  | VBool b => Fin (if b then 1 else 0)
  | VNum n => n
  | VStr s => str_num s
  | VArr _ | VObj _ | VInherited _ => str_num (to_string v)
  end.

Definition num_succ (n : num) : num :=
  match n with NaN => NaN | Fin z => Fin (z + 1) end.

Definition stringish (v : value) : bool :=
  match v with VStr _ | VArr _ | VObj _ | VInherited _ => true | _ => false end.

Definition num_add (a b : num) : num :=
  match a, b with Fin x, Fin y => Fin (x + y) | _, _ => NaN end.

(** [a + b]: concatenation as soon as one side is a string or converts
    to one, the sum of the numbers otherwise. *)
Definition add (a b : value) : value :=
  if stringish a || stringish b
  then VStr (to_string a ++ to_string b)%string
  else VNum (num_add (to_number (fun _ => NaN) a) (to_number (fun _ => NaN) b)).

(** [for (const x of v)]: arrays and strings are iterable, nothing else
    a parsed body holds is. *)
Definition iter (v : value) : result (list value) :=
  match v with
  | VArr l => ret l
  | VStr s => ret (map (fun c => VStr (String c "")) (list_ascii_of_string s))
  | _ => throw
  end.

(** *** Strings *)

Definition newline : string := String (ascii_of_nat 10) "".

(** [s.includes(pat)] *)
Fixpoint includes (pat s : string) : bool :=
  if String.prefix pat s then true
  else match s with
       | EmptyString => false
       | String _ r => includes pat r
       end.

Fixpoint drop (n : nat) (s : string) : string :=
  match n, s with
  | O, _ => s
  | S n', String _ r => drop n' r
  | S _, EmptyString => EmptyString
  end.

(** [s.replace(pat, "")]: the first occurrence of [pat] is removed. *)
Fixpoint remove_first (pat s : string) : string :=
  if String.prefix pat s then drop (String.length pat) s
  else match s with
       | EmptyString => EmptyString
       | String c r => String c (remove_first pat r)
       end.

(** [s.toLowerCase()] on code units below 256. *)
Definition lower_char (c : ascii) : ascii :=
  let n := nat_of_ascii c in
  if ((65 <=? n) && (n <=? 90))%nat
     || ((192 <=? n) && (n <=? 222) && negb (n =? 215))%nat
  then ascii_of_nat (n + 32) else c.

Fixpoint toLowerCase (s : string) : string :=
  match s with
  | EmptyString => EmptyString
  | String c r => String (lower_char c) (toLowerCase r)
  end.

End Js.

(** ** The stream state *)

(** The state object of one streamed exchange: its plain fields
    ([messageId], [model], [finishReasonSent], ...) and the Map
    [toolCalls]. The caller creates it and hands the same object to every
    call of the exchange. *)
Record state := mkState {
  fields : list (string * value);
  toolCalls : list (value * value)
}.

(** [state.k] and [state.k = v] *)
Definition sget (k : string) (st : state) : value := obj_get (fields st) k.
Definition sset (k : string) (v : value) (st : state) : state :=
  mkState (set_field k v (fields st)) (toolCalls st).
Definition with_toolCalls (m : list (value * value)) (st : state) : state :=
  mkState (fields st) m.

(** What a call hands back: [results.length > 0 ? results : null]. *)
Definition emit (results : list value) : value :=
  match results with [] => VNull | _ => VArr results end.

(** The chunks of a returned value, in order. *)
Definition chunks_of (r : value) : list value :=
  match r with VArr l => l | _ => [] end.

(** ** Claude stream to OpenAI stream, and back *)

Module ClaudeStream.

(** Convert Claude stop_reason to OpenAI finish_reason *)
Definition convertStopReason (reason : value) : value :=
  if is_str reason "end_turn" then VStr "stop"
  else if is_str reason "max_tokens" then VStr "length"
  else if is_str reason "tool_use" then VStr "tool_calls"
  else if is_str reason "stop_sequence" then VStr "stop"
  else VStr "stop".

(** Convert OpenAI finish_reason to Claude stop_reason *)
Definition convertFinishReason (reason : value) : value :=
  if is_str reason "stop" then VStr "end_turn"
  else if is_str reason "length" then VStr "max_tokens"
  else if is_str reason "tool_calls" then VStr "tool_use"
  else VStr "end_turn".

Section Translators.

(** The runtime's ToNumber on strings. *)
Variable str_num : string -> num.

(** [Date.now()]: the clock reading of the call, in milliseconds. A call
    reads the clock at most twice, in one synchronous run; the embedding
    gives both reads the same value. *)
Variable now : Z.

Definition chunk_id (st : state) : value :=
  VStr ("chatcmpl-" ++ to_string (sget "messageId" st))%string.

Definition created : value := int (now / 1000).

(** Create OpenAI chunk helper *)
Definition createChunk (st : state) (delta : value) (finishReason : value) : value :=
  VObj [ ("id", chunk_id st);
         ("object", VStr "chat.completion.chunk");
         ("created", created);
         ("model", sget "model" st);
         ("choices", VArr [ VObj [ ("index", int 0);
                                   ("delta", delta);
                                   ("finish_reason", finishReason) ] ]) ].

(** The terminal chunk that [message_delta] and [message_stop] write out
    in full. *)
Definition finishChunk (st : state) (finishReason : value)
    (usage : list (string * value)) : value :=
  VObj ([ ("id", chunk_id st);
          ("object", VStr "chat.completion.chunk");
          ("created", created);
          ("model", sget "model" st);
          ("choices", VArr [ VObj [ ("index", int 0);
                                    ("delta", VObj []);
                                    ("finish_reason", finishReason) ] ]) ]
        ++ usage).

(** The tool call that [content_block_start] records and announces. *)
Definition toolCallRecord (index id name arguments : value) : value :=
  VObj [ ("index", index);
         ("id", id);
         ("type", VStr "function");
         ("function", VObj [ ("name", name); ("arguments", arguments) ]) ].

(** [toolCall.function.arguments += fragment], on the object the Map
    holds. The module is strict code: writing a property of a string, a
    number or a boolean throws. *)
Definition append_arguments (toolCall fragment : value) : result value :=
  fn <- get "function" toolCall ;;
  args <- get "arguments" fn ;;
  match toolCall, fn with
  | VObj tfs, VObj ffs =>
      ret (VObj (set_field "function"
                   (VObj (set_field "arguments" (add args fragment) ffs)) tfs))
  | _, (VStr _ | VNum _ | VBool _) => throw
  | _, _ => inl Unmodelled
  end.

(** [case "message_start"] (the [console.log] of the counter is left
    out) *)
Definition onMessageStart (chunk : value) (st : state) : result (value * state) :=
  let message := getq "message" chunk in
  let st := sset "messageId"
              (or_else (getq "id" message) (VStr ("msg_" ++ string_of_Z now)%string)) st in
  let st := sset "model" (getq "model" message) st in
  let st := sset "toolCallIndex" (int 0) st in
  ret (emit [createChunk st (VObj [("role", VStr "assistant")]) VNull], st).

(** [case "content_block_start"] *)
Definition onContentBlockStart (chunk : value) (st : state) : result (value * state) :=
  block <- get "content_block" chunk ;;
  let ty := getq "type" block in
  if is_str ty "text" then
    ret (emit [], sset "textBlockStarted" (VBool true) st)
  else if is_str ty "thinking" then
    index <- get "index" chunk ;;
    let st := sset "inThinkingBlock" (VBool true) st in
    let st := sset "currentBlockIndex" index st in
    ret (emit [createChunk st (VObj [("content", VStr "<think>")]) VNull], st)
  else if is_str ty "tool_use" then
    (* OpenAI format: tool_calls index must be independent and start from 0 *)
    let toolCallIndex := to_number str_num (sget "toolCallIndex" st) in
    let st := sset "toolCallIndex" (VNum (num_succ toolCallIndex)) st in
    id <- get "id" block ;;
    name <- get "name" block ;;
    index <- get "index" chunk ;;
    let toolCall := toolCallRecord (VNum toolCallIndex) id name (VStr "") in
    (* Map Claude content_block index to OpenAI tool_call index *)
    let st := with_toolCalls (map_set index toolCall (toolCalls st)) st in
    ret (emit [createChunk st (VObj [("tool_calls", VArr [toolCall])]) VNull], st)
  else ret (emit [], st).

(** [case "content_block_delta"] *)
Definition onContentBlockDelta (chunk : value) (st : state) : result (value * state) :=
  delta <- get "delta" chunk ;;
  let ty := getq "type" delta in
  if is_str ty "text_delta" && truthy (getq "text" delta) then
    ret (emit [createChunk st (VObj [("content", getq "text" delta)]) VNull], st)
  else if is_str ty "thinking_delta" && truthy (getq "thinking" delta) then
    ret (emit [createChunk st (VObj [("content", getq "thinking" delta)]) VNull], st)
  else if is_str ty "input_json_delta" && truthy (getq "partial_json" delta) then
    index <- get "index" chunk ;;
    match map_get index (toolCalls st) with
    | Some toolCall =>
        if truthy toolCall then
          let partial_json := getq "partial_json" delta in
          toolCall' <- append_arguments toolCall partial_json ;;
          tcIndex <- get "index" toolCall' ;;
          tcId <- get "id" toolCall' ;;
          let st := with_toolCalls (map_set index toolCall' (toolCalls st)) st in
          (* Include both index and id for better client compatibility *)
          ret (emit [createChunk st
                       (VObj [("tool_calls",
                               VArr [ VObj [ ("index", tcIndex);
                                             ("id", tcId);
                                             ("function",
                                              VObj [("arguments", partial_json)]) ] ])])
                       VNull], st)
        else ret (emit [], st)
    | None => ret (emit [], st)
    end
  else ret (emit [], st).

(** [case "content_block_stop"] *)
Definition onContentBlockStop (chunk : value) (st : state) : result (value * state) :=
  index <- get "index" chunk ;;
  let closing :=
    truthy (sget "inThinkingBlock" st)
    && strict_eq index (sget "currentBlockIndex" st) in
  let results :=
    if closing then [createChunk st (VObj [("content", VStr "</think>")]) VNull]
    else [] in
  let st := if closing then sset "inThinkingBlock" (VBool false) st else st in
  let st := sset "textBlockStarted" (VBool false) st in
  let st := sset "thinkingBlockStarted" (VBool false) st in
  ret (emit results, st).

(** [case "message_delta"] *)
Definition onMessageDelta (chunk : value) (st : state) : result (value * state) :=
  let stop_reason := getq "stop_reason" (getq "delta" chunk) in
  if truthy stop_reason then
    let st := sset "finishReason" (convertStopReason stop_reason) st in
    (* Send the final chunk with finish_reason immediately *)
    let results := [finishChunk st (sget "finishReason" st) []] in
    ret (emit results, sset "finishReasonSent" (VBool true) st)
  else ret (emit [], st).

(** [case "message_stop"] *)
Definition onMessageStop (chunk : value) (st : state) : result (value * state) :=
  (* Only send a chunk if we haven't already sent the finish_reason in
     message_delta *)
  if negb (truthy (sget "finishReasonSent" st)) then
    let finishReason :=
      or_else (sget "finishReason" st)
        (VStr (match toolCalls st with [] => "stop" | _ => "tool_calls" end)) in
    let usage := sget "usage" st in
    let usageField :=
      if truthy usage then
        let input := or_else (getq "input_tokens" usage) (int 0) in
        let output := or_else (getq "output_tokens" usage) (int 0) in
        [ ("usage", VObj [ ("prompt_tokens", input);
                           ("completion_tokens", output);
                           ("total_tokens", add input output) ]) ]
      else [] in
    ret (emit [finishChunk st finishReason usageField],
         sset "finishReasonSent" (VBool true) st)
  else ret (emit [], st).

(** Convert Claude stream chunk to OpenAI format *)
Definition claudeToOpenAIResponse (chunk : value) (st : state)
  : result (value * state) :=
  if negb (truthy chunk) then ret (VNull, st) else
  event <- get "type" chunk ;;
  if is_str event "message_start" then onMessageStart chunk st
  else if is_str event "content_block_start" then onContentBlockStart chunk st
  else if is_str event "content_block_delta" then onContentBlockDelta chunk st
  else if is_str event "content_block_stop" then onContentBlockStop chunk st
  else if is_str event "message_delta" then onMessageDelta chunk st
  else if is_str event "message_stop" then onMessageStop chunk st
  else ret (emit [], st).

(** [state.k++]: the old value as a number, and the state after. *)
Definition post_incr (k : string) (st : state) : num * state :=
  let n := to_number str_num (sget k st) in
  (n, sset k (VNum (num_succ n)) st).

(** Helper: stop thinking block if started *)
Definition stopThinkingBlock (acc : state * list value) : state * list value :=
  let '(st, results) := acc in
  if negb (truthy (sget "thinkingBlockStarted" st)) then acc else
  (sset "thinkingBlockStarted" (VBool false) st,
   results ++ [ VObj [ ("type", VStr "content_block_stop");
                       ("index", sget "thinkingBlockIndex" st) ] ]).

(** Helper: stop text block if started *)
Definition stopTextBlock (acc : state * list value) : state * list value :=
  let '(st, results) := acc in
  if negb (truthy (sget "textBlockStarted" st)) || truthy (sget "textBlockClosed" st)
  then acc else
  let st := sset "textBlockClosed" (VBool true) st in
  (sset "textBlockStarted" (VBool false) st,
   results ++ [ VObj [ ("type", VStr "content_block_stop");
                       ("index", sget "textBlockIndex" st) ] ]).

(** [chunk.id?.replace("chatcmpl-", "") || `msg_${Date.now()}`] *)
Definition first_message_id (id : value) : result string :=
  let fresh := ("msg_" ++ string_of_Z now)%string in
  match id with
  | VUndef | VNull => ret fresh
  | VStr s =>
      let r := remove_first "chatcmpl-" s in
      ret (if String.eqb r "" then fresh else r)
  | _ => throw
  end.

(** One turn of [for (const tc of delta.tool_calls)]. *)
Definition toolCallDelta (acc : state * list value) (tc : value)
  : result (state * list value) :=
  index <- get "index" tc ;;
  let idx := if nullish index then int 0 else index in
  id <- get "id" tc ;;
  let fn := getq "function" tc in
  let '(st, results) :=
    if truthy id then
      let '(st, results) := stopTextBlock (stopThinkingBlock acc) in
      let '(toolBlockIndex, st) := post_incr "nextBlockIndex" st in
      let name := or_else (getq "name" fn) (VStr "") in
      let st :=
        with_toolCalls
          (map_set idx (VObj [ ("id", id); ("name", name);
                               ("blockIndex", VNum toolBlockIndex) ])
                   (toolCalls st)) st in
      (st, results ++ [ VObj [ ("type", VStr "content_block_start");
                               ("index", VNum toolBlockIndex);
                               ("content_block",
                                VObj [ ("type", VStr "tool_use");
                                       ("id", id);
                                       ("name", name);
                                       ("input", VObj []) ]) ] ])
    else acc in
  if truthy (getq "arguments" fn) then
    match map_get idx (toolCalls st) with
    | Some toolInfo =>
        if truthy toolInfo then
          blockIndex <- get "blockIndex" toolInfo ;;
          ret (st, results ++ [ VObj [ ("type", VStr "content_block_delta");
                                       ("index", blockIndex);
                                       ("delta",
                                        VObj [ ("type", VStr "input_json_delta");
                                               ("partial_json", getq "arguments" fn) ]) ] ])
        else ret (st, results)
    | None => ret (st, results)
    end
  else ret (st, results).

(** Convert OpenAI stream chunk to Claude format *)
Definition openaiToClaudeResponse (chunk : value) (st : state)
  : result (value * state) :=
  if negb (truthy chunk) then ret (VNull, st) else
  choices <- get "choices" chunk ;;
  if negb (truthy (first choices)) then ret (VNull, st) else
  let choice := first choices in
  delta <- get "delta" choice ;;
  (* First chunk - ALWAYS send message_start first *)
  acc <-
    (if negb (truthy (sget "messageStartSent" st)) then
       let st := sset "messageStartSent" (VBool true) st in
       id <- get "id" chunk ;;
       mid <- first_message_id id ;;
       let messageId :=
         if negb (truthy (VStr mid)) || String.eqb mid "chat"
            || (String.length mid <? 8)%nat
         then
           let ef := getq "extend_fields" chunk in
           or_else (getq "requestId" ef)
             (or_else (getq "traceId" ef) (VStr ("msg_" ++ string_of_Z now)%string))
         else VStr mid in
       let st := sset "messageId" messageId st in
       let st := sset "model" (or_else (getq "model" chunk) (VStr "unknown")) st in
       let st := sset "nextBlockIndex" (int 0) st in
       ret (st, [ VObj [ ("type", VStr "message_start");
                         ("message",
                          VObj [ ("id", sget "messageId" st);
                                 ("type", VStr "message");
                                 ("role", VStr "assistant");
                                 ("model", sget "model" st);
                                 ("content", VArr []);
                                 ("stop_reason", VNull);
                                 ("stop_sequence", VNull);
                                 ("usage", VObj [ ("input_tokens", int 0);
                                                  ("output_tokens", int 0) ]) ]) ] ])
     else ret (st, [])) ;;
  (* Handle reasoning_content (thinking) *)
  let reasoningContent :=
    or_else (getq "reasoning_content" delta) (getq "reasoning" delta) in
  let acc :=
    if truthy reasoningContent then
      let '(st, results) := stopTextBlock acc in
      let '(st, results) :=
        if negb (truthy (sget "thinkingBlockStarted" st)) then
          let '(n, st) := post_incr "nextBlockIndex" st in
          let st := sset "thinkingBlockIndex" (VNum n) st in
          let st := sset "thinkingBlockStarted" (VBool true) st in
          (st, results ++ [ VObj [ ("type", VStr "content_block_start");
                                   ("index", sget "thinkingBlockIndex" st);
                                   ("content_block",
                                    VObj [ ("type", VStr "thinking");
                                           ("thinking", VStr "") ]) ] ])
        else (st, results) in
      (st, results ++ [ VObj [ ("type", VStr "content_block_delta");
                               ("index", sget "thinkingBlockIndex" st);
                               ("delta", VObj [ ("type", VStr "thinking_delta");
                                                ("thinking", reasoningContent) ]) ] ])
    else acc in
  (* Handle regular content *)
  let acc :=
    if truthy (getq "content" delta) then
      let '(st, results) := stopThinkingBlock acc in
      let '(st, results) :=
        if negb (truthy (sget "textBlockStarted" st)) then
          let '(n, st) := post_incr "nextBlockIndex" st in
          let st := sset "textBlockIndex" (VNum n) st in
          let st := sset "textBlockStarted" (VBool true) st in
          let st := sset "textBlockClosed" (VBool false) st in
          (st, results ++ [ VObj [ ("type", VStr "content_block_start");
                                   ("index", sget "textBlockIndex" st);
                                   ("content_block",
                                    VObj [ ("type", VStr "text");
                                           ("text", VStr "") ]) ] ])
        else (st, results) in
      (st, results ++ [ VObj [ ("type", VStr "content_block_delta");
                               ("index", sget "textBlockIndex" st);
                               ("delta", VObj [ ("type", VStr "text_delta");
                                                ("text", getq "content" delta) ]) ] ])
    else acc in
  (* Tool calls *)
  acc <-
    (if truthy (getq "tool_calls" delta) then
       tcs <- iter (getq "tool_calls" delta) ;;
       foldM toolCallDelta tcs acc
     else ret acc) ;;
  (* Finish *)
  finish_reason <- get "finish_reason" choice ;;
  acc <-
    (if truthy finish_reason then
       let '(st, results) := stopTextBlock (stopThinkingBlock acc) in
       stops <- mapM (fun entry : value * value =>
                        blockIndex <- get "blockIndex" (snd entry) ;;
                        ret (VObj [ ("type", VStr "content_block_stop");
                                    ("index", blockIndex) ]))
                     (toolCalls st) ;;
       ret (st, results ++ stops
                ++ [ VObj [ ("type", VStr "message_delta");
                            ("delta", VObj [ ("stop_reason",
                                              convertFinishReason finish_reason) ]);
                            ("usage", VObj [ ("output_tokens", int 0) ]) ];
                     VObj [ ("type", VStr "message_stop") ] ])
     else ret acc) ;;
  let '(st, results) := acc in
  ret (emit results, st).

End Translators.

End ClaudeStream.

(** ** OpenAI requests to Claude and to Gemini: [translator/to-openai/openai.js] *)

Module OpenAIRequest.

(** [url.match(/^data:([^;]+);base64,(.+)$/)]: the media type runs up to
    the first semicolon, the payload holds no line terminator. *)
Fixpoint until_semicolon (s : string) : string * string :=
  match s with
  | EmptyString => (EmptyString, EmptyString)
  | String c r =>
      if Ascii.eqb c ";" then (EmptyString, s)
      else let '(m, rest) := until_semicolon r in (String c m, rest)
  end.

Fixpoint no_line_terminator (s : string) : bool :=
  match s with
  | EmptyString => true
  | String c r =>
      negb (Ascii.eqb c (ascii_of_nat 10)) && negb (Ascii.eqb c (ascii_of_nat 13))
      && no_line_terminator r
  end.

Definition match_data_uri (url : string) : option (string * string) :=
  if String.prefix "data:" url then
    let '(media, rest) := until_semicolon (drop 5 url) in
    if negb (String.eqb media "") && String.prefix ";base64," rest then
      let data := drop 8 rest in
      if negb (String.eqb data "") && no_line_terminator data
      then Some (media, data) else None
    else None
  else None.

(** [url.match(re)] and [url.startsWith(p)] on a value: only a string has
    the method. *)
Definition as_string (v : value) : result string :=
  match v with
  | VStr s => ret s
  | VInherited _ => inl Unmodelled
  | _ => throw
  end.

Section Translators.

(** [JSON.parse], [None] when it throws a SyntaxError. *)
Variable JSON_parse : string -> option value.

(** [CLAUDE_SYSTEM_PROMPT] of [config/constants.js] and [adjustMaxTokens]
    of [helpers/maxTokensHelper.js]. *)
Variable CLAUDE_SYSTEM_PROMPT : value.
Variable adjustMaxTokens : value -> value.

(** Try parse JSON *)
Definition tryParseJSON (str : value) : value :=
  match str with
  | VStr s => match JSON_parse s with Some v => v | None => str end
  | _ => str
  end.

(** Extract text from content *)
Definition extractTextContent (content : value) : result value :=
  match content with
  | VStr _ => ret content
  | VArr l =>
      tagged <- mapM (fun c => ty <- get "type" c ;; ret (is_str ty "text", c)) l ;;
      let texts := map (fun tc : bool * value => getq "text" (snd tc))
                       (filter (fun tc : bool * value => fst tc) tagged) in
      ret (VStr (join newline texts))
  | _ => ret (VStr "")
  end.

(** [typeof c === "string" ? c : extractTextContent(c)] *)
Definition textOf (content : value) : result value :=
  if is_string content then ret content else extractTextContent content.

Definition textBlock (text : value) : value :=
  VObj [ ("type", VStr "text"); ("text", text) ].

Definition toolResultBlock (tool_use_id content : value) (is_error : value) : value :=
  VObj ([ ("type", VStr "tool_result");
          ("tool_use_id", tool_use_id);
          ("content", content) ]
        ++ (if truthy is_error then [("is_error", is_error)] else [])).

Definition toolUseBlock (id name input : value) : value :=
  VObj [ ("type", VStr "tool_use"); ("id", id); ("name", name); ("input", input) ].

(** One turn of the loop over the parts of a user message. *)
Definition userPart (blocks : list value) (part : value) : result (list value) :=
  ty <- get "type" part ;;
  if is_str ty "text" && truthy (getq "text" part) then
    ret (blocks ++ [textBlock (getq "text" part)])
  else if is_str ty "tool_result" then
    ret (blocks ++ [toolResultBlock (getq "tool_use_id" part) (getq "content" part)
                      (getq "is_error" part)])
  else if is_str ty "image_url" then
    image_url <- get "image_url" part ;;
    url <- get "url" image_url ;;
    url <- as_string url ;;
    match match_data_uri url with
    | Some (media, data) =>
        ret (blocks ++ [ VObj [ ("type", VStr "image");
                                ("source", VObj [ ("type", VStr "base64");
                                                  ("media_type", VStr media);
                                                  ("data", VStr data) ]) ] ])
    | None => ret blocks
    end
  else if is_str ty "image" && truthy (getq "source" part) then
    ret (blocks ++ [ VObj [ ("type", VStr "image"); ("source", getq "source" part) ] ])
  else ret blocks.

(** One turn of the loop over the parts of an assistant message. *)
Definition assistantPart (blocks : list value) (part : value) : result (list value) :=
  ty <- get "type" part ;;
  if is_str ty "text" && truthy (getq "text" part) then
    ret (blocks ++ [textBlock (getq "text" part)])
  else if is_str ty "tool_use" then
    ret (blocks ++ [toolUseBlock (getq "id" part) (getq "name" part) (getq "input" part)])
  else ret blocks.

(** One turn of the loop over [msg.tool_calls]. *)
Definition toolCallBlock (blocks : list value) (tc : value) : result (list value) :=
  ty <- get "type" tc ;;
  if is_str ty "function" then
    fn <- get "function" tc ;;
    name <- get "name" fn ;;
    arguments <- get "arguments" fn ;;
    ret (blocks ++ [toolUseBlock (getq "id" tc) name (tryParseJSON arguments)])
  else ret blocks.

(** Get content blocks from single message *)
Definition getContentBlocksFromMessage (msg : value) : result (list value) :=
  role <- get "role" msg ;;
  content <- get "content" msg ;;
  if is_str role "tool" then
    ret [toolResultBlock (getq "tool_call_id" msg) content VUndef]
  else if is_str role "user" then
    match content with
    | VStr _ => ret (if truthy content then [textBlock content] else [])
    | VArr parts => foldM userPart parts []
    | _ => ret []
    end
  else if is_str role "assistant" then
    blocks <-
      match content with
      | VArr parts => foldM assistantPart parts []
      | _ =>
          if truthy content then
            text <- textOf content ;;
            ret (if truthy text then [textBlock text] else [])
          else ret []
      end ;;
    match getq "tool_calls" msg with
    | VArr tcs => foldM toolCallBlock tcs blocks
    | _ => ret blocks
    end
  else ret [].

(** Convert tool choice *)
Definition convertOpenAIToolChoice (choice : value) : value :=
  let auto := VObj [("type", VStr "auto")] in
  if negb (truthy choice) then auto
  else if typeof_object choice && truthy (getq "type" choice) then choice
  else if is_str choice "auto" || is_str choice "none" then auto
  else if is_str choice "required" then VObj [("type", VStr "any")]
  else if typeof_object choice && truthy (getq "function" choice) then
    VObj [ ("type", VStr "tool"); ("name", getq "name" (getq "function" choice)) ]
  else auto.

(** The local variables of the merging loop: [result.messages] (role and
    content of every message pushed so far), [currentRole] ([None]:
    undefined) and [currentParts]. *)
Record merge := mkMerge {
  messages : list (string * list value);
  currentRole : option string;
  currentParts : list value
}.

Definition flushCurrentMessage (m : merge) : merge :=
  match currentRole m, currentParts m with
  | Some role, _ :: _ =>
      mkMerge (messages m ++ [(role, currentParts m)]) (currentRole m) []
  | _, _ => m
  end.

Definition has_type (ty : string) (b : value) : bool := is_str (getq "type" b) ty.

(** One turn of [for (const msg of nonSystemMessages)]. *)
Definition mergeMessage (m : merge) (msg : value) : result merge :=
  role <- get "role" msg ;;
  let newRole := if is_str role "user" || is_str role "tool" then "user" else "assistant" in
  blocks <- getContentBlocksFromMessage msg ;;
  let hasToolUse := existsb (has_type "tool_use") blocks in
  let hasToolResult := existsb (has_type "tool_result") blocks in
  if hasToolResult then
    let toolResultBlocks := filter (has_type "tool_result") blocks in
    let otherBlocks := filter (fun b => negb (has_type "tool_result" b)) blocks in
    let m := flushCurrentMessage m in
    let m :=
      match toolResultBlocks with
      | [] => m
      | _ => mkMerge (messages m ++ [("user", toolResultBlocks)])
                     (currentRole m) (currentParts m)
      end in
    ret (match otherBlocks with
         | [] => m
         | _ => mkMerge (messages m) (Some newRole) (currentParts m ++ otherBlocks)
         end)
  else
    let m :=
      if match currentRole m with
         | Some r => negb (String.eqb r newRole)
         | None => true
         end
      then let m := flushCurrentMessage m in
           mkMerge (messages m) (Some newRole) (currentParts m)
      else m in
    let m := mkMerge (messages m) (currentRole m) (currentParts m ++ blocks) in
    ret (if hasToolUse then flushCurrentMessage m else m).

(** [lastBlock.cache_control = { type: "ephemeral" }] *)
Definition markBlock (b : value) : value :=
  match b with
  | VObj fs => VObj (set_field "cache_control" (VObj [("type", VStr "ephemeral")]) fs)
  | _ => b
  end.

Fixpoint markLast (blocks : list value) : list value :=
  match blocks with
  | [] => []
  | [b] => [markBlock b]
  | b :: r => b :: markLast r
  end.

(** Add cache_control to last assistant message: the loop runs from the
    last message down and stops at the first assistant message whose
    content is not empty and whose last block is truthy. *)
Fixpoint markLastAssistant (msgs : list (string * list value))
  : list (string * list value) * bool :=
  match msgs with
  | [] => ([], false)
  | (role, content) :: r =>
      let '(r', done) := markLastAssistant r in
      if done then ((role, content) :: r', true)
      else if String.eqb role "assistant"
              && match content with [] => false | _ => true end
              && truthy (List.last content VUndef)
      then ((role, markLast content) :: r', true)
      else ((role, content) :: r', false)
  end.

Definition messageValue (m : string * list value) : value :=
  VObj [ ("role", VStr (fst m)); ("content", VArr (snd m)) ].

(** Extract system messages: one turn of the loop. *)
Definition systemPart (systemParts : list value) (msg : value) : result (list value) :=
  role <- get "role" msg ;;
  if is_str role "system" then
    content <- get "content" msg ;;
    text <- textOf content ;;
    ret (systemParts ++ [text])
  else ret systemParts.

(** The messages and the system texts of the request. *)
Definition claudeMessages (body : value)
  : result (list (string * list value) * list value) :=
  msgs <- get "messages" body ;;
  match msgs with
  | VArr l =>
      systemParts <- foldM systemPart l [] ;;
      let nonSystemMessages :=
        filter (fun m => negb (is_str (getq "role" m) "system")) l in
      m <- foldM mergeMessage nonSystemMessages (mkMerge [] None []) ;;
      let m := flushCurrentMessage m in
      ret (fst (markLastAssistant (messages m)), systemParts)
  | _ => ret ([], [])
  end.

(** One tool of [body.tools.map(...)]. *)
Definition claudeTool (tool : value) : result value :=
  ty <- get "type" tool ;;
  let fn := getq "function" tool in
  let toolData := if is_str ty "function" && truthy fn then fn else tool in
  ret (VObj [ ("name", getq "name" toolData);
              ("description", or_else (getq "description" toolData) (VStr ""));
              ("input_schema",
               or_else (getq "parameters" toolData)
                 (or_else (getq "input_schema" toolData)
                    (VObj [ ("type", VStr "object");
                            ("properties", VObj []);
                            ("required", VArr []) ]))) ]).

(** [result.tools[result.tools.length - 1].cache_control = ...] *)
Fixpoint markLastTool (tools : list value) : list value :=
  match tools with
  | [] => []
  | [VObj fs] =>
      [VObj (set_field "cache_control"
               (VObj [ ("type", VStr "ephemeral"); ("ttl", VStr "1h") ]) fs)]
  | t :: r => t :: markLastTool r
  end.

(** Convert OpenAI request to Claude format *)
Definition openaiToClaude (model body stream : value) : result value :=
  let max_tokens := adjustMaxTokens body in
  temperature <- get "temperature" body ;;
  converted <- claudeMessages body ;;
  let '(msgs, systemParts) := converted in
  let claudeCodePrompt := textBlock CLAUDE_SYSTEM_PROMPT in
  let system :=
    match systemParts with
    | [] => [claudeCodePrompt]
    | _ =>
        [ claudeCodePrompt;
          VObj [ ("type", VStr "text");
                 ("text", VStr (join newline systemParts));
                 ("cache_control", VObj [ ("type", VStr "ephemeral");
                                          ("ttl", VStr "1h") ]) ] ]
    end in
  tools <-
    match getq "tools" body with
    | VArr ts =>
        converted <- mapM claudeTool ts ;;
        ret [ ("tools", VArr (markLastTool converted)) ]
    | _ => ret []
    end ;;
  let tool_choice :=
    if truthy (getq "tool_choice" body)
    then [ ("tool_choice", convertOpenAIToolChoice (getq "tool_choice" body)) ]
    else [] in
  ret (VObj ([ ("model", model);
               ("max_tokens", max_tokens);
               ("stream", stream) ]
             ++ (if is_undef temperature then [] else [("temperature", temperature)])
             ++ [ ("messages", VArr (map messageValue msgs));
                  ("system", VArr system) ]
             ++ tools ++ tool_choice)).

(** One turn of the loop over the parts of a message, for Gemini. *)
Definition geminiPart (parts : list value) (part : value) : result (list value) :=
  ty <- get "type" part ;;
  if is_str ty "text" then
    ret (parts ++ [ VObj [ ("text", getq "text" part) ] ])
  else if is_str ty "image_url" then
    image_url <- get "image_url" part ;;
    url <- get "url" image_url ;;
    url <- as_string url ;;
    if String.prefix "data:" url then
      match match_data_uri url with
      | Some (media, data) =>
          ret (parts ++ [ VObj [ ("inlineData",
                                  VObj [ ("mimeType", VStr media);
                                         ("data", VStr data) ]) ] ])
      | None => ret parts
      end
    else ret parts
  else ret parts.

(** Convert OpenAI message to Gemini content *)
Definition convertOpenAIToGeminiContent (msg : value) : result value :=
  msgRole <- get "role" msg ;;
  let role := if is_str msgRole "assistant" then "model" else "user" in
  content <- get "content" msg ;;
  parts <-
    match content with
    | VStr _ => ret (if truthy content then [ VObj [ ("text", content) ] ] else [])
    | VArr l => foldM geminiPart l []
    | _ => ret []
    end ;;
  parts <-
    match getq "tool_calls" msg with
    | VArr tcs =>
        foldM (fun parts tc =>
                 fn <- get "function" tc ;;
                 name <- get "name" fn ;;
                 arguments <- get "arguments" fn ;;
                 ret (parts ++ [ VObj [ ("functionCall",
                                         VObj [ ("name", name);
                                                ("args", tryParseJSON arguments) ]) ] ]))
              tcs parts
    | _ => ret parts
    end ;;
  ret (match parts with
       | [] => VNull
       | _ => VObj [ ("role", VStr role); ("parts", VArr parts) ]
       end).

(** One turn of the loop over [body.messages] of [openaiToGemini]: the
    contents so far and the system instruction, if one was set. *)
Definition geminiMessage (acc : list value * option value) (msg : value)
  : result (list value * option value) :=
  let '(contents, systemInstruction) := acc in
  role <- get "role" msg ;;
  content <- get "content" msg ;;
  if is_str role "system" then
    text <- textOf content ;;
    ret (contents, Some (VObj [ ("parts", VArr [ VObj [ ("text", text) ] ]) ]))
  else if is_str role "tool" then
    ret (contents ++ [ VObj [ ("role", VStr "function");
                              ("parts",
                               VArr [ VObj [ ("functionResponse",
                                             VObj [ ("name", getq "tool_call_id" msg);
                                                    ("response", tryParseJSON content) ]) ] ]) ] ],
         systemInstruction)
  else
    converted <- convertOpenAIToGeminiContent msg ;;
    ret (if truthy converted then contents ++ [converted] else contents,
         systemInstruction).

(** Convert OpenAI request to Gemini format *)
Definition openaiToGemini (model body stream : value) : result value :=
  max_tokens <- get "max_tokens" body ;;
  let temperature := getq "temperature" body in
  let top_p := getq "top_p" body in
  let generationConfig :=
    (if truthy max_tokens then [ ("maxOutputTokens", max_tokens) ] else [])
    ++ (if is_undef temperature then [] else [ ("temperature", temperature) ])
    ++ (if is_undef top_p then [] else [ ("topP", top_p) ]) in
  converted <-
    match getq "messages" body with
    | VArr l => foldM geminiMessage l ([], None)
    | _ => ret ([], None)
    end ;;
  let '(contents, systemInstruction) := converted in
  let tools :=
    match getq "tools" body with
    | VArr ts =>
        let validTools :=
          filter (fun tool => truthy tool && truthy (getq "function" tool)
                              && truthy (getq "name" (getq "function" tool))) ts in
        match validTools with
        | [] => []
        | _ =>
            [ ("tools",
               VArr [ VObj [ ("functionDeclarations",
                              VArr (map (fun tool =>
                                           let fn := getq "function" tool in
                                           VObj [ ("name", getq "name" fn);
                                                  ("description",
                                                   or_else (getq "description" fn) (VStr ""));
                                                  ("parameters",
                                                   or_else (getq "parameters" fn)
                                                     (VObj [ ("type", VStr "object");
                                                             ("properties", VObj []) ])) ])
                                        validTools)) ] ]) ]
        end
    | _ => []
    end in
  ret (VObj ([ ("contents", VArr contents);
               ("generationConfig", VObj generationConfig) ]
             ++ match systemInstruction with
                | Some si => [ ("systemInstruction", si) ]
                | None => []
                end
             ++ tools)).

End Translators.

End OpenAIRequest.

(** ** OpenAI requests to Gemini, Gemini CLI and Antigravity, and the
       Gemini stream to OpenAI *)

Module Gemini.

(** [s.split("-")] *)
Fixpoint split_dash (s : string) : list string :=
  match s with
  | EmptyString => [EmptyString]
  | String c r =>
      if Ascii.eqb c "-" then EmptyString :: split_dash r
      else match split_dash r with
           | [] => [String c EmptyString]
           | p :: ps => String c p :: ps
           end
  end.

(** The name in an id of the form [ToolName-timestamp-index]:
    [idParts.slice(0, -2).join("-")] when there are more than two parts,
    the id itself otherwise. *)
Definition nameOfId (fid : string) : string :=
  let idParts := split_dash fid in
  if (2 <? List.length idParts)%nat
  then String.concat "-" (firstn (List.length idParts - 2) idParts)
  else fid.

(** [delete o.k] *)
Definition remove_field (k : string) (fs : list (string * value)) : list (string * value) :=
  filter (fun kv : string * value => negb (String.eqb (fst kv) k)) fs.

Section Translators.

(** Of [config/defaultThinkingSignature.js] and [helpers/geminiHelper.js]. *)
Variable DEFAULT_THINKING_GEMINI_SIGNATURE : value.
Variable DEFAULT_SAFETY_SETTINGS : value.
Variable convertOpenAIContentToParts : value -> result (list value).
Variable extractTextContent : value -> result value.
Variable tryParseJSON : value -> value.
Variable cleanJSONSchemaForAntigravity : value -> result value.

(** What [generateProjectId()], [generateRequestId()] and
    [generateSessionId()] return in this call. *)
Variable generatedProjectId generatedRequestId generatedSessionId : value.

(** The runtime: ToNumber on strings, [JSON.stringify], and the clock
    reading of the call (all reads of [Date.now()] in one call are given
    the same value). *)
Variable str_num : string -> num.
Variable JSON_stringify : value -> string.
Variable now : Z.

Definition textOf (content : value) : result value :=
  if is_string content then ret content else extractTextContent content.

(** Build tool_call_id -> name map: one tool call, one message, all
    messages. *)
Definition nameOfCall (tcID2Name : list (string * value)) (tc : value)
  : result (list (string * value)) :=
  ty <- get "type" tc ;;
  id <- get "id" tc ;;
  let name := getq "name" (getq "function" tc) in
  if is_str ty "function" && truthy id && truthy name
  then table_set tcID2Name (key_of id) name
  else ret tcID2Name.

Definition namesOfMessage (tcID2Name : list (string * value)) (msg : value)
  : result (list (string * value)) :=
  role <- get "role" msg ;;
  tool_calls <- get "tool_calls" msg ;;
  if is_str role "assistant" && truthy tool_calls then
    tcs <- iter tool_calls ;;
    foldM nameOfCall tcs tcID2Name
  else ret tcID2Name.

Definition buildNames (msgs : list value) : result (list (string * value)) :=
  foldM namesOfMessage msgs [].

(** Build tool responses cache: one message, all messages. *)
Definition responseOfMessage (toolResponses : list (string * value)) (msg : value)
  : result (list (string * value)) :=
  role <- get "role" msg ;;
  tool_call_id <- get "tool_call_id" msg ;;
  content <- get "content" msg ;;
  if is_str role "tool" && truthy tool_call_id
  then table_set toolResponses (key_of tool_call_id) content
  else ret toolResponses.

Definition buildResponses (msgs : list value) : result (list (string * value)) :=
  foldM responseOfMessage msgs [].

(** One turn of the loop over [toolCallIds]: the function response of the
    call [fid]. *)
Definition functionResponse (tcID2Name toolResponses : list (string * value))
    (fid : value) : result value :=
  name <-
    (let name := obj_get tcID2Name (key_of fid) in
     if negb (truthy name) then
       (* Extract name from id format: "ToolName-timestamp-index" *)
       s <- OpenAIRequest.as_string fid ;;
       ret (VStr (nameOfId s))
     else ret name) ;;
  let resp := or_else (obj_get toolResponses (key_of fid)) (VStr "{}") in
  let parsedResp := tryParseJSON resp in
  let parsedResp :=
    match parsedResp with
    | VNull => VObj [ ("result", resp) ]
    | _ =>
        if negb (typeof_object parsedResp)
        then VObj [ ("result", parsedResp) ]
        else parsedResp
    end in
  ret (VObj [ ("functionResponse",
               VObj [ ("id", fid);
                      ("name", name);
                      ("response", VObj [ ("result", parsedResp) ]) ]) ]).

(** One turn of the loop over [msg.tool_calls]: the parts and the ids so
    far. *)
Definition functionCall (acc : list value * list value) (tc : value)
  : result (list value * list value) :=
  let '(parts, toolCallIds) := acc in
  ty <- get "type" tc ;;
  if negb (is_str ty "function") then ret acc else
  fn <- get "function" tc ;;
  let args := tryParseJSON (or_else (getq "arguments" fn) (VStr "{}")) in
  name <- get "name" fn ;;
  id <- get "id" tc ;;
  ret (parts ++ [ VObj [ ("thoughtSignature", DEFAULT_THINKING_GEMINI_SIGNATURE);
                         ("functionCall",
                          VObj [ ("id", id); ("name", name); ("args", args) ]) ] ],
       toolCallIds ++ [id]).

Definition contentEntry (role : string) (parts : list value) : value :=
  VObj [ ("role", VStr role); ("parts", VArr parts) ].

(** One turn of the loop that converts the messages: the contents so far
    and the system instruction, if one was set. [n] is
    [body.messages.length]. *)
Definition convertMessage (tcID2Name toolResponses : list (string * value)) (n : nat)
    (acc : list value * option value) (msg : value)
  : result (list value * option value) :=
  let '(contents, systemInstruction) := acc in
  role <- get "role" msg ;;
  content <- get "content" msg ;;
  if is_str role "system" && (1 <? n)%nat then
    text <- textOf content ;;
    ret (contents,
         Some (VObj [ ("role", VStr "user");
                      ("parts", VArr [ VObj [ ("text", text) ] ]) ]))
  else if is_str role "user" || (is_str role "system" && (n =? 1)%nat) then
    parts <- convertOpenAIContentToParts content ;;
    ret (match parts with
         | [] => contents
         | _ => contents ++ [contentEntry "user" parts]
         end, systemInstruction)
  else if is_str role "assistant" then
    parts <-
      (if truthy content then
         text <- textOf content ;;
         ret (if truthy text then [ VObj [ ("text", text) ] ] else [])
       else ret []) ;;
    match getq "tool_calls" msg with
    | VArr tcs =>
        calls <- foldM functionCall tcs (parts, []) ;;
        let '(parts, toolCallIds) := calls in
        let contents :=
          match parts with
          | [] => contents
          | _ => contents ++ [contentEntry "model" parts]
          end in
        (* Append function responses *)
        toolParts <- mapM (functionResponse tcID2Name toolResponses) toolCallIds ;;
        ret (match toolParts with
             | [] => contents
             | _ => contents ++ [contentEntry "user" toolParts]
             end, systemInstruction)
    | _ =>
        ret (match parts with
             | [] => contents
             | _ => contents ++ [contentEntry "model" parts]
             end, systemInstruction)
    end
  else ret acc.

(** Convert tools *)
Definition convertTools (body : value) : result (list (string * value)) :=
  match getq "tools" body with
  | VArr (t0 :: ts) =>
      functionDeclarations <-
        foldM (fun decls t =>
                 ty <- get "type" t ;;
                 let fn := getq "function" t in
                 if is_str ty "function" && truthy fn then
                   ret (decls ++
                        [ VObj [ ("name", getq "name" fn);
                                 ("description", or_else (getq "description" fn) (VStr ""));
                                 ("parameters",
                                  or_else (getq "parameters" fn)
                                    (VObj [ ("type", VStr "object");
                                            ("properties", VObj []) ])) ] ])
                 else ret decls)
              (t0 :: ts) [] ;;
      ret (match functionDeclarations with
           | [] => []
           | _ => [ ("tools", VArr [ VObj [ ("functionDeclarations",
                                            VArr functionDeclarations) ] ]) ]
           end)
  | _ => ret []
  end.

Definition optionalField (k : string) (v : value) : list (string * value) :=
  if is_undef v then [] else [ (k, v) ].

(** Core: Convert OpenAI request to Gemini format (base for all variants) *)
Definition openaiToGeminiBase (model body stream : value) : result value :=
  temperature <- get "temperature" body ;;
  let generationConfig :=
    optionalField "temperature" temperature
    ++ optionalField "topP" (getq "top_p" body)
    ++ optionalField "topK" (getq "top_k" body)
    ++ optionalField "maxOutputTokens" (getq "max_tokens" body) in
  let msgs := match getq "messages" body with VArr l => l | _ => [] end in
  tcID2Name <- buildNames msgs ;;
  toolResponses <- buildResponses msgs ;;
  converted <- foldM (convertMessage tcID2Name toolResponses (List.length msgs))
                     msgs ([], None) ;;
  let '(contents, systemInstruction) := converted in
  tools <- convertTools body ;;
  ret (VObj ([ ("model", model);
               ("contents", VArr contents);
               ("generationConfig", VObj generationConfig);
               ("safetySettings", DEFAULT_SAFETY_SETTINGS) ]
             ++ match systemInstruction with
                | Some si => [ ("systemInstruction", si) ]
                | None => []
                end
             ++ tools)).

(** OpenAI -> Gemini (standard API) *)
Definition openaiToGemini (model body stream : value) : result value :=
  openaiToGeminiBase model body stream.

(** [const budgetMap = { low: 1024, medium: 8192, high: 32768 }] *)
Definition budgetMap : list (string * value) :=
  [ ("low", int 1024); ("medium", int 8192); ("high", int 32768) ].

(** [gemini.generationConfig.thinkingConfig = { thinkingBudget, include_thoughts: true }] *)
Definition setThinkingConfig (budget : value) (gemini : value) : value :=
  match gemini with
  | VObj fs =>
      match obj_get fs "generationConfig" with
      | VObj gc =>
          VObj (set_field "generationConfig"
                  (VObj (set_field "thinkingConfig"
                           (VObj [ ("thinkingBudget", budget);
                                   ("include_thoughts", VBool true) ]) gc)) fs)
      | _ => gemini
      end
  | _ => gemini
  end.

(** Clean schema for tools: one function declaration. *)
Definition cleanDeclaration (isClaude : bool) (fn : value) : result value :=
  match fn with
  | VObj fs =>
      let parameters := obj_get fs "parameters" in
      if truthy parameters then
        cleanedSchema <- cleanJSONSchemaForAntigravity parameters ;;
        if isClaude then ret (VObj (set_field "parameters" cleanedSchema fs))
        else ret (VObj (remove_field "parameters"
                          (set_field "parametersJsonSchema" cleanedSchema fs)))
      else ret fn
  | _ => ret fn
  end.

Definition cleanTools (isClaude : bool) (gemini : value) : result value :=
  match gemini with
  | VObj fs =>
      match obj_get fs "tools" with
      | VArr (VObj t0 :: rest) =>
          match obj_get t0 "functionDeclarations" with
          | VArr decls =>
              decls <- mapM (cleanDeclaration isClaude) decls ;;
              ret (VObj (set_field "tools"
                           (VArr (VObj (set_field "functionDeclarations" (VArr decls) t0)
                                  :: rest)) fs))
          | _ => ret gemini
          end
      | _ => ret gemini
      end
  | _ => ret gemini
  end.

(** OpenAI -> Gemini CLI (Cloud Code Assist) *)
Definition openaiToGeminiCLI (model body stream : value) : result value :=
  gemini <- openaiToGeminiBase model body stream ;;
  m <- OpenAIRequest.as_string model ;;
  let isClaude := includes "claude" (toLowerCase m) in
  (* Add thinking config for CLI *)
  let reasoning_effort := getq "reasoning_effort" body in
  let gemini :=
    if truthy reasoning_effort then
      let budget := or_else (obj_get budgetMap (key_of reasoning_effort)) (int 8192) in
      setThinkingConfig budget gemini
    else gemini in
  (* Thinking config from Claude format *)
  let thinking := getq "thinking" body in
  let gemini :=
    if is_str (getq "type" thinking) "enabled" && truthy (getq "budget_tokens" thinking)
    then setThinkingConfig (getq "budget_tokens" thinking) gemini
    else gemini in
  cleanTools isClaude gemini.

(** Wrap Gemini CLI format in Cloud Code wrapper *)
Definition wrapInCloudCodeEnvelope (model geminiCLI credentials : value) : result value :=
  let credentials := if is_undef credentials then VNull else credentials in
  let projectId := or_else (getq "projectId" credentials) generatedProjectId in
  contents <- get "contents" geminiCLI ;;
  ret (VObj [ ("project", projectId);
              ("model", model);
              ("userAgent", VStr "gemini-cli");
              ("requestId", generatedRequestId);
              ("request",
               VObj [ ("sessionId", generatedSessionId);
                      ("contents", contents);
                      ("systemInstruction", getq "systemInstruction" geminiCLI);
                      ("generationConfig", getq "generationConfig" geminiCLI);
                      ("safetySettings", getq "safetySettings" geminiCLI);
                      ("tools", getq "tools" geminiCLI) ]) ]).

(** OpenAI -> Antigravity (Sandbox Cloud Code with wrapper) *)
Definition openaiToAntigravity (model body stream credentials : value) : result value :=
  geminiCLI <- openaiToGeminiCLI model body stream ;;
  wrapInCloudCodeEnvelope model geminiCLI credentials.

(** The translator registered for Gemini CLI:
    [(model, body, stream, credentials) =>
       wrapInCloudCodeEnvelope(model, openaiToGeminiCLI(model, body, stream), credentials)] *)
Definition openaiToGeminiCLIWrapped (model body stream credentials : value)
  : result value :=
  geminiCLI <- openaiToGeminiCLI model body stream ;;
  wrapInCloudCodeEnvelope model geminiCLI credentials.

(** The chunk literal that [geminiToOpenAIResponse] writes out at every
    push. *)
Definition geminiChunk (st : state) (delta finish_reason : value) : value :=
  VObj [ ("id", VStr ("chatcmpl-" ++ to_string (sget "messageId" st))%string);
         ("object", VStr "chat.completion.chunk");
         ("created", int (now / 1000));
         ("model", sget "model" st);
         ("choices", VArr [ VObj [ ("index", int 0);
                                   ("delta", delta);
                                   ("finish_reason", finish_reason) ] ]) ].

(** A function-call part: the tool call is numbered, recorded and
    announced with its arguments serialized whole. *)
Definition functionCallChunk (acc : state * list value) (fc : value)
  : state * list value :=
  let '(st, results) := acc in
  let fcName := getq "name" fc in
  let fcArgs := or_else (getq "args" fc) (VObj []) in
  let '(toolCallIndex, st) := ClaudeStream.post_incr str_num "functionIndex" st in
  let toolCall :=
    VObj [ ("id", VStr (to_string fcName ++ "-" ++ string_of_Z now ++ "-"
                        ++ to_string (VNum toolCallIndex))%string);
           ("index", VNum toolCallIndex);
           ("type", VStr "function");
           ("function", VObj [ ("name", fcName);
                               ("arguments", VStr (JSON_stringify fcArgs)) ]) ] in
  let st := with_toolCalls (map_set (VNum toolCallIndex) toolCall (toolCalls st)) st in
  (st, results ++ [ geminiChunk st (VObj [ ("tool_calls", VArr [toolCall]) ]) VNull ]).

(** One turn of [for (const part of content.parts)]. *)
Definition partChunks (acc : state * list value) (part : value)
  : result (state * list value) :=
  thoughtSignature <- get "thoughtSignature" part ;;
  let hasThoughtSig := or_else thoughtSignature (getq "thought_signature" part) in
  let isThought := match getq "thought" part with VBool true => true | _ => false end in
  let text := getq "text" part in
  let hasTextContent := negb (is_undef text) && negb (is_str text "") in
  let fc := getq "functionCall" part in
  if truthy hasThoughtSig then
    let acc :=
      if hasTextContent then
        (fst acc,
         snd acc ++ [ geminiChunk (fst acc)
                        (VObj [ (if isThought then "reasoning_content" else "content",
                                 text) ]) VNull ])
      else acc in
    ret (if truthy fc then functionCallChunk acc fc else acc)
  else
    let acc :=
      if hasTextContent then
        (fst acc, snd acc ++ [ geminiChunk (fst acc) (VObj [ ("content", text) ]) VNull ])
      else acc in
    let acc := if truthy fc then functionCallChunk acc fc else acc in
    let inlineData := or_else (getq "inlineData" part) (getq "inline_data" part) in
    if truthy (getq "data" inlineData) then
      let mimeType :=
        or_else (getq "mimeType" inlineData)
          (or_else (getq "mime_type" inlineData) (VStr "image/png")) in
      let url := ("data:" ++ to_string mimeType ++ ";base64,"
                  ++ to_string (getq "data" inlineData))%string in
      ret (fst acc,
           snd acc ++ [ geminiChunk (fst acc)
                          (VObj [ ("images",
                                   VArr [ VObj [ ("type", VStr "image_url");
                                                 ("image_url",
                                                  VObj [ ("url", VStr url) ]) ] ]) ])
                          VNull ])
    else ret acc.

(** [x > 0] *)
Definition positive (v : value) : bool :=
  match to_number str_num v with
  | Fin z => 0 <? z
  | NaN => false
  end.

(** Core: Convert Gemini response chunk to OpenAI format *)
Definition geminiToOpenAIResponse (chunk : value) (st : state)
  : result (value * state) :=
  if negb (truthy chunk) then ret (VNull, st) else
  (* Handle Antigravity wrapper *)
  let response := or_else (getq "response" chunk) chunk in
  if negb (truthy response) || negb (truthy (first (getq "candidates" response)))
  then ret (VNull, st) else
  let candidate := first (getq "candidates" response) in
  let content := getq "content" candidate in
  (* Initialize state *)
  let acc :=
    if negb (truthy (sget "messageId" st)) then
      let st := sset "messageId"
                  (or_else (getq "responseId" response)
                     (VStr ("msg_" ++ string_of_Z now)%string)) st in
      let st := sset "model" (or_else (getq "modelVersion" response) (VStr "gemini")) st in
      let st := sset "functionIndex" (int 0) st in
      (st, [ geminiChunk st (VObj [ ("role", VStr "assistant") ]) VNull ])
    else (st, []) in
  (* Process parts *)
  acc <-
    (if truthy (getq "parts" content) then
       parts <- iter (getq "parts" content) ;;
       foldM partChunks parts acc
     else ret acc) ;;
  (* Finish reason *)
  acc <-
    (if truthy (getq "finishReason" candidate) then
       reason <- OpenAIRequest.as_string (getq "finishReason" candidate) ;;
       let finishReason :=
         if String.eqb (toLowerCase reason) "stop"
            && match toolCalls (fst acc) with [] => false | _ => true end
         then "tool_calls" else toLowerCase reason in
       ret (sset "finishReason" (VStr finishReason) (fst acc),
            snd acc ++ [ geminiChunk (fst acc) (VObj []) (VStr finishReason) ])
     else ret acc) ;;
  (* Usage metadata *)
  let usage := or_else (getq "usageMetadata" response) (getq "usageMetadata" chunk) in
  let st :=
    if truthy usage then
      let promptTokens :=
        add (or_else (getq "promptTokenCount" usage) (int 0))
            (or_else (getq "thoughtsTokenCount" usage) (int 0)) in
      sset "usage"
        (VObj ([ ("prompt_tokens", promptTokens);
                 ("completion_tokens", or_else (getq "candidatesTokenCount" usage) (int 0));
                 ("total_tokens", or_else (getq "totalTokenCount" usage) (int 0)) ]
               ++ (if positive (getq "thoughtsTokenCount" usage)
                   then [ ("completion_tokens_details",
                           VObj [ ("reasoning_tokens",
                                   getq "thoughtsTokenCount" usage) ]) ]
                   else [])))
        (fst acc)
    else fst acc in
  ret (emit (snd acc), st).

End Translators.

End Gemini.

(** ** The registry and the caller's loop *)

Inductive format := OPENAI | CLAUDE | GEMINI | GEMINI_CLI | ANTIGRAVITY.

(** A request translator as [register] receives it: model, body, stream
    flag and credentials. *)
Definition requestTranslator : Type := value -> value -> value -> value -> result value.

Record registration := register {
  source : format;
  target : format;
  request : requestTranslator
}.

Section Registry.

Variable JSON_parse : string -> option value.
Variable CLAUDE_SYSTEM_PROMPT : value.
Variable adjustMaxTokens : value -> value.
Variable DEFAULT_THINKING_GEMINI_SIGNATURE : value.
Variable DEFAULT_SAFETY_SETTINGS : value.
Variable convertOpenAIContentToParts : value -> result (list value).
Variable extractTextContent : value -> result value.
Variable tryParseJSON : value -> value.
Variable cleanJSONSchemaForAntigravity : value -> result value.
Variable generatedProjectId generatedRequestId generatedSessionId : value.

Definition geminiBase : value -> value -> value -> result value :=
  Gemini.openaiToGeminiBase DEFAULT_THINKING_GEMINI_SIGNATURE DEFAULT_SAFETY_SETTINGS
    convertOpenAIContentToParts extractTextContent tryParseJSON.

Definition geminiCLI : value -> value -> value -> result value :=
  Gemini.openaiToGeminiCLI DEFAULT_THINKING_GEMINI_SIGNATURE DEFAULT_SAFETY_SETTINGS
    convertOpenAIContentToParts extractTextContent tryParseJSON
    cleanJSONSchemaForAntigravity.

(** Every [register] call of the sources that passes a request
    translator: those of [openai.js], then those of the Gemini module. *)
Definition registrations : list registration :=
  [ register OPENAI CLAUDE
      (fun model body stream _ =>
         OpenAIRequest.openaiToClaude JSON_parse CLAUDE_SYSTEM_PROMPT adjustMaxTokens
           model body stream);
    register OPENAI GEMINI
      (fun model body stream _ => OpenAIRequest.openaiToGemini JSON_parse model body stream);
    register OPENAI GEMINI_CLI
      (fun model body stream _ => OpenAIRequest.openaiToGemini JSON_parse model body stream);
    register OPENAI GEMINI
      (fun model body stream _ =>
         Gemini.openaiToGemini DEFAULT_THINKING_GEMINI_SIGNATURE DEFAULT_SAFETY_SETTINGS
           convertOpenAIContentToParts extractTextContent tryParseJSON model body stream);
    register OPENAI GEMINI_CLI
      (Gemini.openaiToGeminiCLIWrapped DEFAULT_THINKING_GEMINI_SIGNATURE
         DEFAULT_SAFETY_SETTINGS convertOpenAIContentToParts extractTextContent
         tryParseJSON cleanJSONSchemaForAntigravity
         generatedProjectId generatedRequestId generatedSessionId);
    register OPENAI ANTIGRAVITY
      (Gemini.openaiToAntigravity DEFAULT_THINKING_GEMINI_SIGNATURE
         DEFAULT_SAFETY_SETTINGS convertOpenAIContentToParts extractTextContent
         tryParseJSON cleanJSONSchemaForAntigravity
         generatedProjectId generatedRequestId generatedSessionId) ].

End Registry.

(** The caller's loop over one exchange: one call per event, in arrival
    order and on the same state. Every event comes with the clock reading
    of its call. The chunks of all the calls are collected in emission
    order, each as it is when its call returns: this is what a caller
    finds that writes every chunk out before it makes the next call. The
    chunk objects are no copies, though. [claudeToOpenAIResponse] puts
    into the chunk that announces a tool call the very object that it
    stores in [state.toolCalls], and appends the later fragments to that
    object in place: a caller that keeps the chunk objects and reads them
    afterwards finds another value there, which [keptExchange] below
    gives. *)
Fixpoint exchange (step : Z -> value -> state -> result (value * state))
    (events : list (Z * value)) (st : state) : result (list value * state) :=
  match events with
  | [] => ret ([], st)
  | (now, ev) :: rest =>
      out <- step now ev st ;;
      more <- exchange step rest (snd out) ;;
      ret (chunks_of (fst out) ++ fst more, snd more)
  end.

(** The tool-call deltas that an OpenAI chunk carries. *)
Definition toolCallDeltas (chunk : value) : list value :=
  chunks_of (getq "tool_calls" (getq "delta" (first (getq "choices" chunk)))).

(** The argument fragments emitted for the tool call of output index [k],
    concatenated in emission order. *)
Definition argumentsAt (k : value) (chunks : list value) : string :=
  String.concat ""
    (map (fun tc => to_string (getq "arguments" (getq "function" tc)))
         (filter (fun tc => same_key (getq "index" tc) k)
                 (flat_map toolCallDeltas chunks))).

(** The [finish_reason] of an OpenAI chunk. *)
Definition finishReasonOf (chunk : value) : value :=
  getq "finish_reason" (first (getq "choices" chunk)).

(** Provider events, by what they are. *)
Definition isMessageStart (ev : value) : bool :=
  is_str (getq "type" ev) "message_start".

Definition isToolUseStart (i : value) (ev : value) : bool :=
  is_str (getq "type" ev) "content_block_start"
  && is_str (getq "type" (getq "content_block" ev)) "tool_use"
  && same_key (getq "index" ev) i.

Definition isInputJsonDelta (i : value) (ev : value) : bool :=
  is_str (getq "type" ev) "content_block_delta"
  && is_str (getq "type" (getq "delta" ev)) "input_json_delta"
  && same_key (getq "index" ev) i.

(** The [partial_json] fragments that the provider sends for the content
    block of index [i]. *)
Definition providerFragments (i : value) (events : list (Z * value)) : list value :=
  map (fun ev => getq "partial_json" (getq "delta" (snd ev)))
      (filter (fun ev => isInputJsonDelta i (snd ev)) events).

(** An event that may follow the start of the tool-use block [i] within
    its exchange: no second [message_start], no second start of a
    tool-use block under the same index, and fragments that are strings,
    as the Claude wire format has them. *)
Definition continues (i : value) (ev : value) : bool :=
  negb (isMessageStart ev)
  && negb (isToolUseStart i ev)
  && (negb (isInputJsonDelta i ev)
      || is_string (getq "partial_json" (getq "delta" ev))).

(** The start of a tool-use block, under whatever index. *)
Definition startsToolUse (ev : value) : bool :=
  is_str (getq "type" ev) "content_block_start"
  && is_str (getq "type" (getq "content_block" ev)) "tool_use".

(** How many tool-use blocks the events start. *)
Definition toolUseStarts (events : list (Z * value)) : nat :=
  List.length (filter (fun ev => startsToolUse (snd ev)) events).

(** The object that the start of a tool-use block has stored in the Map
    under the key [i], as it is after the events that follow. The
    translator appends the fragments for [i] to it in place
    ([toolCall.function.arguments += delta.partial_json], which the
    embedding writes as an update of the Map's entry); a later tool-use
    start under the same key stores a new object there and leaves this
    one as it is by then. *)
Fixpoint settled (str_num : string -> num) (i : value)
    (events : list (Z * value)) (st : state) : result (option value) :=
  match events with
  | [] => ret (map_get i (toolCalls st))
  | (now, ev) :: rest =>
      if isToolUseStart i ev then ret (map_get i (toolCalls st))
      else
        out <- ClaudeStream.claudeToOpenAIResponse str_num now ev st ;;
        settled str_num i rest (snd out)
  end.

(** The caller's loop again, for a caller that keeps the chunk objects
    and reads them when the exchange is over. The chunk that announces a
    tool call holds the object of the Map
    ([state.toolCalls.set(chunk.index, toolCall)], then
    [results.push(createChunk(state, { tool_calls: [toolCall] }))]), so
    that it is read with the tool call as it has settled. Every other
    chunk is made of objects of its own and of values of its event, which
    no later call writes to: it is read as it was returned. An index that
    is an array or an object is a key that no later event has, its tool
    call is never written to again. *)
Fixpoint keptExchange (str_num : string -> num)
    (events : list (Z * value)) (st : state) : result (list value * state) :=
  match events with
  | [] => ret ([], st)
  | (now, ev) :: rest =>
      out <- ClaudeStream.claudeToOpenAIResponse str_num now ev st ;;
      more <- keptExchange str_num rest (snd out) ;;
      toolCall <- (if isToolUseStart (getq "index" ev) ev
                   then settled str_num (getq "index" ev) rest (snd out)
                   else ret None) ;;
      let read :=
        match toolCall with
        | Some o =>
            [ClaudeStream.createChunk now (snd out)
               (VObj [("tool_calls", VArr [o])]) VNull]
        | None => chunks_of (fst out)
        end in
      ret (read ++ fst more, snd more)
  end.

(** A chunk is absent: [null] or [undefined]. An array field lacks its
    first element: it is absent or empty. *)
Definition absent (v : value) : Prop := v = VNull \/ v = VUndef.
Definition lacksFirst (v : value) : Prop := absent v \/ v = VArr [].

(** * Properties *)

(** ** Values *)

Lemma get_getq k v : nullish v = false -> get k v = inr (getq k v).
Proof.
  unfold getq. destruct v; simpl; intros H; try discriminate H; reflexivity.
Qed.

Lemma truthy_not_nullish v : truthy v = true -> nullish v = false.
Proof. destruct v; simpl; intros H; try discriminate H; reflexivity. Qed.

Lemma get_truthy k v : truthy v = true -> get k v = inr (getq k v).
Proof. intros H. apply get_getq, truthy_not_nullish, H. Qed.

Lemma is_str_eq v s : is_str v s = true -> v = VStr s.
Proof.
  destruct v; simpl; intros H; try discriminate H.
  apply String.eqb_eq in H. now subst.
Qed.

Lemma is_str_refl s : is_str (VStr s) s = true.
Proof. simpl. apply String.eqb_refl. Qed.

Lemma same_key_eq a b : same_key a b = true -> a = b.
Proof.
  destruct a as [| |x|[|x]|x|x|x|x], b as [| |y|[|y]|y|y|y|y];
    simpl; intros H; try discriminate H; try reflexivity.
  - apply Bool.eqb_prop in H. now subst.
  - apply Z.eqb_eq in H. now subst.
  - apply String.eqb_eq in H. now subst.
Qed.

Lemma same_key_sym a b : same_key a b = same_key b a.
Proof.
  destruct a as [| |x|[|x]|x|x|x|x], b as [| |y|[|y]|y|y|y|y];
    simpl; try reflexivity.
  - destruct x, y; reflexivity.
  - apply Z.eqb_sym.
  - apply String.eqb_sym.
Qed.

Section MapFacts.
Context {A : Type}.

Lemma map_get_set_same (k j : value) (v : A) m :
  same_key k j = true -> map_get j (map_set k v m) = Some v.
Proof.
  intros H. induction m as [|[k' v'] m IH]; simpl.
  - now rewrite H.
  - destruct (same_key k' k) eqn:E; simpl.
    + apply same_key_eq in E. subst k'. now rewrite H.
    + destruct (same_key k' j) eqn:E'; [|exact IH].
      apply same_key_eq in H. subst j. congruence.
Qed.

Lemma map_get_set_other (k j : value) (v : A) m :
  same_key k j = false -> map_get j (map_set k v m) = map_get j m.
Proof.
  intros H. induction m as [|[k' v'] m IH]; simpl.
  - now rewrite H.
  - destruct (same_key k' k) eqn:E; simpl.
    + apply same_key_eq in E. subst k'. now rewrite H.
    + destruct (same_key k' j); [reflexivity|exact IH].
Qed.

Lemma map_get_In (j : value) (v : A) m :
  map_get j m = Some v -> exists k, In (k, v) m.
Proof.
  induction m as [|[k' v'] m IH]; simpl; [discriminate|].
  destruct (same_key k' j).
  - intros [= ->]. exists k'. now left.
  - intros H. destruct (IH H) as [k Hk]. exists k. now right.
Qed.

End MapFacts.

Lemma obj_get_set_same k v fs : obj_get (set_field k v fs) k = v.
Proof.
  unfold obj_get. induction fs as [|[k' v'] fs IH]; simpl.
  - now rewrite String.eqb_refl.
  - destruct (String.eqb k k') eqn:E; simpl.
    + now rewrite String.eqb_refl.
    + now rewrite E.
Qed.

Lemma obj_get_set_other k j v fs :
  String.eqb j k = false -> obj_get (set_field k v fs) j = obj_get fs j.
Proof.
  intros H. unfold obj_get. induction fs as [|[k' v'] fs IH]; simpl.
  - now rewrite H.
  - destruct (String.eqb k k') eqn:E; simpl.
    + apply String.eqb_eq in E. subst k'. now rewrite H.
    + destruct (String.eqb j k'); [reflexivity|exact IH].
Qed.

Lemma sget_sset_same k v st : sget k (sset k v st) = v.
Proof. apply obj_get_set_same. Qed.

Lemma sget_sset_other k j v st :
  String.eqb j k = false -> sget j (sset k v st) = sget j st.
Proof. apply obj_get_set_other. Qed.

Lemma is_str_inherited k s : is_str (inherited k) s = false.
Proof. unfold inherited. destruct (existsb _ _); reflexivity. Qed.

Lemma getq_str_obj k v s : is_str (getq k v) s = true -> exists fs, v = VObj fs.
Proof.
  destruct v as [| |b|n|t|l|fs|i]; unfold getq, get, ret, throw;
    try (rewrite is_str_inherited; discriminate); try discriminate.
  - destruct (String.eqb k "length");
      [discriminate | rewrite is_str_inherited; discriminate].
  - destruct (String.eqb k "length");
      [discriminate | rewrite is_str_inherited; discriminate].
  - intros _. now exists fs.
Qed.

Lemma append_nil_r s : (s ++ "")%string = s.
Proof. induction s as [|c s IH]; simpl; [reflexivity | now rewrite IH]. Qed.

Lemma append_assoc a b c : ((a ++ b) ++ c)%string = (a ++ (b ++ c))%string.
Proof. induction a as [|x a IH]; simpl; [reflexivity | now rewrite IH]. Qed.

Lemma concat_cons x l : String.concat "" (x :: l) = (x ++ String.concat "" l)%string.
Proof. destruct l; simpl; [now rewrite append_nil_r | reflexivity]. Qed.

Lemma concat_app l1 l2 :
  String.concat "" (l1 ++ l2) = (String.concat "" l1 ++ String.concat "" l2)%string.
Proof.
  induction l1 as [|x l1 IH]; [reflexivity|].
  rewrite <- app_comm_cons, !concat_cons, IH. now rewrite append_assoc.
Qed.

Lemma argumentsAt_app k a b :
  argumentsAt k (a ++ b) = (argumentsAt k a ++ argumentsAt k b)%string.
Proof.
  unfold argumentsAt. now rewrite flat_map_app, filter_app, map_app, concat_app.
Qed.

(** ** The stream translators *)

Module StreamFacts.
Import ClaudeStream.

(** C2. The two reason mappings agree on the defined set:
    [convertStopReason] sends tool_use, max_tokens and end_turn to
    tool_calls, length and stop, [convertFinishReason] sends these back,
    so either composition is the identity on its defined set; every other
    input goes to stop, respectively to end_turn. *)
Theorem reason_mappings_consistent :
  convertStopReason (VStr "tool_use") = VStr "tool_calls"
  /\ convertStopReason (VStr "max_tokens") = VStr "length"
  /\ convertStopReason (VStr "end_turn") = VStr "stop"
  /\ convertFinishReason (VStr "tool_calls") = VStr "tool_use"
  /\ convertFinishReason (VStr "length") = VStr "max_tokens"
  /\ convertFinishReason (VStr "stop") = VStr "end_turn"
  /\ (forall r, In r ["tool_use"; "max_tokens"; "end_turn"] ->
        convertFinishReason (convertStopReason (VStr r)) = VStr r)
  /\ (forall r, In r ["tool_calls"; "length"; "stop"] ->
        convertStopReason (convertFinishReason (VStr r)) = VStr r)
  /\ (forall v, ~ In v [VStr "tool_use"; VStr "max_tokens"; VStr "end_turn"] ->
        convertStopReason v = VStr "stop")
  /\ (forall v, ~ In v [VStr "tool_calls"; VStr "length"; VStr "stop"] ->
        convertFinishReason v = VStr "end_turn").
Proof.
  repeat split; try reflexivity.
  - intros r [<-|[<-|[<-|[]]]]; reflexivity.
  - intros r [<-|[<-|[<-|[]]]]; reflexivity.
  - intros v Hv. unfold convertStopReason.
    destruct (is_str v "end_turn") eqn:E1; [reflexivity|].
    destruct (is_str v "max_tokens") eqn:E2.
    { apply is_str_eq in E2. subst v. exfalso. apply Hv. simpl. auto. }
    destruct (is_str v "tool_use") eqn:E3.
    { apply is_str_eq in E3. subst v. exfalso. apply Hv. simpl. auto. }
    destruct (is_str v "stop_sequence"); reflexivity.
  - intros v Hv. unfold convertFinishReason.
    destruct (is_str v "stop") eqn:E1.
    { apply is_str_eq in E1. subst v. exfalso. apply Hv. simpl. auto. }
    destruct (is_str v "length") eqn:E2.
    { apply is_str_eq in E2. subst v. exfalso. apply Hv. simpl. auto. }
    destruct (is_str v "tool_calls") eqn:E3.
    { apply is_str_eq in E3. subst v. exfalso. apply Hv. simpl. auto. }
    reflexivity.
Qed.

Lemma reason_mappings_witness :
  convertFinishReason (convertStopReason (VStr "max_tokens")) = VStr "max_tokens"
  /\ convertStopReason (convertFinishReason (VStr "tool_calls")) = VStr "tool_calls"
  /\ convertStopReason (VStr "refusal") = VStr "stop"
  /\ convertFinishReason VNull = VStr "end_turn".
Proof.
  destruct reason_mappings_consistent
    as (_ & _ & _ & _ & _ & _ & Hback & Hforth & Hstop & Hfinish).
  split; [|split; [|split]].
  - apply Hback. simpl. auto.
  - apply Hforth. simpl. auto.
  - apply Hstop. simpl. intros [H|[H|[H|[]]]]; discriminate H.
  - apply Hfinish. simpl. intros [H|[H|[H|[]]]]; discriminate H.
Defined.

Section Claude.
Variable str_num : string -> num.

(** C10. A [content_block_delta] of type [input_json_delta] whose index
    has no entry in [state.toolCalls] emits nothing and leaves the state,
    with its Map and the argument buffers in it, as it was. *)
Theorem unrecorded_fragment_dropped now chunk st :
  is_str (getq "type" chunk) "content_block_delta" = true ->
  is_str (getq "type" (getq "delta" chunk)) "input_json_delta" = true ->
  map_get (getq "index" chunk) (toolCalls st) = None ->
  claudeToOpenAIResponse str_num now chunk st = inr (VNull, st).
Proof.
  intros Hty Hdelta Hnone.
  destruct (getq_str_obj _ _ _ Hty) as [fs ->].
  apply is_str_eq in Hty. apply is_str_eq in Hdelta.
  change (getq "type" (VObj fs)) with (obj_get fs "type") in Hty.
  change (getq "delta" (VObj fs)) with (obj_get fs "delta") in Hdelta.
  change (getq "index" (VObj fs)) with (obj_get fs "index") in Hnone.
  unfold claudeToOpenAIResponse. cbn [truthy negb get bind ret].
  rewrite Hty. cbn [is_str String.eqb Ascii.eqb Bool.eqb].
  unfold onContentBlockDelta. cbn [get bind ret].
  rewrite Hdelta. cbn [is_str String.eqb Ascii.eqb Bool.eqb andb].
  destruct (truthy (getq "partial_json" (obj_get fs "delta"))); [|reflexivity].
  rewrite Hnone. reflexivity.
Qed.

(** *** Events that are no objects *)

Lemma not_object_no_type v s :
  (forall fs, v <> VObj fs) -> is_str (getq "type" v) s = false.
Proof.
  intros H. destruct (is_str (getq "type" v) s) eqn:E; [|reflexivity].
  destruct (getq_str_obj _ _ _ E) as [fs ->]. now elim (H fs).
Qed.

Lemma not_object_ignored now v st :
  (forall fs, v <> VObj fs) ->
  claudeToOpenAIResponse str_num now v st = inr (VNull, st).
Proof.
  intros H. unfold claudeToOpenAIResponse.
  destruct (truthy v) eqn:T; [|reflexivity]. cbn [negb].
  rewrite (get_truthy "type" v T). cbn [bind].
  now rewrite !not_object_no_type by exact H.
Qed.

(** *** What a chunk carries *)

Lemma toolCallDeltas_createChunk now st delta fr :
  toolCallDeltas (createChunk now st delta fr) = chunks_of (getq "tool_calls" delta).
Proof. reflexivity. Qed.

Lemma toolCallDeltas_finishChunk now st fr usage :
  toolCallDeltas (finishChunk now st fr usage) = [].
Proof. reflexivity. Qed.

Lemma record_index idx id nm args :
  getq "index" (toolCallRecord idx id nm args) = idx.
Proof. reflexivity. Qed.

Lemma record_arguments idx id nm args :
  getq "arguments" (getq "function" (toolCallRecord idx id nm args)) = args.
Proof. reflexivity. Qed.

Lemma append_arguments_record idx id nm buf fragment :
  append_arguments (toolCallRecord idx id nm (VStr buf)) fragment
  = inr (toolCallRecord idx id nm (VStr (buf ++ to_string fragment)%string)).
Proof. reflexivity. Qed.

(** *** Following one tool call through an exchange *)

Section Tracking.

(** The content block index [i] of the tool call, its output index [k],
    its id and its name. *)
Variable i : value.
Variable k : Z.
Variables id nm : value.
Hypothesis Hi : same_key i i = true.

(** An entry recorded for another tool call: its output index is not
    [k]. *)
Definition recorded (v : value) : Prop :=
  exists idx id' nm' buf,
    v = toolCallRecord (VNum idx) id' nm' (VStr buf) /\ idx <> Fin k.

(** The Map holds the tool call under [i] with the buffer [buf], every
    other entry belongs to another output index, and the counter is
    beyond [k]. *)
Record tracking (buf : string) (st : state) : Prop := {
  tr_entry :
    map_get i (toolCalls st) = Some (toolCallRecord (int k) id nm (VStr buf));
  tr_others :
    forall j v, same_key j i = false -> map_get j (toolCalls st) = Some v -> recorded v;
  tr_counter :
    exists c, to_number str_num (sget "toolCallIndex" st) = Fin c /\ k < c
}.

Definition fragmentOf (ev : value) : string :=
  if isInputJsonDelta i ev
  then to_string (getq "partial_json" (getq "delta" ev))
  else "".

Lemma tracking_sset buf st f v :
  String.eqb "toolCallIndex" f = false ->
  tracking buf st -> tracking buf (sset f v st).
Proof.
  intros Hf [He Ho Hc]. split; [exact He | exact Ho |].
  destruct Hc as (c & Hc & Hk). exists c. now rewrite sget_sset_other.
Qed.

Lemma recorded_index_differs v :
  recorded v -> same_key (getq "index" v) (int k) = false.
Proof.
  intros (idx & id' & nm' & buf & -> & Hidx).
  change (getq "index" (toolCallRecord (VNum idx) id' nm' (VStr buf))) with (VNum idx).
  destruct idx as [|z]; [reflexivity|]. simpl.
  apply Z.eqb_neq. congruence.
Qed.

(** The call returns, its chunks carry the fragment [frag] for the
    output index [k] and nothing else for it, and the buffer grows by
    [frag]. *)
Definition keeps (buf frag : string) (out : result (value * state)) : Prop :=
  exists r st',
    out = inr (r, st')
    /\ argumentsAt (int k) (chunks_of r) = frag
    /\ tracking (buf ++ frag)%string st'.

Lemma keeps_silent buf st : tracking buf st -> keeps buf "" (inr (VNull, st)).
Proof.
  intros H. exists VNull, st. rewrite append_nil_r.
  split; [reflexivity | split; [reflexivity | exact H]].
Qed.

Lemma keeps_content now buf st st' delta :
  getq "tool_calls" delta = VUndef -> tracking buf st' ->
  keeps buf "" (inr (VArr [createChunk now st delta VNull], st')).
Proof.
  intros Hd H. eexists _, st'. rewrite append_nil_r. split; [reflexivity|].
  split; [|exact H].
  unfold argumentsAt. cbn [chunks_of flat_map].
  rewrite toolCallDeltas_createChunk, Hd. reflexivity.
Qed.

Lemma onContentBlockStart_keeps now fs buf st :
  tracking buf st ->
  (is_str (getq "type" (obj_get fs "content_block")) "tool_use" = true ->
   same_key (obj_get fs "index") i = false) ->
  keeps buf "" (onContentBlockStart str_num now (VObj fs) st).
Proof.
  intros Htr Hother. unfold onContentBlockStart. cbn [get bind ret].
  destruct (is_str (getq "type" (obj_get fs "content_block")) "text").
  { apply keeps_silent, tracking_sset; [reflexivity | exact Htr]. }
  destruct (is_str (getq "type" (obj_get fs "content_block")) "thinking").
  { apply keeps_content; [reflexivity|].
    apply tracking_sset; [reflexivity|]. apply tracking_sset; [reflexivity | exact Htr]. }
  destruct (is_str (getq "type" (obj_get fs "content_block")) "tool_use") eqn:Etool;
    [|apply keeps_silent, Htr].
  specialize (Hother eq_refl).
  destruct (getq_str_obj _ _ _ Etool) as [bfs Hb]. rewrite Hb. cbn [get bind ret].
  destruct Htr as [He Ho (c & Hc & Hk)]. rewrite Hc.
  eexists _, _. rewrite append_nil_r. split; [reflexivity|]. split.
  - unfold argumentsAt. cbn [emit chunks_of flat_map].
    rewrite toolCallDeltas_createChunk. cbn.
    replace (c =? k) with false by (symmetry; apply Z.eqb_neq; lia). reflexivity.
  - split; cbn [toolCalls with_toolCalls sset].
    + rewrite map_get_set_other by exact Hother. exact He.
    + intros j v Hj Hget.
      destruct (same_key (obj_get fs "index") j) eqn:Ej.
      * rewrite map_get_set_same in Hget by exact Ej. injection Hget as <-.
        exists (Fin c), (obj_get bfs "id"), (obj_get bfs "name"), "".
        split; [reflexivity|]. intros [= Hck]. lia.
      * rewrite map_get_set_other in Hget by exact Ej. exact (Ho j v Hj Hget).
    + exists (c + 1). split; [|lia].
      unfold with_toolCalls, sget. cbn [fields sset].
      rewrite obj_get_set_same. reflexivity.
Qed.

Lemma keeps_fragment now buf st j idx id' nm' buf' fragment :
  map_get j (toolCalls st) = Some (toolCallRecord (VNum idx) id' nm' (VStr buf')) ->
  tracking buf st ->
  (same_key j i = true -> idx = Fin k /\ id' = id /\ nm' = nm /\ buf' = buf) ->
  (same_key j i = false -> idx <> Fin k) ->
  let st' :=
    with_toolCalls
      (map_set j (toolCallRecord (VNum idx) id' nm'
                    (VStr (buf' ++ to_string fragment)%string)) (toolCalls st)) st in
  keeps buf (if same_key j i then to_string fragment else "")
    (inr (VArr [ createChunk now st'
                   (VObj [ ("tool_calls",
                            VArr [ VObj [ ("index", VNum idx);
                                          ("id", id');
                                          ("function",
                                           VObj [ ("arguments", fragment) ]) ] ]) ])
                   VNull ], st')).
Proof.
  intros Hget [He Ho Hc] Hsame Hdiff st'.
  eexists _, st'. split; [reflexivity|].
  destruct (same_key j i) eqn:Ej.
  - destruct (Hsame eq_refl) as (-> & -> & -> & ->).
    apply same_key_eq in Ej. subst j. split.
    + unfold argumentsAt. cbn [chunks_of flat_map].
      rewrite toolCallDeltas_createChunk. cbn. rewrite Z.eqb_refl. reflexivity.
    + split; cbn [toolCalls with_toolCalls st'].
      * now rewrite map_get_set_same by exact Hi.
      * intros j v Hj Hv. rewrite map_get_set_other in Hv.
        -- exact (Ho j v Hj Hv).
        -- now rewrite same_key_sym.
      * exact Hc.
  - specialize (Hdiff eq_refl). rewrite append_nil_r. split.
    + unfold argumentsAt. cbn [chunks_of flat_map].
      rewrite toolCallDeltas_createChunk. cbn.
      destruct idx as [|z]; [reflexivity|]. cbn.
      replace (z =? k) with false by (symmetry; apply Z.eqb_neq; congruence).
      reflexivity.
    + split; cbn [toolCalls with_toolCalls st'].
      * now rewrite map_get_set_other by exact Ej.
      * intros j' v Hj' Hv.
        destruct (same_key j j') eqn:Ejj.
        -- rewrite map_get_set_same in Hv by exact Ejj. injection Hv as <-.
           now exists idx, id', nm', (buf' ++ to_string fragment)%string.
        -- rewrite map_get_set_other in Hv by exact Ejj. exact (Ho j' v Hj' Hv).
      * exact Hc.
Qed.

Lemma onContentBlockDelta_keeps now fs buf st :
  tracking buf st ->
  let pj := getq "partial_json" (obj_get fs "delta") in
  let fragment :=
    is_str (getq "type" (obj_get fs "delta")) "input_json_delta"
    && same_key (obj_get fs "index") i in
  (fragment = true -> is_string pj = true) ->
  keeps buf (if fragment then to_string pj else "")
    (onContentBlockDelta now (VObj fs) st).
Proof.
  intros Htr pj fragment Hstr. subst fragment.
  unfold onContentBlockDelta. cbn [get bind ret]. fold pj.
  destruct (is_str (getq "type" (obj_get fs "delta")) "input_json_delta") eqn:E.
  - apply is_str_eq in E. rewrite E.
    cbn [is_str String.eqb Ascii.eqb Bool.eqb andb] in *.
    destruct (truthy pj) eqn:T.
    + destruct (map_get (obj_get fs "index") (toolCalls st)) as [tc|] eqn:G.
      * assert (Hshape : exists idx id' nm' buf',
                   tc = toolCallRecord (VNum idx) id' nm' (VStr buf')
                   /\ (same_key (obj_get fs "index") i = true ->
                       idx = Fin k /\ id' = id /\ nm' = nm /\ buf' = buf)
                   /\ (same_key (obj_get fs "index") i = false -> idx <> Fin k)).
        { destruct (same_key (obj_get fs "index") i) eqn:Ej.
          - pose proof (same_key_eq _ _ Ej) as Heq. rewrite Heq in G.
            rewrite (tr_entry _ _ Htr) in G. injection G as <-.
            exists (Fin k), id, nm, buf. split; [reflexivity|]. split; [auto|discriminate].
          - destruct (tr_others _ _ Htr _ _ Ej G) as (idx & id' & nm' & buf' & -> & Hd).
            exists idx, id', nm', buf'. split; [reflexivity|]. split; [discriminate|auto]. }
        destruct Hshape as (idx & id' & nm' & buf' & -> & Hsame & Hdiff).
        cbn [truthy toolCallRecord]. fold (toolCallRecord (VNum idx) id' nm' (VStr buf')).
        rewrite append_arguments_record. cbn [bind get ret toolCallRecord obj_get assoc
          String.eqb Ascii.eqb Bool.eqb emit].
        fold (toolCallRecord (VNum idx) id' nm' (VStr (buf' ++ to_string pj)%string)).
        now apply keeps_fragment.
      * destruct (same_key (obj_get fs "index") i) eqn:Ej; [|apply keeps_silent, Htr].
        apply same_key_eq in Ej. rewrite Ej, (tr_entry _ _ Htr) in G. discriminate G.
    + destruct (same_key (obj_get fs "index") i); [|apply keeps_silent, Htr].
      specialize (Hstr eq_refl). destruct pj as [| | | |p| | |]; try discriminate Hstr.
      cbn [truthy] in T. apply negb_false_iff, String.eqb_eq in T. subst p.
      apply keeps_silent, Htr.
  - cbn [andb].
    destruct (is_str (getq "type" (obj_get fs "delta")) "text_delta"
              && truthy (getq "text" (obj_get fs "delta"))).
    { apply keeps_content; [reflexivity | exact Htr]. }
    destruct (is_str (getq "type" (obj_get fs "delta")) "thinking_delta"
              && truthy (getq "thinking" (obj_get fs "delta"))).
    { apply keeps_content; [reflexivity | exact Htr]. }
    apply keeps_silent, Htr.
Qed.

Lemma keeps_finish now buf st st' fr usage :
  tracking buf st' ->
  keeps buf "" (inr (VArr [finishChunk now st fr usage], st')).
Proof.
  intros H. eexists _, st'. rewrite append_nil_r. split; [reflexivity|].
  split; [|exact H].
  unfold argumentsAt. cbn [chunks_of flat_map].
  rewrite toolCallDeltas_finishChunk. reflexivity.
Qed.

Lemma onContentBlockStop_keeps now fs buf st :
  tracking buf st -> keeps buf "" (onContentBlockStop now (VObj fs) st).
Proof.
  intros Htr. unfold onContentBlockStop. cbn [get bind ret].
  destruct (truthy (sget "inThinkingBlock" st)
            && strict_eq (obj_get fs "index") (sget "currentBlockIndex" st)).
  - apply keeps_content; [reflexivity|].
    repeat (apply tracking_sset; [reflexivity|]). exact Htr.
  - apply keeps_silent. repeat (apply tracking_sset; [reflexivity|]). exact Htr.
Qed.

Lemma onMessageDelta_keeps now ev buf st :
  tracking buf st -> keeps buf "" (onMessageDelta now ev st).
Proof.
  intros Htr. unfold onMessageDelta.
  destruct (truthy (getq "stop_reason" (getq "delta" ev))); [|apply keeps_silent, Htr].
  apply keeps_finish. repeat (apply tracking_sset; [reflexivity|]). exact Htr.
Qed.

Lemma onMessageStop_keeps now ev buf st :
  tracking buf st -> keeps buf "" (onMessageStop now ev st).
Proof.
  intros Htr. unfold onMessageStop.
  destruct (truthy (sget "finishReasonSent" st)); [apply keeps_silent, Htr|].
  apply keeps_finish. apply tracking_sset; [reflexivity | exact Htr].
Qed.

Lemma step_keeps now ev buf st :
  tracking buf st -> continues i ev = true ->
  keeps buf (fragmentOf ev) (claudeToOpenAIResponse str_num now ev st).
Proof.
  intros Htr Hcont.
  assert (Hobj : (exists fs, ev = VObj fs) \/ (forall fs, ev <> VObj fs)).
  { destruct ev; try (right; discriminate). left. now eexists. }
  destruct Hobj as [[fs ->] | Hno].
  2:{ rewrite not_object_ignored by exact Hno.
      unfold fragmentOf, isInputJsonDelta. rewrite not_object_no_type by exact Hno.
      apply keeps_silent, Htr. }
  unfold continues, isMessageStart, isToolUseStart in Hcont.
  unfold fragmentOf, isInputJsonDelta in *.
  change (getq "type" (VObj fs)) with (obj_get fs "type") in *.
  change (getq "index" (VObj fs)) with (obj_get fs "index") in *.
  change (getq "delta" (VObj fs)) with (obj_get fs "delta") in *.
  change (getq "content_block" (VObj fs)) with (obj_get fs "content_block") in *.
  unfold claudeToOpenAIResponse. cbn [truthy negb get bind ret].
  destruct (is_str (obj_get fs "type") "message_start") eqn:E1; [discriminate Hcont|].
  cbn [negb andb] in Hcont.
  destruct (is_str (obj_get fs "type") "content_block_start") eqn:E2.
  { apply is_str_eq in E2. rewrite E2 in *.
    cbn [is_str String.eqb Ascii.eqb Bool.eqb andb].
    apply onContentBlockStart_keeps; [exact Htr|]. intros Htool.
    cbn [is_str String.eqb Ascii.eqb Bool.eqb andb] in Hcont. rewrite Htool in Hcont.
    destruct (same_key (obj_get fs "index") i); [discriminate Hcont | reflexivity]. }
  destruct (is_str (obj_get fs "type") "content_block_delta") eqn:E3.
  { cbn [andb] in *. apply onContentBlockDelta_keeps; [exact Htr|].
    intros Hfrag. rewrite Hfrag in Hcont. exact Hcont. }
  cbn [andb].
  destruct (is_str (obj_get fs "type") "content_block_stop").
  { apply onContentBlockStop_keeps, Htr. }
  destruct (is_str (obj_get fs "type") "message_delta").
  { apply onMessageDelta_keeps, Htr. }
  destruct (is_str (obj_get fs "type") "message_stop").
  { apply onMessageStop_keeps, Htr. }
  apply keeps_silent, Htr.
Qed.

Lemma fragmentOf_start ev j :
  isToolUseStart j ev = true -> fragmentOf ev = "".
Proof.
  unfold isToolUseStart, fragmentOf, isInputJsonDelta. intros H.
  apply andb_prop in H as [H _]. apply andb_prop in H as [H _].
  apply is_str_eq in H. rewrite H. reflexivity.
Qed.

Lemma continues_other ev :
  continues i ev = true -> isToolUseStart (getq "index" ev) ev = true ->
  same_key (getq "index" ev) i = false.
Proof.
  unfold continues, isToolUseStart. intros Hc Hs.
  apply andb_prop in Hs as [Hs _]. rewrite Hs in Hc. cbn [andb] in Hc.
  destruct (same_key (getq "index" ev) i); [|reflexivity].
  destruct (isMessageStart ev); discriminate Hc.
Qed.

Lemma continues_not_start ev :
  continues i ev = true -> isToolUseStart i ev = false.
Proof.
  unfold continues. intros Hc. destruct (isToolUseStart i ev); [|reflexivity].
  destruct (isMessageStart ev); discriminate Hc.
Qed.

(** What the chunk that announces the tool call [v] gives for the output
    index [k]. *)
Lemma argumentsAt_announcement now st v :
  argumentsAt (int k) [createChunk now st (VObj [("tool_calls", VArr [v])]) VNull]
  = if same_key (getq "index" v) (int k)
    then to_string (getq "arguments" (getq "function" v))
    else "".
Proof.
  unfold argumentsAt. cbn [flat_map]. rewrite toolCallDeltas_createChunk.
  change (getq "tool_calls" (VObj [("tool_calls", VArr [v])])) with (VArr [v]).
  cbn [chunks_of app filter].
  destruct (same_key (getq "index" v) (int k)); reflexivity.
Qed.

(** The object of another block, read after the events that follow,
    still belongs to another output index. *)
Lemma settled_other evs : forall buf st j,
  tracking buf st ->
  forallb (fun ev => continues i (snd ev)) evs = true ->
  same_key j i = false ->
  exists found,
    settled str_num j evs st = inr found
    /\ (forall v, found = Some v -> recorded v).
Proof.
  induction evs as [|[now ev] evs IH]; intros buf st j Htr Hall Hj.
  - exists (map_get j (toolCalls st)). split; [reflexivity|].
    intros v Hv. exact (tr_others _ _ Htr j v Hj Hv).
  - cbn [forallb snd] in Hall. apply andb_prop in Hall as [Hev Hall].
    cbn [settled]. destruct (isToolUseStart j ev).
    + exists (map_get j (toolCalls st)). split; [reflexivity|].
      intros v Hv. exact (tr_others _ _ Htr j v Hj Hv).
    + destruct (step_keeps now ev buf st Htr Hev) as (r & st1 & Hstep & _ & Htr1).
      rewrite Hstep. cbn [bind snd]. exact (IH _ _ j Htr1 Hall Hj).
Qed.

(** The object of the block [i] itself, read after the events that
    follow, holds every fragment. *)
Lemma settled_own evs : forall buf st,
  tracking buf st ->
  forallb (fun ev => continues i (snd ev)) evs = true ->
  settled str_num i evs st
  = inr (Some (toolCallRecord (int k) id nm
                 (VStr (buf ++ String.concat ""
                                 (map (fun ev => fragmentOf (snd ev)) evs))%string))).
Proof.
  induction evs as [|[now ev] evs IH]; intros buf st Htr Hall.
  - cbn [settled map String.concat ret]. rewrite append_nil_r.
    now rewrite (tr_entry _ _ Htr).
  - cbn [forallb snd] in Hall. apply andb_prop in Hall as [Hev Hall].
    cbn [settled]. rewrite (continues_not_start _ Hev).
    destruct (step_keeps now ev buf st Htr Hev) as (r & st1 & Hstep & _ & Htr1).
    rewrite Hstep. cbn [bind snd]. rewrite (IH _ _ Htr1 Hall).
    cbn [map snd]. now rewrite concat_cons, append_assoc.
Qed.

(** The events after the start of the block [i], for both callers: the
    chunks carry the fragments of the block for the output index [k],
    whenever they are read. *)
Lemma run_keeps evs : forall buf st,
  tracking buf st ->
  forallb (fun ev => continues i (snd ev)) evs = true ->
  exists chunks kept st',
    exchange (claudeToOpenAIResponse str_num) evs st = inr (chunks, st')
    /\ keptExchange str_num evs st = inr (kept, st')
    /\ argumentsAt (int k) chunks
       = String.concat "" (map (fun ev => fragmentOf (snd ev)) evs)
    /\ argumentsAt (int k) kept
       = String.concat "" (map (fun ev => fragmentOf (snd ev)) evs)
    /\ tracking (buf ++ String.concat "" (map (fun ev => fragmentOf (snd ev)) evs))%string
                st'.
Proof.
  induction evs as [|[now ev] evs IH]; intros buf st Htr Hall.
  - exists [], [], st. rewrite append_nil_r. repeat split; try reflexivity; apply Htr.
  - cbn [forallb snd] in Hall. apply andb_prop in Hall as [Hev Hall].
    destruct (step_keeps now ev buf st Htr Hev) as (r & st1 & Hstep & Hargs & Htr1).
    destruct (IH _ _ Htr1 Hall) as (chunks & kept & st' & Hrun & Hkept & Hrest & Hlater & Htr').
    assert (Hread : exists read,
               (toolCall <- (if isToolUseStart (getq "index" ev) ev
                             then settled str_num (getq "index" ev) evs st1
                             else ret None) ;;
                ret (match toolCall with
                     | Some o => [createChunk now st1 (VObj [("tool_calls", VArr [o])]) VNull]
                     | None => chunks_of r
                     end ++ kept, st'))
               = inr (read ++ kept, st')
               /\ argumentsAt (int k) read = fragmentOf ev).
    { destruct (isToolUseStart (getq "index" ev) ev) eqn:Es.
      - destruct (settled_other evs _ st1 (getq "index" ev) Htr1 Hall
                    (continues_other _ Hev Es)) as (found & Hfound & Hrec).
        rewrite Hfound. cbn [bind ret]. destruct found as [v|].
        + eexists. split; [reflexivity|].
          rewrite argumentsAt_announcement, (fragmentOf_start _ _ Es).
          now rewrite (recorded_index_differs v (Hrec v eq_refl)).
        + exists (chunks_of r). now split.
      - exists (chunks_of r). now split. }
    destruct Hread as (read & Hread & Hreadargs).
    exists (chunks_of r ++ chunks), (read ++ kept), st'.
    cbn [exchange keptExchange map snd].
    rewrite Hstep. cbn [bind snd fst]. rewrite Hrun, Hkept. cbn [bind ret fst snd].
    rewrite concat_cons, !argumentsAt_app, Hargs, Hreadargs, Hrest, Hlater.
    split; [reflexivity|]. split; [exact Hread|].
    split; [reflexivity|]. split; [reflexivity|].
    now rewrite <- append_assoc.
Qed.

Lemma fragments_provider evs :
  forallb (fun ev => continues i (snd ev)) evs = true ->
  String.concat "" (map (fun ev => fragmentOf (snd ev)) evs)
  = String.concat "" (map to_string (providerFragments i evs)).
Proof.
  induction evs as [|[now ev] evs IH]; intros Hall; [reflexivity|].
  cbn [forallb snd] in Hall. apply andb_prop in Hall as [_ Hall].
  unfold providerFragments in *. cbn [map filter snd]. rewrite concat_cons, (IH Hall).
  unfold fragmentOf. destruct (isInputJsonDelta i ev).
  - cbn [map snd]. now rewrite concat_cons.
  - reflexivity.
Qed.

End Tracking.

(** *** Before the block starts *)

(** A tool call of an output index below [c]. *)
Definition below (c : Z) (v : value) : Prop :=
  exists idx id nm buf,
    v = toolCallRecord (int idx) id nm (VStr buf) /\ idx < c.

(** The counter stands at [c], and the Map holds tool calls of the output
    indices below [c]: the state of an exchange that has started [c] tool
    calls since its [message_start]. *)
Record numbered (c : Z) (st : state) : Prop := {
  nb_counter : to_number str_num (sget "toolCallIndex" st) = Fin c;
  nb_entries : forall j v, map_get j (toolCalls st) = Some v -> below c v
}.

Lemma below_recorded c k v : below c v -> c <= k -> recorded k v.
Proof.
  intros (idx & id & nm & buf & -> & Hidx) Hc.
  exists (Fin idx), id, nm, buf. split; [reflexivity|]. intros [= ->]. lia.
Qed.

Lemma numbered_sset c st f v :
  String.eqb "toolCallIndex" f = false ->
  numbered c st -> numbered c (sset f v st).
Proof.
  intros Hf [Hc He]. split; [|exact He]. now rewrite sget_sset_other.
Qed.

(** The call returns, the state is numbered up to [c], and the chunks
    carry nothing for an output index from [c] on. *)
Definition counts (c : Z) (out : result (value * state)) : Prop :=
  exists r st',
    out = inr (r, st')
    /\ numbered c st'
    /\ (forall k, c <= k -> argumentsAt (int k) (chunks_of r) = "").

Lemma counts_silent c st : numbered c st -> counts c (inr (VNull, st)).
Proof.
  intros H. exists VNull, st. split; [reflexivity|]. split; [exact H|].
  intros k _. reflexivity.
Qed.

Lemma counts_content now c st st' delta :
  getq "tool_calls" delta = VUndef -> numbered c st' ->
  counts c (inr (VArr [createChunk now st delta VNull], st')).
Proof.
  intros Hd H. eexists _, st'. split; [reflexivity|]. split; [exact H|].
  intros k _. unfold argumentsAt. cbn [chunks_of flat_map].
  rewrite toolCallDeltas_createChunk, Hd. reflexivity.
Qed.

Lemma counts_finish now c st st' fr usage :
  numbered c st' ->
  counts c (inr (VArr [finishChunk now st fr usage], st')).
Proof.
  intros H. eexists _, st'. split; [reflexivity|]. split; [exact H|].
  intros k _. unfold argumentsAt. cbn [chunks_of flat_map].
  rewrite toolCallDeltas_finishChunk. reflexivity.
Qed.

Lemma counts_call now c st st' tc idx :
  getq "index" tc = int idx -> idx < c -> numbered c st' ->
  counts c (inr (VArr [createChunk now st (VObj [("tool_calls", VArr [tc])]) VNull],
                 st')).
Proof.
  intros Hidx Hlt H. eexists _, st'. split; [reflexivity|]. split; [exact H|].
  intros k Hk. cbn [chunks_of]. rewrite argumentsAt_announcement, Hidx.
  cbn [same_key int]. replace (idx =? k) with false by (symmetry; apply Z.eqb_neq; lia).
  reflexivity.
Qed.

Lemma onContentBlockStart_counts now fs c st :
  numbered c st ->
  counts (c + (if is_str (getq "type" (obj_get fs "content_block")) "tool_use"
               then 1 else 0))
    (onContentBlockStart str_num now (VObj fs) st).
Proof.
  intros Hn. unfold onContentBlockStart. cbn [get bind ret].
  destruct (is_str (getq "type" (obj_get fs "content_block")) "text") eqn:Etext.
  { apply is_str_eq in Etext. rewrite Etext.
    cbn [is_str String.eqb Ascii.eqb Bool.eqb]. rewrite Z.add_0_r.
    apply counts_silent, numbered_sset; [reflexivity | exact Hn]. }
  destruct (is_str (getq "type" (obj_get fs "content_block")) "thinking") eqn:Ethink.
  { apply is_str_eq in Ethink. rewrite Ethink.
    cbn [is_str String.eqb Ascii.eqb Bool.eqb]. rewrite Z.add_0_r.
    apply counts_content; [reflexivity|].
    apply numbered_sset; [reflexivity|]. apply numbered_sset; [reflexivity | exact Hn]. }
  destruct (is_str (getq "type" (obj_get fs "content_block")) "tool_use") eqn:Etool;
    [|rewrite Z.add_0_r; apply counts_silent, Hn].
  destruct (getq_str_obj _ _ _ Etool) as [bfs Hb]. rewrite Hb. cbn [get bind ret].
  destruct Hn as [Hc He]. rewrite Hc.
  apply counts_call with (idx := c); [reflexivity | lia |].
  split; cbn [toolCalls with_toolCalls sset].
  - unfold with_toolCalls, sget. cbn [fields sset].
    rewrite obj_get_set_same. reflexivity.
  - intros j v Hget.
    destruct (same_key (obj_get fs "index") j) eqn:Ej.
    + rewrite map_get_set_same in Hget by exact Ej. injection Hget as <-.
      exists c, (obj_get bfs "id"), (obj_get bfs "name"), "".
      split; [reflexivity | lia].
    + rewrite map_get_set_other in Hget by exact Ej.
      destruct (He j v Hget) as (idx & id & nm & buf & -> & Hidx).
      exists idx, id, nm, buf. split; [reflexivity | lia].
Qed.

Lemma onContentBlockDelta_counts now fs c st :
  numbered c st -> counts c (onContentBlockDelta now (VObj fs) st).
Proof.
  intros Hn. unfold onContentBlockDelta. cbn [get bind ret].
  destruct (is_str (getq "type" (obj_get fs "delta")) "text_delta"
            && truthy (getq "text" (obj_get fs "delta"))).
  { apply counts_content; [reflexivity | exact Hn]. }
  destruct (is_str (getq "type" (obj_get fs "delta")) "thinking_delta"
            && truthy (getq "thinking" (obj_get fs "delta"))).
  { apply counts_content; [reflexivity | exact Hn]. }
  destruct (is_str (getq "type" (obj_get fs "delta")) "input_json_delta"
            && truthy (getq "partial_json" (obj_get fs "delta")));
    [|apply counts_silent, Hn].
  destruct (map_get (obj_get fs "index") (toolCalls st)) as [tc|] eqn:G;
    [|apply counts_silent, Hn].
  destruct (nb_entries _ _ Hn _ _ G) as (idx & id & nm & buf & -> & Hidx).
  cbn [truthy toolCallRecord]. fold (toolCallRecord (int idx) id nm (VStr buf)).
  rewrite append_arguments_record.
  cbn [bind get ret toolCallRecord obj_get assoc String.eqb Ascii.eqb Bool.eqb emit].
  apply counts_call with (idx := idx); [reflexivity | exact Hidx |].
  destruct Hn as [Hc He]. split; cbn [toolCalls with_toolCalls]; [exact Hc|].
  intros j v Hget.
  destruct (same_key (obj_get fs "index") j) eqn:Ej.
  - rewrite map_get_set_same in Hget by exact Ej. injection Hget as <-.
    now eexists idx, id, nm, _.
  - rewrite map_get_set_other in Hget by exact Ej. exact (He j v Hget).
Qed.

Lemma onContentBlockStop_counts now fs c st :
  numbered c st -> counts c (onContentBlockStop now (VObj fs) st).
Proof.
  intros Hn. unfold onContentBlockStop. cbn [get bind ret].
  destruct (truthy (sget "inThinkingBlock" st)
            && strict_eq (obj_get fs "index") (sget "currentBlockIndex" st)).
  - apply counts_content; [reflexivity|].
    repeat (apply numbered_sset; [reflexivity|]). exact Hn.
  - apply counts_silent. repeat (apply numbered_sset; [reflexivity|]). exact Hn.
Qed.

Lemma onMessageDelta_counts now ev c st :
  numbered c st -> counts c (onMessageDelta now ev st).
Proof.
  intros Hn. unfold onMessageDelta.
  destruct (truthy (getq "stop_reason" (getq "delta" ev))); [|apply counts_silent, Hn].
  apply counts_finish. repeat (apply numbered_sset; [reflexivity|]). exact Hn.
Qed.

Lemma onMessageStop_counts now ev c st :
  numbered c st -> counts c (onMessageStop now ev st).
Proof.
  intros Hn. unfold onMessageStop.
  destruct (truthy (sget "finishReasonSent" st)); [apply counts_silent, Hn|].
  apply counts_finish. apply numbered_sset; [reflexivity | exact Hn].
Qed.

(** Every call that is no [message_start] returns, and a tool-use start
    moves the counter by one. *)
Lemma step_counts now ev c st :
  numbered c st -> isMessageStart ev = false ->
  counts (c + (if startsToolUse ev then 1 else 0))
    (claudeToOpenAIResponse str_num now ev st).
Proof.
  intros Hn Hms.
  assert (Hobj : (exists fs, ev = VObj fs) \/ (forall fs, ev <> VObj fs)).
  { destruct ev; try (right; discriminate). left. now eexists. }
  destruct Hobj as [[fs ->] | Hno].
  2:{ rewrite not_object_ignored by exact Hno.
      unfold startsToolUse. rewrite not_object_no_type by exact Hno.
      cbn [andb]. rewrite Z.add_0_r. apply counts_silent, Hn. }
  unfold isMessageStart in Hms. unfold startsToolUse.
  change (getq "type" (VObj fs)) with (obj_get fs "type") in *.
  change (getq "content_block" (VObj fs)) with (obj_get fs "content_block") in *.
  unfold claudeToOpenAIResponse. cbn [truthy negb get bind ret]. rewrite Hms.
  destruct (is_str (obj_get fs "type") "content_block_start") eqn:E2.
  { cbn [andb]. apply onContentBlockStart_counts, Hn. }
  cbn [andb]. rewrite Z.add_0_r.
  destruct (is_str (obj_get fs "type") "content_block_delta").
  { apply onContentBlockDelta_counts, Hn. }
  destruct (is_str (obj_get fs "type") "content_block_stop").
  { apply onContentBlockStop_counts, Hn. }
  destruct (is_str (obj_get fs "type") "message_delta").
  { apply onMessageDelta_counts, Hn. }
  destruct (is_str (obj_get fs "type") "message_stop").
  { apply onMessageStop_counts, Hn. }
  apply counts_silent, Hn.
Qed.

(** [message_start] on a state whose Map is empty. *)
Lemma message_start_numbers now ev st :
  isMessageStart ev = true -> toolCalls st = [] ->
  exists c st',
    claudeToOpenAIResponse str_num now ev st = inr (VArr [c], st')
    /\ toolCallDeltas c = []
    /\ numbered 0 st'.
Proof.
  intros Hms Hfresh. unfold isMessageStart in Hms.
  destruct (getq_str_obj _ _ _ Hms) as [fs ->].
  change (getq "type" (VObj fs)) with (obj_get fs "type") in Hms.
  unfold claudeToOpenAIResponse. cbn [truthy negb get bind ret]. rewrite Hms.
  unfold onMessageStart. cbv zeta. cbn [emit ret].
  eexists _, _. split; [reflexivity|]. split; [reflexivity|]. split.
  - now rewrite sget_sset_same.
  - cbn [toolCalls sset]. rewrite Hfresh. intros j v Hget. discriminate Hget.
Qed.

(** The start of the tool-use block [i] on a state numbered up to [k]. *)
Lemma start_tracking now ev i k st :
  isToolUseStart i ev = true ->
  numbered k st ->
  exists r st',
    claudeToOpenAIResponse str_num now ev st = inr (r, st')
    /\ argumentsAt (int k) (chunks_of r) = ""
    /\ same_key i i = true
    /\ tracking i k (getq "id" (getq "content_block" ev))
         (getq "name" (getq "content_block" ev)) "" st'.
Proof.
  intros Hstart [Hcount Hall]. unfold isToolUseStart in Hstart.
  apply andb_prop in Hstart as [Hstart Hidx]. apply andb_prop in Hstart as [Hty Hblock].
  destruct (getq_str_obj _ _ _ Hty) as [fs ->].
  destruct (getq_str_obj _ _ _ Hblock) as [bfs Hb].
  apply is_str_eq in Hty. apply is_str_eq in Hblock.
  change (getq "type" (VObj fs)) with (obj_get fs "type") in Hty.
  change (getq "index" (VObj fs)) with (obj_get fs "index") in Hidx.
  change (getq "content_block" (VObj fs)) with (obj_get fs "content_block") in *.
  pose proof (same_key_eq _ _ Hidx) as Heq. rewrite Heq in Hidx.
  unfold claudeToOpenAIResponse. cbn [truthy negb get bind ret].
  rewrite Hty. cbn [is_str String.eqb Ascii.eqb Bool.eqb].
  unfold onContentBlockStart. cbn [get bind ret].
  rewrite Hblock. cbn [is_str String.eqb Ascii.eqb Bool.eqb].
  rewrite Hb, Hcount, Heq. cbn [get bind ret].
  eexists _, _. split; [reflexivity|]. split.
  { unfold argumentsAt. cbn [emit chunks_of flat_map].
    rewrite toolCallDeltas_createChunk. cbn. now rewrite Z.eqb_refl. }
  split; [exact Hidx|].
  split; cbn [toolCalls with_toolCalls sset].
  - rewrite map_get_set_same by exact Hidx. reflexivity.
  - intros j v Hj Hv. rewrite map_get_set_other in Hv by now rewrite same_key_sym.
    apply below_recorded with (c := k); [exact (Hall j v Hv) | lia].
  - exists (k + 1). split; [|lia].
    unfold with_toolCalls, sget. cbn [fields sset].
    rewrite obj_get_set_same. reflexivity.
Qed.

Lemma toolUseStarts_cons now ev events :
  Z.of_nat (toolUseStarts ((now, ev) :: events))
  = (if startsToolUse ev then 1 else 0) + Z.of_nat (toolUseStarts events).
Proof.
  unfold toolUseStarts. cbn [filter snd].
  destruct (startsToolUse ev); [|reflexivity]. cbn [Datatypes.length]. lia.
Qed.

(** *** One tool call through an exchange *)

Section Block.

(** The start [ev0] of the tool-use block [i], and the events after
    it. *)
Variable i : value.
Variable now1 : Z.
Variable ev0 : value.
Variable after : list (Z * value).
Hypothesis Hstart : isToolUseStart i ev0 = true.
Hypothesis Hafter : forallb (fun ev => continues i (snd ev)) after = true.

Definition sent : string :=
  String.concat "" (map to_string (providerFragments i after)).

Definition settledRecord (k : Z) : value :=
  toolCallRecord (int k) (getq "id" (getq "content_block" ev0))
    (getq "name" (getq "content_block" ev0)) (VStr sent).

Lemma start_index : getq "index" ev0 = i.
Proof.
  unfold isToolUseStart in Hstart. apply andb_prop in Hstart as [_ H].
  exact (same_key_eq _ _ H).
Qed.

(** From the start of the block on. *)
Lemma block_run k st :
  numbered k st ->
  exists chunks kept st',
    exchange (claudeToOpenAIResponse str_num) ((now1, ev0) :: after) st
    = inr (chunks, st')
    /\ keptExchange str_num ((now1, ev0) :: after) st = inr (kept, st')
    /\ argumentsAt (int k) chunks = sent
    /\ argumentsAt (int k) kept = (sent ++ sent)%string
    /\ map_get i (toolCalls st') = Some (settledRecord k).
Proof.
  intros Hn.
  destruct (start_tracking now1 ev0 i k st Hstart Hn)
    as (r & st1 & Hstep & Hargs & Hi & Htr).
  destruct (run_keeps i k _ _ Hi after "" st1 Htr Hafter)
    as (chunks & kept & st' & Hrun & Hkept & Hrest & Hlater & Htr').
  pose proof (settled_own i k _ _ Hi after "" st1 Htr Hafter) as Hown.
  rewrite (fragments_provider i after Hafter) in Hrest, Hlater, Htr', Hown.
  cbn [append] in Htr', Hown. fold sent in Hrest, Hlater, Htr', Hown.
  eexists (chunks_of r ++ chunks), _, st'. cbn [exchange keptExchange].
  rewrite Hstep. cbn [bind snd fst]. rewrite Hrun, Hkept. cbn [bind ret fst snd].
  rewrite start_index, Hstart, Hown. cbn [bind ret].
  split; [reflexivity|]. split; [reflexivity|]. split; [|split].
  - now rewrite argumentsAt_app, Hargs, Hrest.
  - rewrite argumentsAt_app, argumentsAt_announcement, Hlater.
    rewrite record_index, record_arguments. cbn [same_key int to_string].
    now rewrite Z.eqb_refl.
  - exact (tr_entry _ _ _ _ _ _ Htr').
Qed.

(** The object of a block that started before, read after the
    exchange. *)
Lemma settled_before before : forall c st j,
  numbered c st ->
  forallb (fun ev => negb (isMessageStart (snd ev))) before = true ->
  exists found,
    settled str_num j (before ++ (now1, ev0) :: after) st = inr found
    /\ (forall v, found = Some v ->
          recorded (c + Z.of_nat (toolUseStarts before)) v).
Proof.
  induction before as [|[now ev] before IH]; intros c st j Hn Hall.
  - cbn [app toolUseStarts filter length Z.of_nat]. rewrite Z.add_0_r.
    cbn [settled]. destruct (isToolUseStart j ev0) eqn:Ej.
    + exists (map_get j (toolCalls st)). split; [reflexivity|].
      intros v Hv. apply below_recorded with (c := c); [|lia].
      exact (nb_entries _ _ Hn j v Hv).
    + destruct (start_tracking now1 ev0 i c st Hstart Hn)
        as (r & st1 & Hstep & _ & Hi & Htr).
      rewrite Hstep. cbn [bind snd].
      apply (settled_other i c _ _ Hi after "" st1 j Htr Hafter).
      unfold isToolUseStart in Ej, Hstart.
      apply andb_prop in Hstart as [Hs Hidx]. rewrite Hs in Ej. cbn [andb] in Ej.
      apply same_key_eq in Hidx. rewrite Hidx in Ej. now rewrite same_key_sym.
  - cbn [forallb snd] in Hall. apply andb_prop in Hall as [Hev Hall].
    apply negb_true_iff in Hev.
    destruct (step_counts now ev c st Hn Hev) as (r & st1 & Hstep & Hn1 & _).
    destruct (IH _ st1 j Hn1 Hall) as (found & Hfound & Hrec).
    assert (Hk : c + (if startsToolUse ev then 1 else 0) + Z.of_nat (toolUseStarts before)
                 = c + Z.of_nat (toolUseStarts ((now, ev) :: before))).
    { rewrite toolUseStarts_cons. lia. }
    rewrite Hk in Hrec.
    cbn [app settled]. destruct (isToolUseStart j ev).
    + exists (map_get j (toolCalls st)). split; [reflexivity|].
      intros v Hv. apply below_recorded with (c := c); [|lia].
      exact (nb_entries _ _ Hn j v Hv).
    + rewrite Hstep. cbn [bind snd]. now exists found.
Qed.

(** The exchange from a numbered state on, with the events before the
    block. *)
Lemma whole_run before : forall c st,
  numbered c st ->
  forallb (fun ev => negb (isMessageStart (snd ev))) before = true ->
  let k := c + Z.of_nat (toolUseStarts before) in
  exists chunks kept st',
    exchange (claudeToOpenAIResponse str_num) (before ++ (now1, ev0) :: after) st
    = inr (chunks, st')
    /\ keptExchange str_num (before ++ (now1, ev0) :: after) st = inr (kept, st')
    /\ argumentsAt (int k) chunks = sent
    /\ argumentsAt (int k) kept = (sent ++ sent)%string
    /\ map_get i (toolCalls st') = Some (settledRecord k).
Proof.
  induction before as [|[now ev] before IH]; intros c st Hn Hall k.
  - subst k. cbn [app toolUseStarts filter length Z.of_nat]. rewrite Z.add_0_r.
    exact (block_run c st Hn).
  - cbn [forallb snd] in Hall. apply andb_prop in Hall as [Hev Hall].
    apply negb_true_iff in Hev.
    destruct (step_counts now ev c st Hn Hev) as (r & st1 & Hstep & Hn1 & Hquiet).
    assert (Hk : c + (if startsToolUse ev then 1 else 0) + Z.of_nat (toolUseStarts before)
                 = k).
    { subst k. rewrite toolUseStarts_cons. lia. }
    destruct (IH _ st1 Hn1 Hall) as (chunks & kept & st' & Hrun & Hkept & Hargs & Hlater & Hmap).
    rewrite Hk in Hargs, Hlater, Hmap.
    destruct (settled_before before _ st1 (getq "index" ev) Hn1 Hall)
      as (found & Hfound & Hrec).
    rewrite Hk in Hrec.
    assert (Hread : exists read,
               (toolCall <- (if isToolUseStart (getq "index" ev) ev
                             then settled str_num (getq "index" ev)
                                    (before ++ (now1, ev0) :: after) st1
                             else ret None) ;;
                ret (match toolCall with
                     | Some o => [createChunk now st1 (VObj [("tool_calls", VArr [o])]) VNull]
                     | None => chunks_of r
                     end ++ kept, st'))
               = inr (read ++ kept, st')
               /\ argumentsAt (int k) read = "").
    { assert (Hr : argumentsAt (int k) (chunks_of r) = "") by (apply Hquiet; lia).
      destruct (isToolUseStart (getq "index" ev) ev).
      - rewrite Hfound. cbn [bind ret]. destruct found as [v|].
        + eexists. split; [reflexivity|]. rewrite argumentsAt_announcement.
          now rewrite (recorded_index_differs k v (Hrec v eq_refl)).
        + exists (chunks_of r). now split.
      - exists (chunks_of r). now split. }
    destruct Hread as (read & Hread & Hreadargs).
    exists (chunks_of r ++ chunks), (read ++ kept), st'.
    cbn [app exchange keptExchange].
    rewrite Hstep. cbn [bind snd fst]. rewrite Hrun, Hkept. cbn [bind ret fst snd].
    split; [reflexivity|]. split; [exact Hread|].
    rewrite !argumentsAt_app, Hreadargs, Hargs, Hlater.
    rewrite (Hquiet k) by lia. now repeat split.
Qed.

End Block.

(** C3, as the code has it. A fragment that is not empty and whose index
    has a recorded tool call is appended to that call's buffer and goes
    out in exactly one chunk, which carries the fragment alone under the
    call's id and output index; an empty fragment goes out in no chunk.
    Over an exchange that opens with [message_start] on a state whose Map
    is empty and holds no second [message_start]: a tool-use block that
    starts after [k] others gets the output index [k], and with no second
    start under its block index and with fragments that are strings, the
    arguments that the chunks carry for [k], concatenated in emission
    order, are the provider's fragments for the block, concatenated, for
    a caller that reads every chunk when its call returns (the opening
    chunk then gives the empty string); the buffer in the Map holds the
    same string. The opening chunk holds the object of the Map, though: a
    caller that reads the chunks when the exchange is over finds the
    whole buffer in it, and the same concatenation gives the fragments
    twice. *)
Theorem argument_fragments_forwarded :
  (forall now st fs idx id nm buf p,
     obj_get fs "type" = VStr "content_block_delta" ->
     getq "type" (obj_get fs "delta") = VStr "input_json_delta" ->
     getq "partial_json" (obj_get fs "delta") = VStr p ->
     map_get (obj_get fs "index") (toolCalls st)
       = Some (toolCallRecord idx id nm (VStr buf)) ->
     claudeToOpenAIResponse str_num now (VObj fs) st
     = if String.eqb p "" then inr (VNull, st)
       else
         let st' :=
           with_toolCalls
             (map_set (obj_get fs "index")
                (toolCallRecord idx id nm (VStr (buf ++ p)%string)) (toolCalls st)) st in
         inr (VArr [ createChunk now st'
                       (VObj [ ("tool_calls",
                                VArr [ VObj [ ("index", idx);
                                              ("id", id);
                                              ("function",
                                               VObj [ ("arguments", VStr p) ]) ] ]) ])
                       VNull ], st'))
  /\
  (forall st now0 ev before now1 ev0 after i,
     toolCalls st = [] ->
     isMessageStart ev = true ->
     forallb (fun ev => negb (isMessageStart (snd ev))) before = true ->
     isToolUseStart i ev0 = true ->
     forallb (fun ev => continues i (snd ev)) after = true ->
     let events := (now0, ev) :: before ++ (now1, ev0) :: after in
     let k := int (Z.of_nat (toolUseStarts before)) in
     let fragments := String.concat "" (map to_string (providerFragments i after)) in
     exists chunks kept st',
       exchange (claudeToOpenAIResponse str_num) events st = inr (chunks, st')
       /\ argumentsAt k chunks = fragments
       /\ map_get i (toolCalls st')
          = Some (toolCallRecord k
                    (getq "id" (getq "content_block" ev0))
                    (getq "name" (getq "content_block" ev0))
                    (VStr fragments))
       /\ keptExchange str_num events st = inr (kept, st')
       /\ argumentsAt k kept = (fragments ++ fragments)%string).
Proof.
  split.
  - intros now st fs idx id nm buf p Hty Hdelta Hp Hget.
    unfold claudeToOpenAIResponse. cbn [truthy negb get bind ret].
    rewrite Hty. cbn [is_str String.eqb Ascii.eqb Bool.eqb].
    unfold onContentBlockDelta. cbn [get bind ret].
    rewrite Hdelta, Hp. cbn [is_str String.eqb Ascii.eqb Bool.eqb andb truthy].
    destruct (String.eqb p ""); cbn [negb]; [reflexivity|].
    rewrite Hget. cbn [truthy toolCallRecord].
    fold (toolCallRecord idx id nm (VStr buf)).
    rewrite append_arguments_record. reflexivity.
  - intros st now0 ev before now1 ev0 after i Hfresh Hms Hbefore Hstart Hafter
      events k fragments.
    destruct (message_start_numbers now0 ev st Hms Hfresh)
      as (c & st0 & Hstep & Hc & Hn).
    destruct (whole_run i now1 ev0 after Hstart Hafter before 0 st0 Hn Hbefore)
      as (chunks & kept & st' & Hrun & Hkept & Hargs & Hlater & Hmap).
    cbn [Z.add] in Hargs, Hlater, Hmap.
    assert (Hquiet : isToolUseStart (getq "index" ev) ev = false).
    { unfold isToolUseStart. unfold isMessageStart in Hms.
      apply is_str_eq in Hms. rewrite Hms. reflexivity. }
    exists (c :: chunks), (c :: kept), st'. subst events. cbn [exchange keptExchange].
    rewrite Hstep. cbn [bind snd fst]. rewrite Hrun, Hkept, Hquiet.
    cbn [bind ret fst snd chunks_of app].
    assert (Hone : forall l, argumentsAt k (c :: l) = argumentsAt k l).
    { intros l. unfold argumentsAt. cbn [flat_map]. now rewrite Hc. }
    rewrite !Hone. now repeat split.
Qed.

End Claude.

(** An exchange with two tool calls, the second with an empty fragment
    in between and with a fragment of the first after its start: the
    chunks for output index 1 carry its arguments in full when each is
    read as its call returns, and twice when they are read after the
    exchange. *)
Lemma argument_fragments_witness :
  let st := mkState [] [] in
  let fragment (i : Z) (p : string) :=
    VObj [ ("type", VStr "content_block_delta"); ("index", int i);
           ("delta", VObj [ ("type", VStr "input_json_delta");
                            ("partial_json", VStr p) ]) ] in
  let start (i : Z) (id name : string) :=
    VObj [ ("type", VStr "content_block_start"); ("index", int i);
           ("content_block", VObj [ ("type", VStr "tool_use"); ("id", VStr id);
                                    ("name", VStr name); ("input", VObj []) ]) ] in
  let ev :=
    VObj [ ("type", VStr "message_start");
           ("message", VObj [ ("id", VStr "msg_1"); ("model", VStr "claude") ]) ] in
  let before := [ (1, start 1 "t1" "lookup"); (2, fragment 1 "{a:") ] in
  let after :=
    [ (4, fragment 2 ""); (5, fragment 2 "{q:"); (6, fragment 1 "2}");
      (7, fragment 2 "1}");
      (8, VObj [ ("type", VStr "content_block_stop"); ("index", int 2) ]);
      (9, VObj [ ("type", VStr "message_delta");
                 ("delta", VObj [ ("stop_reason", VStr "tool_use") ]) ]) ] in
  let events := (0, ev) :: before ++ (3, start 2 "t2" "search") :: after in
  (exists chunks kept st',
     exchange (claudeToOpenAIResponse (fun _ => NaN)) events st = inr (chunks, st')
     /\ argumentsAt (int 1) chunks = "{q:1}"
     /\ keptExchange (fun _ => NaN) events st = inr (kept, st')
     /\ argumentsAt (int 1) kept = "{q:1}{q:1}")
  /\ (exists r st',
        claudeToOpenAIResponse (fun _ => NaN) 2 (fragment 1 "1}")
          (mkState [] [ (int 1, toolCallRecord (int 0) (VStr "t1") (VStr "lookup")
                                  (VStr "{q:")) ])
        = inr (VArr [r], st')
        /\ toolCallDeltas r
           = [ VObj [ ("index", int 0); ("id", VStr "t1");
                      ("function", VObj [ ("arguments", VStr "1}") ]) ] ]).
Proof.
  intros st fragment start ev before after events. split.
  - destruct (proj2 (argument_fragments_forwarded (fun _ => NaN))
                st 0 ev before 3 (start 2 "t2" "search") after (int 2)
                eq_refl eq_refl eq_refl eq_refl eq_refl)
      as (chunks & kept & st' & Hrun & Hargs & _ & Hkept & Hlater).
    exists chunks, kept, st'. split; [exact Hrun|]. split; [exact Hargs|].
    split; [exact Hkept | exact Hlater].
  - pose proof (proj1 (argument_fragments_forwarded (fun _ => NaN)) 2
                  (mkState [] [ (int 1, toolCallRecord (int 0) (VStr "t1")
                                          (VStr "lookup") (VStr "{q:")) ])
                  [ ("type", VStr "content_block_delta"); ("index", int 1);
                    ("delta", VObj [ ("type", VStr "input_json_delta");
                                     ("partial_json", VStr "1}") ]) ]
                  (int 0) (VStr "t1") (VStr "lookup") "{q:" "1}"
                  eq_refl eq_refl eq_refl eq_refl) as H.
    eexists _, _. split; [exact H | reflexivity].
Defined.

(** C3, as stated, fails on an empty fragment: the event is an
    [input_json_delta] whose index has a recorded tool call, and the call
    emits no chunk. *)
Lemma empty_fragment_emits_nothing :
  let st :=
    mkState [] [ (int 1, toolCallRecord (int 0) (VStr "t1") (VStr "lookup") (VStr "")) ] in
  let ev :=
    VObj [ ("type", VStr "content_block_delta"); ("index", int 1);
           ("delta", VObj [ ("type", VStr "input_json_delta");
                            ("partial_json", VStr "") ]) ] in
  isInputJsonDelta (int 1) ev = true
  /\ map_get (getq "index" ev) (toolCalls st)
     = Some (toolCallRecord (int 0) (VStr "t1") (VStr "lookup") (VStr ""))
  /\ claudeToOpenAIResponse (fun _ => NaN) 0 ev st = inr (VNull, st)
  /\ chunks_of VNull = [].
Proof. repeat split. Qed.

(** C10 on an exchange that opened no tool call. *)
Lemma unrecorded_fragment_witness :
  claudeToOpenAIResponse (fun _ => NaN) 0
    (VObj [ ("type", VStr "content_block_delta"); ("index", int 3);
            ("delta", VObj [ ("type", VStr "input_json_delta");
                             ("partial_json", VStr "{") ]) ])
    (mkState [ ("messageId", VStr "msg_1") ] [])
  = inr (VNull, mkState [ ("messageId", VStr "msg_1") ] []).
Proof.
  apply unrecorded_fragment_dropped; reflexivity.
Defined.

(** C5 at two [message_delta] events that both carry a stop reason: the
    first call sets [finishReasonSent], the second still emits a chunk
    whose [finish_reason] is not null. *)
Theorem second_stop_reason_emits_again :
  let st0 := mkState [ ("finishReasonSent", VBool false) ] [] in
  let ev := VObj [ ("type", VStr "message_delta");
                   ("delta", VObj [ ("stop_reason", VStr "end_turn") ]) ] in
  exists c1 st1 c2 st2,
    claudeToOpenAIResponse (fun _ => NaN) 0 ev st0 = inr (VArr [c1], st1)
    /\ sget "finishReasonSent" st1 = VBool true
    /\ claudeToOpenAIResponse (fun _ => NaN) 1 ev st1 = inr (VArr [c2], st2)
    /\ finishReasonOf c2 = VStr "stop".
Proof.
  intros st0 ev. eexists _, _, _, _.
  split; [reflexivity|]. split; [reflexivity|]. split; reflexivity.
Qed.

(** C9. A chunk that is absent, or whose [choices] (for
    [openaiToClaudeResponse]) or whose [candidates], read through the
    optional [response] envelope (for [geminiToOpenAIResponse]), are
    absent or empty: the translator returns null, so it emits nothing,
    and the state is as it was. *)
Theorem missing_first_element_ignored :
  (forall str_num now chunk st,
     absent chunk \/ lacksFirst (getq "choices" chunk) ->
     openaiToClaudeResponse str_num now chunk st = inr (VNull, st))
  /\ (forall str_num JSON_stringify now chunk st,
        absent chunk
        \/ lacksFirst (getq "candidates" (or_else (getq "response" chunk) chunk)) ->
        Gemini.geminiToOpenAIResponse str_num JSON_stringify now chunk st
        = inr (VNull, st)).
Proof.
  split.
  - intros str_num now chunk st H. unfold openaiToClaudeResponse.
    destruct (truthy chunk) eqn:T; [|reflexivity]. cbn [negb].
    rewrite (get_truthy "choices" chunk T). cbn [bind].
    destruct H as [[-> | ->] | [[-> | ->] | ->]]; try discriminate T; reflexivity.
  - intros str_num JSON_stringify now chunk st H. unfold Gemini.geminiToOpenAIResponse.
    destruct (truthy chunk) eqn:T; [|reflexivity]. cbn [negb].
    destruct H as [[-> | ->] | [[-> | ->] | ->]]; try discriminate T;
      cbn [first truthy negb orb]; now rewrite orb_true_r.
Qed.

Lemma missing_first_element_witness :
  openaiToClaudeResponse (fun _ => NaN) 0
    (VObj [ ("id", VStr "chatcmpl-1"); ("choices", VArr []) ])
    (mkState [ ("messageStartSent", VBool true) ] [])
  = inr (VNull, mkState [ ("messageStartSent", VBool true) ] [])
  /\ Gemini.geminiToOpenAIResponse (fun _ => NaN) (fun _ => "{}") 0
       (VObj [ ("response", VObj [ ("responseId", VStr "r1") ]) ])
       (mkState [] [])
     = inr (VNull, mkState [] []).
Proof.
  split.
  - apply (proj1 missing_first_element_ignored). right. right. reflexivity.
  - apply (proj2 missing_first_element_ignored). right. left. right. reflexivity.
Defined.

End StreamFacts.

(** ** The request translators *)

Module RequestFacts.
Import OpenAIRequest.

Section Claude.
Variable JSON_parse : string -> option value.
Variable CLAUDE_SYSTEM_PROMPT : value.
Variable adjustMaxTokens : value -> value.

(** C4. The request with the system message "Be terse" and the user
    message "hi" is translated to the system list made of the preamble
    block and the cached text block, and to the one user message. *)
Theorem system_and_user_scenario model stream :
  let body :=
    VObj [ ("messages",
            VArr [ VObj [ ("role", VStr "system"); ("content", VStr "Be terse") ];
                   VObj [ ("role", VStr "user"); ("content", VStr "hi") ] ]) ] in
  exists r,
    openaiToClaude JSON_parse CLAUDE_SYSTEM_PROMPT adjustMaxTokens model body stream
    = inr r
    /\ getq "system" r
       = VArr [ VObj [ ("type", VStr "text"); ("text", CLAUDE_SYSTEM_PROMPT) ];
                VObj [ ("type", VStr "text"); ("text", VStr "Be terse");
                       ("cache_control", VObj [ ("type", VStr "ephemeral");
                                                ("ttl", VStr "1h") ]) ] ]
    /\ getq "messages" r
       = VArr [ VObj [ ("role", VStr "user");
                       ("content", VArr [ VObj [ ("type", VStr "text");
                                                 ("text", VStr "hi") ] ]) ] ].
Proof.
  intros body. eexists. split; [reflexivity|]. split; reflexivity.
Qed.

(** *** The merging loop *)

Abbreviation blocksOf := (getContentBlocksFromMessage JSON_parse).
Abbreviation merging := (mergeMessage JSON_parse).







Lemma foldM_app {A S} (f : S -> A -> result S) l1 l2 s :
  foldM f (l1 ++ l2) s = bind (foldM f l1 s) (foldM f l2).
Proof.
  revert s. induction l1 as [|x l1 IH]; intros s; [reflexivity|].
  cbn [app foldM]. destruct (f s x); [reflexivity | apply IH].
Qed.


Lemma foldM_total {A S} (f : S -> A -> result S) l :
  Forall (fun x => forall s, exists s', f s x = inr s') l ->
  forall s, exists s', foldM f l s = inr s'.
Proof.
  induction 1 as [|x l Hx _ IH]; intros s; [now exists s|].
  cbn [foldM]. destruct (Hx s) as [s1 ->]. apply IH.
Qed.













(** *** The cache mark *)




(** *** Prefixes of the request *)








End Claude.


End RequestFacts.

(** ** The Gemini request translators *)

Module GeminiFacts.
Import Gemini.

Lemma inherited_undef k : ~ In k object_prototype_members -> inherited k = VUndef.
Proof.
  intros H. unfold inherited.
  destruct (existsb (String.eqb k) object_prototype_members) eqn:E; [|reflexivity].
  apply existsb_exists in E as (x & Hin & Hx). apply String.eqb_eq in Hx. now subst x.
Qed.

Lemma budgetMap_unrecognized k :
  ~ In k ("low" :: "medium" :: "high" :: object_prototype_members) ->
  obj_get budgetMap k = VUndef.
Proof.
  intros H. unfold obj_get, budgetMap. cbn [assoc].
  destruct (String.eqb_spec k "low") as [->|_]; [elim H; cbn; auto|].
  destruct (String.eqb_spec k "medium") as [->|_]; [elim H; cbn; auto|].
  destruct (String.eqb_spec k "high") as [->|_]; [elim H; cbn; auto|].
  apply inherited_undef. intros Hin. apply H. now do 3 right.
Qed.

Section Requests.

Variable DEFAULT_THINKING_GEMINI_SIGNATURE : value.
Variable DEFAULT_SAFETY_SETTINGS : value.
Variable convertOpenAIContentToParts : value -> result (list value).
Variable extractTextContent : value -> result value.
Variable tryParseJSON : value -> value.
Variable cleanJSONSchemaForAntigravity : value -> result value.

Abbreviation base :=
  (geminiBase DEFAULT_THINKING_GEMINI_SIGNATURE DEFAULT_SAFETY_SETTINGS
     convertOpenAIContentToParts extractTextContent tryParseJSON).
Abbreviation cli :=
  (geminiCLI DEFAULT_THINKING_GEMINI_SIGNATURE DEFAULT_SAFETY_SETTINGS
     convertOpenAIContentToParts extractTextContent tryParseJSON
     cleanJSONSchemaForAntigravity).
Abbreviation converting :=
  (convertMessage DEFAULT_THINKING_GEMINI_SIGNATURE convertOpenAIContentToParts
     extractTextContent tryParseJSON).

(** *** What the base translator returns *)

Lemma base_unfold model body stream msgs t1 t2 contents si tf :
  get "messages" body = inr (VArr msgs) ->
  buildNames msgs = inr t1 ->
  buildResponses msgs = inr t2 ->
  foldM (converting t1 t2 (List.length msgs)) msgs ([], None) = inr (contents, si) ->
  convertTools body = inr tf ->
  base model body stream
  = inr (VObj ([ ("model", model);
                 ("contents", VArr contents);
                 ("generationConfig",
                  VObj (optionalField "temperature" (getq "temperature" body)
                        ++ optionalField "topP" (getq "top_p" body)
                        ++ optionalField "topK" (getq "top_k" body)
                        ++ optionalField "maxOutputTokens" (getq "max_tokens" body)));
                 ("safetySettings", DEFAULT_SAFETY_SETTINGS) ]
               ++ match si with
                  | Some i => [ ("systemInstruction", i) ]
                  | None => []
                  end
               ++ tf)).
Proof.
  intros Hmsgs Hn Hr Hfold Htools.
  assert (Hbody : nullish body = false)
    by (destruct body; try reflexivity; discriminate Hmsgs).
  unfold geminiBase, openaiToGeminiBase.
  rewrite (get_getq "temperature" body Hbody). cbn [bind].
  replace (getq "messages" body) with (VArr msgs)
    by (rewrite (get_getq "messages" body Hbody) in Hmsgs; congruence).
  rewrite Hn. cbn [bind]. rewrite Hr. cbn [bind]. rewrite Hfold. cbn [bind].
  rewrite Htools. reflexivity.
Qed.

Lemma base_shape model body stream g :
  base model body stream = inr g ->
  exists fs gc,
    g = VObj fs
    /\ obj_get fs "generationConfig" = VObj gc
    /\ obj_get gc "thinkingConfig" = VUndef.
Proof.
  unfold geminiBase, openaiToGeminiBase.
  destruct (get "temperature" body) as [e|temperature]; [discriminate|]. cbn [bind].
  destruct (buildNames _) as [e|t1]; [discriminate|]. cbn [bind].
  destruct (buildResponses _) as [e|t2]; [discriminate|]. cbn [bind].
  destruct (foldM _ _ _) as [e|[contents si]]; [discriminate|]. cbn [bind].
  destruct (convertTools body) as [e|tf]; [discriminate|]. cbn [bind ret].
  intros [= <-]. eexists _, _. split; [reflexivity|]. split; [reflexivity|].
  unfold optionalField.
  destruct (is_undef temperature), (is_undef (getq "top_p" body)),
    (is_undef (getq "top_k" body)), (is_undef (getq "max_tokens" body)); reflexivity.
Qed.

(** *** The thinking configuration and the schema cleaning *)

Definition thinkingConfigOf (budget : value) : value :=
  VObj [ ("thinkingBudget", budget); ("include_thoughts", VBool true) ].

Lemma setThinkingConfig_config budget fs gc :
  obj_get fs "generationConfig" = VObj gc ->
  exists fs' gc',
    setThinkingConfig budget (VObj fs) = VObj fs'
    /\ obj_get fs' "generationConfig" = VObj gc'
    /\ obj_get gc' "thinkingConfig" = thinkingConfigOf budget.
Proof.
  intros H. unfold setThinkingConfig. rewrite H. eexists _, _.
  split; [reflexivity|]. split; [apply obj_get_set_same|]. apply obj_get_set_same.
Qed.

Lemma cleanDeclaration_total isClaude fn :
  (forall schema, exists cleaned, cleanJSONSchemaForAntigravity schema = inr cleaned) ->
  exists fn', cleanDeclaration cleanJSONSchemaForAntigravity isClaude fn = inr fn'.
Proof.
  intros Hclean. unfold cleanDeclaration.
  destruct fn as [| |b|n|t|l|fs|i]; try now eexists.
  destruct (truthy (obj_get fs "parameters")); [|now eexists].
  destruct (Hclean (obj_get fs "parameters")) as [c ->]. cbn [bind].
  destruct isClaude; now eexists.
Qed.

Lemma mapM_total {A B} (f : A -> result B) l :
  (forall x, exists y, f x = inr y) -> exists ys, mapM f l = inr ys.
Proof.
  intros H. induction l as [|x l [ys IH]]; [now exists []|].
  cbn [mapM]. destruct (H x) as [y ->]. cbn [bind]. rewrite IH. now eexists.
Qed.

Lemma cleanTools_spec isClaude fs :
  (forall schema, exists cleaned, cleanJSONSchemaForAntigravity schema = inr cleaned) ->
  exists fs',
    cleanTools cleanJSONSchemaForAntigravity isClaude (VObj fs) = inr (VObj fs')
    /\ forall k, String.eqb k "tools" = false -> obj_get fs' k = obj_get fs k.
Proof.
  intros Hclean. unfold cleanTools.
  destruct (obj_get fs "tools") as [| |b|n|t|[|[| |b|n|t|l|t0|i] rest]|o|i];
    try (exists fs; split; [reflexivity | reflexivity]).
  destruct (obj_get t0 "functionDeclarations") as [| |b|n|t|decls|o|i];
    try (exists fs; split; [reflexivity | reflexivity]).
  destruct (mapM_total (cleanDeclaration cleanJSONSchemaForAntigravity isClaude) decls)
    as [ds ->]; [intros x; now apply cleanDeclaration_total|].
  cbn [bind ret]. eexists. split; [reflexivity|].
  intros k Hk. now apply obj_get_set_other.
Qed.

Lemma cli_config model body stream gemini m :
  base model body stream = inr gemini ->
  OpenAIRequest.as_string model = inr m ->
  (forall schema, exists cleaned, cleanJSONSchemaForAntigravity schema = inr cleaned) ->
  let effort := getq "reasoning_effort" body in
  let thinking := getq "thinking" body in
  let explicit :=
    is_str (getq "type" thinking) "enabled" && truthy (getq "budget_tokens" thinking) in
  exists r,
    cli model body stream = inr r
    /\ getq "thinkingConfig" (getq "generationConfig" r)
       = if explicit then thinkingConfigOf (getq "budget_tokens" thinking)
         else if truthy effort
              then thinkingConfigOf (or_else (obj_get budgetMap (key_of effort)) (int 8192))
              else VUndef.
Proof.
  intros Hbase Hmodel Hclean effort thinking explicit.
  destruct (base_shape _ _ _ _ Hbase) as (fs & gc & -> & Hgc & Hnone).
  unfold geminiCLI, openaiToGeminiCLI. unfold geminiBase in Hbase. rewrite Hbase.
  cbn [bind]. rewrite Hmodel. cbn [bind].
  fold effort. fold thinking. fold explicit.
  assert (Hfinal : exists fs2 gc2,
             (if explicit
              then setThinkingConfig (getq "budget_tokens" thinking)
                     (if truthy effort
                      then setThinkingConfig
                             (or_else (obj_get budgetMap (key_of effort)) (int 8192))
                             (VObj fs)
                      else VObj fs)
              else if truthy effort
                   then setThinkingConfig
                          (or_else (obj_get budgetMap (key_of effort)) (int 8192))
                          (VObj fs)
                   else VObj fs) = VObj fs2
             /\ obj_get fs2 "generationConfig" = VObj gc2
             /\ obj_get gc2 "thinkingConfig"
                = if explicit then thinkingConfigOf (getq "budget_tokens" thinking)
                  else if truthy effort
                       then thinkingConfigOf
                              (or_else (obj_get budgetMap (key_of effort)) (int 8192))
                       else VUndef).
  { destruct (truthy effort).
    - destruct (setThinkingConfig_config
                  (or_else (obj_get budgetMap (key_of effort)) (int 8192)) fs gc Hgc)
        as (fs1 & gc1 & -> & Hgc1 & Hc1).
      destruct explicit.
      + exact (setThinkingConfig_config _ fs1 gc1 Hgc1).
      + now exists fs1, gc1.
    - destruct explicit.
      + exact (setThinkingConfig_config _ fs gc Hgc).
      + now exists fs, gc. }
  destruct Hfinal as (fs2 & gc2 & -> & Hgc2 & Hc2).
  destruct (cleanTools_spec (includes "claude" (toLowerCase m)) fs2 Hclean)
    as (fs' & -> & Hkeep).
  eexists. split; [reflexivity|].
  change (getq "generationConfig" (VObj fs')) with (obj_get fs' "generationConfig").
  rewrite Hkeep by reflexivity. rewrite Hgc2. exact Hc2.
Qed.

(** C6, as the code has it. When the base translation returns, the
    model is a string and the schema cleaner returns, [openaiToGeminiCLI]
    returns, and its thinking budget is: the explicit [budget_tokens] when
    [body.thinking] is enabled with a truthy budget; else 1024, 8192 or
    32768 for the effort low, medium or high; else 8192 when an effort is
    given that is neither one of the three nor a member name of
    [Object.prototype]; and when no effort is given (and no explicit
    budget) there is no thinking configuration at all. *)
Theorem thinking_budget_derivation model body stream gemini m :
  base model body stream = inr gemini ->
  OpenAIRequest.as_string model = inr m ->
  (forall schema, exists cleaned, cleanJSONSchemaForAntigravity schema = inr cleaned) ->
  let effort := getq "reasoning_effort" body in
  let thinking := getq "thinking" body in
  let explicit :=
    is_str (getq "type" thinking) "enabled" && truthy (getq "budget_tokens" thinking) in
  exists r,
    cli model body stream = inr r
    /\ let config := getq "thinkingConfig" (getq "generationConfig" r) in
       let budget := getq "thinkingBudget" config in
       (explicit = true -> budget = getq "budget_tokens" thinking)
       /\ (explicit = false -> effort = VStr "low" -> budget = int 1024)
       /\ (explicit = false -> effort = VStr "medium" -> budget = int 8192)
       /\ (explicit = false -> effort = VStr "high" -> budget = int 32768)
       /\ (explicit = false -> truthy effort = true ->
           ~ In (key_of effort)
               ("low" :: "medium" :: "high" :: object_prototype_members) ->
           budget = int 8192)
       /\ (explicit = false -> truthy effort = false -> config = VUndef).
Proof.
  intros Hbase Hmodel Hclean effort thinking explicit.
  destruct (cli_config model body stream gemini m Hbase Hmodel Hclean) as (r & Hr & Hc).
  fold effort thinking explicit in Hc.
  exists r. split; [exact Hr|]. cbv zeta. rewrite Hc.
  repeat split.
  - intros ->. reflexivity.
  - intros -> ->. reflexivity.
  - intros -> ->. reflexivity.
  - intros -> ->. reflexivity.
  - intros -> -> Hkey. rewrite (budgetMap_unrecognized _ Hkey). reflexivity.
  - intros -> ->. reflexivity.
Qed.

(** *** The loop over the messages *)

Definition systemInstructionOf (text : value) : value :=
  VObj [ ("role", VStr "user"); ("parts", VArr [ VObj [ ("text", text) ] ]) ].

Lemma converting_system t1 t2 n contents si m text :
  is_str (getq "role" m) "system" = true ->
  (1 < n)%nat ->
  textOf extractTextContent (getq "content" m) = inr text ->
  converting t1 t2 n (contents, si) m = inr (contents, Some (systemInstructionOf text)).
Proof.
  intros Hrole Hn Htext. destruct (getq_str_obj _ _ _ Hrole) as [fs ->].
  change (getq ?k (VObj fs)) with (obj_get fs k) in *.
  unfold convertMessage. cbn [get bind ret]. rewrite Hrole.
  replace (1 <? n)%nat with true by (symmetry; apply Nat.ltb_lt; exact Hn).
  cbn [andb]. rewrite Htext. reflexivity.
Qed.

Lemma converting_sole_system t1 t2 contents si m parts :
  is_str (getq "role" m) "system" = true ->
  convertOpenAIContentToParts (getq "content" m) = inr parts ->
  converting t1 t2 1 (contents, si) m
  = inr (match parts with
         | [] => contents
         | _ => contents ++ [contentEntry "user" parts]
         end, si).
Proof.
  intros Hrole Hparts. destruct (getq_str_obj _ _ _ Hrole) as [fs ->].
  change (getq ?k (VObj fs)) with (obj_get fs k) in *.
  unfold convertMessage. cbn [get bind ret]. rewrite Hrole.
  cbn [Nat.ltb Nat.leb Nat.eqb andb orb]. rewrite orb_true_r. rewrite Hparts. reflexivity.
Qed.

Lemma converting_step t1 t2 n acc x acc' :
  converting t1 t2 n acc x = inr acc' ->
  (exists ext, fst acc' = fst acc ++ ext)
  /\ (is_str (getq "role" x) "system" = false -> snd acc' = snd acc).
Proof.
  destruct acc as [contents si]. unfold convertMessage.
  destruct (get "role" x) as [e|role] eqn:Erole; [discriminate|]. cbn [bind].
  assert (Hrole : getq "role" x = role) by (unfold getq; now rewrite Erole).
  rewrite Hrole.
  destruct (get "content" x) as [e|content]; [discriminate|]. cbn [bind].
  destruct (is_str role "system" && (1 <? n)%nat) eqn:Esys.
  { destruct (textOf _ _) as [e|text]; [discriminate|]. cbn [bind ret].
    intros [= <-]. split; [exists []; cbn; now rewrite app_nil_r|].
    intros Hno. rewrite Hno in Esys. discriminate Esys. }
  destruct (is_str role "user" || is_str role "system" && (n =? 1)%nat).
  { destruct (convertOpenAIContentToParts content) as [e|parts]; [discriminate|].
    cbn [bind ret]. intros [= <-]. split; [|reflexivity].
    destruct parts; cbn [fst]; [exists []; now rewrite app_nil_r | now eexists]. }
  destruct (is_str role "assistant"); [|intros [= <-]; split;
    [exists []; cbn; now rewrite app_nil_r | reflexivity]].
  destruct (if truthy content then _ else _) as [e|parts]; [discriminate|]. cbn [bind].
  destruct (getq "tool_calls" x) as [| |b|k|t|tcs|o|i];
    try (cbn [ret]; intros [= <-]; split; [|reflexivity];
         destruct parts; cbn [fst]; [exists []; now rewrite app_nil_r | now eexists]).
  destruct (foldM _ tcs (parts, [])) as [e|[parts' ids]]; [discriminate|]. cbn [bind].
  destruct (mapM _ ids) as [e|toolParts]; [discriminate|]. cbn [bind ret].
  intros [= <-]. split; [|reflexivity]. cbn [fst].
  destruct parts', toolParts; rewrite <- ?app_assoc;
    [exists []; now rewrite app_nil_r | now eexists ..].
Qed.

Lemma fold_converting_instruction t1 t2 n l : forall acc acc',
  Forall (fun x => is_str (getq "role" x) "system" = false) l ->
  foldM (converting t1 t2 n) l acc = inr acc' -> snd acc' = snd acc.
Proof.
  induction l as [|x l IH]; intros acc acc' Hall Hrun.
  - now injection Hrun as <-.
  - inversion Hall as [|? ? Hx Hl]; subst. cbn [foldM] in Hrun.
    destruct (converting t1 t2 n acc x) as [e|acc1] eqn:E; [discriminate Hrun|].
    rewrite (IH _ _ Hl Hrun). exact (proj2 (converting_step _ _ _ _ _ _ E) Hx).
Qed.

Lemma setThinkingConfig_keeps budget g k :
  String.eqb k "generationConfig" = false ->
  getq k (setThinkingConfig budget g) = getq k g.
Proof.
  intros Hk. unfold setThinkingConfig.
  destruct g as [| |b|n|t|l|fs|i]; try reflexivity.
  destruct (obj_get fs "generationConfig") as [| |b|n|t|l|gc|i]; try reflexivity.
  change (getq k (VObj ?f)) with (obj_get f k). now apply obj_get_set_other.
Qed.

Lemma cleanTools_keeps isClaude g r k :
  cleanTools cleanJSONSchemaForAntigravity isClaude g = inr r ->
  String.eqb k "tools" = false ->
  getq k r = getq k g.
Proof.
  intros Hclean Hk. unfold cleanTools in Hclean.
  destruct g as [| |b|n|t|l|fs|i]; try (now injection Hclean as <-).
  destruct (obj_get fs "tools") as [| |b|n|t|[|[| |b|n|t|l|t0|i] rest]|o|i];
    try (now injection Hclean as <-).
  destruct (obj_get t0 "functionDeclarations") as [| |b|n|t|decls|o|i];
    try (now injection Hclean as <-).
  destruct (mapM _ decls) as [e|ds]; [discriminate Hclean|].
  cbn [bind ret] in Hclean. injection Hclean as <-.
  change (getq k (VObj ?f)) with (obj_get f k). now apply obj_get_set_other.
Qed.

Lemma cli_keeps model body stream g k :
  cli model body stream = inr g ->
  String.eqb k "generationConfig" = false ->
  String.eqb k "tools" = false ->
  exists b, base model body stream = inr b /\ getq k g = getq k b.
Proof.
  unfold geminiCLI, geminiBase, openaiToGeminiCLI. intros Hcli Hgc Htools.
  destruct (openaiToGeminiBase _ _ _ _ _ model body stream) as [e|b];
    [discriminate Hcli|].
  cbn [bind] in Hcli.
  destruct (OpenAIRequest.as_string model) as [e|m]; [discriminate Hcli|].
  cbn [bind] in Hcli. exists b. split; [reflexivity|].
  rewrite (cleanTools_keeps _ _ _ k Hcli Htools).
  destruct (is_str _ "enabled" && truthy _), (truthy (getq "reasoning_effort" body));
    now rewrite ?setThinkingConfig_keeps by exact Hgc.
Qed.

Lemma envelope_keeps pid rid sid model g credentials e :
  wrapInCloudCodeEnvelope pid rid sid model g credentials = inr e ->
  getq "contents" (getq "request" e) = getq "contents" g
  /\ getq "systemInstruction" (getq "request" e) = getq "systemInstruction" g.
Proof.
  unfold wrapInCloudCodeEnvelope.
  destruct (get "contents" g) as [err|contents] eqn:E; [discriminate|].
  cbn [bind ret]. intros [= <-]. split; [|reflexivity].
  assert (Hc : getq "contents" g = contents) by (unfold getq; now rewrite E).
  rewrite Hc. reflexivity.
Qed.

Lemma convertTools_keys body tf :
  convertTools body = inr tf -> tf = [] \/ exists v, tf = [ ("tools", v) ].
Proof.
  unfold convertTools.
  destruct (getq "tools" body) as [| |b|n|t|[|t0 ts]|o|i];
    try (intros [= <-]; now left).
  destruct (foldM _ (t0 :: ts) []) as [e|decls]; [discriminate|]. cbn [bind ret].
  intros [= <-]. destruct decls; [now left | right; now eexists].
Qed.

(** A message that the loop converts without a TypeError, whatever was
    converted before it. *)
Definition converts (t1 t2 : list (string * value)) (n : nat) (x : value) : Prop :=
  forall acc, exists acc', converting t1 t2 n acc x = inr acc'.

Lemma system_among_several model body stream msgs pre m post t1 t2 text tf :
  get "messages" body = inr (VArr msgs) ->
  msgs = pre ++ m :: post ->
  (1 < List.length msgs)%nat ->
  is_str (getq "role" m) "system" = true ->
  Forall (fun x => is_str (getq "role" x) "system" = false) post ->
  textOf extractTextContent (getq "content" m) = inr text ->
  buildNames msgs = inr t1 ->
  buildResponses msgs = inr t2 ->
  Forall (converts t1 t2 (List.length msgs)) (pre ++ post) ->
  convertTools body = inr tf ->
  exists r,
    base model body stream = inr r
    /\ getq "systemInstruction" r = systemInstructionOf text
    /\ forall contents si,
         converting t1 t2 (List.length msgs) (contents, si) m
         = inr (contents, Some (systemInstructionOf text)).
Proof.
  intros Hmsgs Hsplit Hn Hrole Hpost Htext Ht1 Ht2 Hall Htools.
  apply Forall_app in Hall as [Hpre Hpost'].
  destruct (RequestFacts.foldM_total (converting t1 t2 (List.length msgs)) pre Hpre
              ([], None)) as [[c0 si0] H0].
  destruct (RequestFacts.foldM_total (converting t1 t2 (List.length msgs)) post Hpost'
              (c0, Some (systemInstructionOf text))) as [[c1 si1] H1].
  pose proof (fold_converting_instruction _ _ _ _ _ _ Hpost H1) as Hsi.
  cbn [snd] in Hsi. subst si1.
  assert (Hfold : foldM (converting t1 t2 (List.length msgs)) msgs ([], None)
                  = inr (c1, Some (systemInstructionOf text))).
  { rewrite Hsplit at 2. rewrite RequestFacts.foldM_app, H0. cbn [bind foldM].
    rewrite (converting_system t1 t2 _ c0 si0 m text Hrole Hn Htext). exact H1. }
  eexists. split; [exact (base_unfold model body stream msgs _ _ _ _ _
                            Hmsgs Ht1 Ht2 Hfold Htools)|].
  split; [reflexivity|].
  intros contents si. now apply converting_system.
Qed.

Lemma system_alone model body stream m parts tf :
  get "messages" body = inr (VArr [m]) ->
  is_str (getq "role" m) "system" = true ->
  convertOpenAIContentToParts (getq "content" m) = inr parts ->
  convertTools body = inr tf ->
  exists r,
    base model body stream = inr r
    /\ getq "systemInstruction" r = VUndef
    /\ getq "contents" r
       = VArr (match parts with
               | [] => []
               | _ => [contentEntry "user" parts]
               end).
Proof.
  intros Hmsgs Hrole Hparts Htools.
  pose proof (converting_sole_system [] [] [] None m parts Hrole Hparts) as Hstep.
  destruct (getq_str_obj _ _ _ Hrole) as [fs ->].
  pose proof Hrole as Hrole'. apply is_str_eq in Hrole'.
  change (getq "role" (VObj fs)) with (obj_get fs "role") in Hrole'.
  assert (Ht1 : buildNames [VObj fs] = inr []).
  { unfold buildNames, namesOfMessage. cbn [foldM get bind ret].
    rewrite Hrole'. reflexivity. }
  assert (Ht2 : buildResponses [VObj fs] = inr []).
  { unfold buildResponses, responseOfMessage. cbn [foldM get bind ret].
    rewrite Hrole'. reflexivity. }
  assert (Hfold : foldM (converting [] [] (List.length [VObj fs])) [VObj fs] ([], None)
                  = inr (match parts with
                         | [] => []
                         | _ => [contentEntry "user" parts]
                         end, None)).
  { cbn [foldM List.length]. rewrite Hstep. cbn [bind ret]. now destruct parts. }
  eexists. split; [exact (base_unfold model body stream _ _ _ _ _ _
                            Hmsgs Ht1 Ht2 Hfold Htools)|].
  split; [|reflexivity].
  destruct (convertTools_keys body tf Htools) as [-> | [v ->]]; reflexivity.
Qed.

(** The translator of [openai.js] writes the system instruction for a
    sole system message too, and no content entry. *)
Lemma legacy_system_alone JSON_parse model body stream m text :
  get "messages" body = inr (VArr [m]) ->
  is_str (getq "role" m) "system" = true ->
  OpenAIRequest.textOf (getq "content" m) = inr text ->
  exists r,
    OpenAIRequest.openaiToGemini JSON_parse model body stream = inr r
    /\ getq "systemInstruction" r = VObj [ ("parts", VArr [ VObj [ ("text", text) ] ]) ]
    /\ getq "contents" r = VArr [].
Proof.
  intros Hmsgs Hrole Htext.
  assert (Hbody : nullish body = false)
    by (destruct body; try reflexivity; discriminate Hmsgs).
  destruct (getq_str_obj _ _ _ Hrole) as [fs ->].
  change (getq ?k (VObj fs)) with (obj_get fs k) in *.
  unfold OpenAIRequest.openaiToGemini.
  rewrite (get_getq "max_tokens" body Hbody). cbn [bind].
  replace (getq "messages" body) with (VArr [VObj fs])
    by (rewrite (get_getq "messages" body Hbody) in Hmsgs; congruence).
  unfold OpenAIRequest.geminiMessage. cbn [foldM get bind ret].
  rewrite Hrole, Htext. cbn [bind ret].
  eexists. split; [reflexivity|]. split; reflexivity.
Qed.

(** C8, as the code has it. In [openaiToGeminiBase], when the request has
    several messages, a system message that no system message follows
    becomes the [systemInstruction] field and adds no content entry; when
    it is the only message, no [systemInstruction] is set and the message
    becomes a user content entry as soon as its content gives a part. The
    translators built on it, the Gemini CLI translator and the envelope
    around it, carry both fields over from the base translation. *)
Theorem system_message_conversion :
  (forall model body stream msgs pre m post t1 t2 text tf,
     get "messages" body = inr (VArr msgs) ->
     msgs = pre ++ m :: post ->
     (1 < List.length msgs)%nat ->
     is_str (getq "role" m) "system" = true ->
     Forall (fun x => is_str (getq "role" x) "system" = false) post ->
     textOf extractTextContent (getq "content" m) = inr text ->
     buildNames msgs = inr t1 ->
     buildResponses msgs = inr t2 ->
     Forall (converts t1 t2 (List.length msgs)) (pre ++ post) ->
     convertTools body = inr tf ->
     exists r,
       base model body stream = inr r
       /\ getq "systemInstruction" r = systemInstructionOf text
       /\ forall contents si,
            converting t1 t2 (List.length msgs) (contents, si) m
            = inr (contents, Some (systemInstructionOf text)))
  /\ (forall model body stream m parts tf,
        get "messages" body = inr (VArr [m]) ->
        is_str (getq "role" m) "system" = true ->
        convertOpenAIContentToParts (getq "content" m) = inr parts ->
        convertTools body = inr tf ->
        exists r,
          base model body stream = inr r
          /\ getq "systemInstruction" r = VUndef
          /\ getq "contents" r
             = VArr (match parts with
                     | [] => []
                     | _ => [contentEntry "user" parts]
                     end))
  /\ (forall model body stream g,
        cli model body stream = inr g ->
        exists b,
          base model body stream = inr b
          /\ getq "systemInstruction" g = getq "systemInstruction" b
          /\ getq "contents" g = getq "contents" b)
  /\ (forall pid rid sid model g credentials e,
        wrapInCloudCodeEnvelope pid rid sid model g credentials = inr e ->
        getq "contents" (getq "request" e) = getq "contents" g
        /\ getq "systemInstruction" (getq "request" e) = getq "systemInstruction" g).
Proof.
  split; [exact system_among_several|].
  split; [exact system_alone|].
  split; [|exact envelope_keeps].
  intros model body stream g Hcli.
  destruct (cli_keeps model body stream g "systemInstruction" Hcli eq_refl eq_refl)
    as (b & Hb & Hsi).
  destruct (cli_keeps model body stream g "contents" Hcli eq_refl eq_refl)
    as (b' & Hb' & Hc).
  exists b. split; [exact Hb|]. split; [exact Hsi|]. congruence.
Qed.

(** *** Function responses *)

(** The content found for the call [fid], or the text of the empty
    object. *)
Definition respOf (toolResponses : list (string * value)) (fid : value) : value :=
  or_else (obj_get toolResponses (key_of fid)) (VStr "{}").

Definition isFunctionCall (tc : value) : bool := is_str (getq "type" tc) "function".

(** The ids of the function calls of an assistant message, in order. *)
Definition callIds (tcs : list value) : list value :=
  map (getq "id") (filter isFunctionCall tcs).

Definition responseOf (part : value) : value :=
  getq "response" (getq "functionResponse" part).

Lemma functionResponse_spec t1 t2 fid :
  truthy (obj_get t1 (key_of fid)) = true \/ is_string fid = true ->
  exists part,
    functionResponse tryParseJSON t1 t2 fid = inr part
    /\ getq "id" (getq "functionResponse" part) = fid
    /\ let resp := respOf t2 fid in
       let parsed := tryParseJSON resp in
       (parsed = VNull ->
        responseOf part = VObj [ ("result", VObj [ ("result", resp) ]) ])
       /\ (parsed <> VNull -> typeof_object parsed = true ->
           responseOf part = VObj [ ("result", parsed) ])
       /\ (typeof_object parsed = false ->
           responseOf part = VObj [ ("result", VObj [ ("result", parsed) ]) ]).
Proof.
  intros Hname. unfold functionResponse. fold (respOf t2 fid). cbv zeta.
  assert (Hn : exists name,
             (if negb (truthy (obj_get t1 (key_of fid)))
              then s <- OpenAIRequest.as_string fid ;; ret (VStr (nameOfId s))
              else ret (obj_get t1 (key_of fid))) = inr name).
  { destruct (truthy (obj_get t1 (key_of fid))); [now eexists|].
    destruct Hname as [H|H]; [discriminate H|].
    destruct fid; try discriminate H. now eexists. }
  destruct Hn as [name ->]. cbn [bind ret].
  eexists. split; [reflexivity|]. split; [reflexivity|]. cbv zeta.
  unfold responseOf.
  change (getq "response" (getq "functionResponse" (VObj [ ("functionResponse",
            VObj [ ("id", fid); ("name", name); ("response", ?x) ]) ])))
    with x.
  destruct (tryParseJSON (respOf t2 fid)) as [| |b|n|t|l|o|k] eqn:E;
    cbn [typeof_object negb]; repeat split; intros; try reflexivity;
      try discriminate; try congruence.
  - destruct (String.eqb k "__proto__"); [reflexivity | discriminate].
  - destruct (String.eqb k "__proto__"); [discriminate | reflexivity].
Qed.

(** The message [x] writes the entry [k] of the response table. *)
Definition writes (k : string) (x : value) : bool :=
  is_str (getq "role" x) "tool"
  && truthy (getq "tool_call_id" x)
  && String.eqb (key_of (getq "tool_call_id" x)) k.

Lemma responseOfMessage_step tbl x tbl' k :
  responseOfMessage tbl x = inr tbl' ->
  String.eqb k "__proto__" = false ->
  obj_get tbl' k = if writes k x then getq "content" x else obj_get tbl k.
Proof.
  unfold responseOfMessage, writes. intros H Hk.
  assert (Hx : nullish x = false) by (destruct x; try reflexivity; discriminate H).
  rewrite !get_getq in H by exact Hx. cbn [bind] in H.
  destruct (is_str (getq "role" x) "tool" && truthy (getq "tool_call_id" x));
    [|now injection H as <-].
  cbn [andb]. unfold table_set in H.
  destruct (String.eqb_spec (key_of (getq "tool_call_id" x)) k) as [Ek|Ek].
  - rewrite Ek, Hk in H. injection H as <-. apply obj_get_set_same.
  - destruct (String.eqb (key_of (getq "tool_call_id" x)) "__proto__").
    + destruct (getq "content" x); try discriminate H; now injection H as <-.
    + injection H as <-. apply obj_get_set_other. now apply String.eqb_neq.
Qed.

Lemma fold_responses_absent k l : forall tbl tbl',
  String.eqb k "__proto__" = false ->
  Forall (fun x => writes k x = false) l ->
  foldM responseOfMessage l tbl = inr tbl' ->
  obj_get tbl' k = obj_get tbl k.
Proof.
  induction l as [|x l IH]; intros tbl tbl' Hk Hall Hrun.
  - now injection Hrun as <-.
  - inversion Hall as [|? ? Hx Hl]; subst. cbn [foldM] in Hrun.
    destruct (responseOfMessage tbl x) as [e|tbl1] eqn:E; [discriminate Hrun|].
    rewrite (IH _ _ Hk Hl Hrun), (responseOfMessage_step _ _ _ k E Hk), Hx.
    reflexivity.
Qed.

Lemma responses_lookup msgs pre t post t2 k :
  msgs = pre ++ t :: post ->
  String.eqb k "__proto__" = false ->
  writes k t = true ->
  Forall (fun x => writes k x = false) post ->
  buildResponses msgs = inr t2 ->
  obj_get t2 k = getq "content" t.
Proof.
  intros -> Hk Ht Hpost Hrun. unfold buildResponses in Hrun.
  rewrite RequestFacts.foldM_app in Hrun.
  destruct (foldM responseOfMessage pre []) as [e|tbl0]; [discriminate Hrun|].
  cbn [bind foldM] in Hrun.
  destruct (responseOfMessage tbl0 t) as [e|tbl1] eqn:E; [discriminate Hrun|].
  rewrite (fold_responses_absent k post _ _ Hk Hpost Hrun),
    (responseOfMessage_step _ _ _ k E Hk), Ht.
  reflexivity.
Qed.

Lemma responses_missing msgs t2 k :
  ~ In k object_prototype_members ->
  Forall (fun x => writes k x = false) msgs ->
  buildResponses msgs = inr t2 ->
  obj_get t2 k = VUndef.
Proof.
  intros Hk Hall Hrun.
  assert (Hproto : String.eqb k "__proto__" = false).
  { apply String.eqb_neq. intros ->. apply Hk. do 7 right. left. reflexivity. }
  rewrite (fold_responses_absent k msgs [] t2 Hproto Hall Hrun).
  unfold obj_get. cbn [assoc]. now apply inherited_undef.
Qed.

Abbreviation calling := (functionCall DEFAULT_THINKING_GEMINI_SIGNATURE tryParseJSON).

Lemma fold_calling tcs : forall parts ids parts' ids',
  foldM calling tcs (parts, ids) = inr (parts', ids') ->
  ids' = ids ++ callIds tcs
  /\ List.length parts' = (List.length parts + List.length (callIds tcs))%nat.
Proof.
  induction tcs as [|tc tcs IH]; intros parts ids parts' ids' Hrun.
  - injection Hrun as <- <-. rewrite app_nil_r. cbn. split; [reflexivity | lia].
  - cbn [foldM] in Hrun. unfold functionCall at 1 in Hrun.
    destruct (get "type" tc) as [e|ty] eqn:Ety; [discriminate Hrun|].
    assert (Hty : getq "type" tc = ty) by (unfold getq; now rewrite Ety).
    cbn [bind] in Hrun. unfold callIds, isFunctionCall. cbn [filter]. rewrite Hty.
    destruct (is_str ty "function"); cbn [negb] in Hrun.
    + destruct (get "function" tc) as [e|fn]; [discriminate Hrun|]. cbn [bind] in Hrun.
      destruct (get "name" fn) as [e|name]; [discriminate Hrun|]. cbn [bind] in Hrun.
      destruct (get "id" tc) as [e|id] eqn:Eid; [discriminate Hrun|].
      assert (Hid : getq "id" tc = id) by (unfold getq; now rewrite Eid).
      cbn [bind ret] in Hrun. destruct (IH _ _ _ _ Hrun) as [-> Hlen].
      cbn [map List.length]. rewrite Hid, <- app_assoc. split; [reflexivity|].
      rewrite Hlen, length_app. unfold callIds, isFunctionCall. cbn [List.length]. lia.
    + cbn [bind ret] in Hrun. exact (IH _ _ _ _ Hrun).
Qed.

Lemma mapM_length {A B} (f : A -> result B) l : forall ys,
  mapM f l = inr ys -> List.length ys = List.length l.
Proof.
  induction l as [|x l IH]; intros ys H.
  - now injection H as <-.
  - cbn [mapM] in H. destruct (f x) as [e|y]; [discriminate H|]. cbn [bind] in H.
    destruct (mapM f l) as [e|ys']; [discriminate H|]. cbn [bind ret] in H.
    injection H as <-. cbn [List.length]. now rewrite (IH ys' eq_refl).
Qed.

(** An assistant message with function calls adds a model entry and,
    right after it, the user entry of the function responses. *)
Lemma converting_calls t1 t2 n contents si a tcs acc' :
  is_str (getq "role" a) "assistant" = true ->
  getq "tool_calls" a = VArr tcs ->
  callIds tcs <> [] ->
  converting t1 t2 n (contents, si) a = inr acc' ->
  exists modelParts toolParts,
    mapM (functionResponse tryParseJSON t1 t2) (callIds tcs) = inr toolParts
    /\ fst acc' = contents ++ [contentEntry "model" modelParts;
                               contentEntry "user" toolParts].
Proof.
  intros Hrole Hcalls Hids. destruct (getq_str_obj _ _ _ Hrole) as [fs ->].
  apply is_str_eq in Hrole.
  change (getq "role" (VObj fs)) with (obj_get fs "role") in Hrole.
  unfold convertMessage. cbn [get bind ret]. rewrite Hrole.
  cbn [is_str String.eqb Ascii.eqb Bool.eqb andb orb].
  destruct (if truthy (obj_get fs "content") then _ else _) as [e|parts];
    [discriminate|].
  cbn [bind]. rewrite Hcalls.
  destruct (foldM _ tcs (parts, [])) as [e|[parts' ids]] eqn:Efold; [discriminate|].
  cbn [bind]. destruct (fold_calling _ _ _ _ _ Efold) as [Hidseq Hlen].
  cbn [app] in Hidseq. subst ids.
  destruct (mapM _ (callIds tcs)) as [e|toolParts] eqn:Emap; [discriminate|].
  cbn [bind ret]. intros [= <-].
  pose proof (mapM_length _ _ _ Emap) as Hlen2.
  exists parts', toolParts. split; [reflexivity|]. cbn [fst].
  destruct parts' as [|p0 ps].
  { cbn [List.length] in Hlen. destruct (callIds tcs); [now elim Hids | cbn in Hlen; lia]. }
  destruct toolParts as [|q0 qs].
  { cbn [List.length] in Hlen2. destruct (callIds tcs); [now elim Hids | discriminate]. }
  now rewrite <- app_assoc.
Qed.

Lemma fold_converting_grows t1 t2 n l : forall acc acc',
  foldM (converting t1 t2 n) l acc = inr acc' ->
  exists ext, fst acc' = fst acc ++ ext.
Proof.
  induction l as [|x l IH]; intros acc acc' Hrun.
  - injection Hrun as <-. exists []. now rewrite app_nil_r.
  - cbn [foldM] in Hrun.
    destruct (converting t1 t2 n acc x) as [e|acc1] eqn:E; [discriminate Hrun|].
    destruct (proj1 (converting_step _ _ _ _ _ _ E)) as [e1 H1].
    destruct (IH _ _ Hrun) as [e2 H2].
    exists (e1 ++ e2). now rewrite H2, H1, app_assoc.
Qed.

Lemma calls_in_contents model body stream msgs pre a post tcs t1 t2 tf :
  get "messages" body = inr (VArr msgs) ->
  msgs = pre ++ a :: post ->
  is_str (getq "role" a) "assistant" = true ->
  getq "tool_calls" a = VArr tcs ->
  callIds tcs <> [] ->
  buildNames msgs = inr t1 ->
  buildResponses msgs = inr t2 ->
  Forall (converts t1 t2 (List.length msgs)) msgs ->
  convertTools body = inr tf ->
  exists r before modelParts toolParts after,
    base model body stream = inr r
    /\ getq "contents" r
       = VArr (before ++ contentEntry "model" modelParts
                      :: contentEntry "user" toolParts :: after)
    /\ mapM (functionResponse tryParseJSON t1 t2) (callIds tcs) = inr toolParts.
Proof.
  intros Hmsgs Hsplit Hrole Hcalls Hids Ht1 Ht2 Hall Htools.
  destruct (RequestFacts.foldM_total (converting t1 t2 (List.length msgs)) msgs Hall
              ([], None)) as [[contents si] Hfold].
  pose proof Hfold as Hrun. rewrite Hsplit in Hrun at 2.
  rewrite RequestFacts.foldM_app in Hrun.
  destruct (foldM _ pre ([], None)) as [e|[c0 si0]]; [discriminate Hrun|].
  cbn [bind foldM] in Hrun.
  destruct (converting t1 t2 (List.length msgs) (c0, si0) a) as [e|acc1] eqn:Ea;
    [discriminate Hrun|].
  destruct (converting_calls _ _ _ _ _ _ _ _ Hrole Hcalls Hids Ea)
    as (modelParts & toolParts & Hmap & Hc1).
  destruct (fold_converting_grows _ _ _ _ _ _ Hrun) as [ext Hext].
  cbn [fst] in Hext. rewrite Hc1, <- app_assoc in Hext. cbn [app] in Hext.
  pose proof (base_unfold model body stream msgs _ _ _ _ _
                Hmsgs Ht1 Ht2 Hfold Htools) as Hbase.
  eexists _, c0, modelParts, toolParts, ext.
  split; [exact Hbase|]. split; [|exact Hmap].
  rewrite <- Hext. reflexivity.
Qed.

(** C7, as the code has it. For a call whose name is known or whose id
    is a string, the function response carries the call's id and a
    response that is always an object with the one field [result]: under
    it the parsed content itself when that is an object or an array, and
    the parsed content wrapped once more as [{result: value}] when it is
    no object (for a parsed [null], the unparsed content is wrapped). The
    content is the one the last tool-role message with that call id
    holds, and the text of the empty object when there is none (or the
    content is falsy). The responses of an assistant message's function
    calls form one user entry of the contents, right after the message's
    model entry. *)
Theorem function_responses_wrapped :
  (forall t1 t2 fid,
     truthy (obj_get t1 (key_of fid)) = true \/ is_string fid = true ->
     exists part,
       functionResponse tryParseJSON t1 t2 fid = inr part
       /\ getq "id" (getq "functionResponse" part) = fid
       /\ let resp := respOf t2 fid in
          let parsed := tryParseJSON resp in
          (parsed = VNull ->
           responseOf part = VObj [ ("result", VObj [ ("result", resp) ]) ])
          /\ (parsed <> VNull -> typeof_object parsed = true ->
              responseOf part = VObj [ ("result", parsed) ])
          /\ (typeof_object parsed = false ->
              responseOf part = VObj [ ("result", VObj [ ("result", parsed) ]) ]))
  /\ (forall msgs pre t post t2 fid,
        msgs = pre ++ t :: post ->
        String.eqb (key_of fid) "__proto__" = false ->
        writes (key_of fid) t = true ->
        Forall (fun x => writes (key_of fid) x = false) post ->
        buildResponses msgs = inr t2 ->
        respOf t2 fid = or_else (getq "content" t) (VStr "{}"))
  /\ (forall msgs t2 fid,
        ~ In (key_of fid) object_prototype_members ->
        Forall (fun x => writes (key_of fid) x = false) msgs ->
        buildResponses msgs = inr t2 ->
        respOf t2 fid = VStr "{}")
  /\ (forall model body stream msgs pre a post tcs t1 t2 tf,
        get "messages" body = inr (VArr msgs) ->
        msgs = pre ++ a :: post ->
        is_str (getq "role" a) "assistant" = true ->
        getq "tool_calls" a = VArr tcs ->
        callIds tcs <> [] ->
        buildNames msgs = inr t1 ->
        buildResponses msgs = inr t2 ->
        Forall (converts t1 t2 (List.length msgs)) msgs ->
        convertTools body = inr tf ->
        exists r before modelParts toolParts after,
          base model body stream = inr r
          /\ getq "contents" r
             = VArr (before ++ contentEntry "model" modelParts
                            :: contentEntry "user" toolParts :: after)
          /\ mapM (functionResponse tryParseJSON t1 t2) (callIds tcs) = inr toolParts).
Proof.
  split; [exact functionResponse_spec|]. split; [|split].
  - intros msgs pre t post t2 fid Hsplit Hk Ht Hpost Hrun. unfold respOf.
    rewrite (responses_lookup msgs pre t post t2 _ Hsplit Hk Ht Hpost Hrun).
    reflexivity.
  - intros msgs t2 fid Hk Hall Hrun. unfold respOf.
    rewrite (responses_missing msgs t2 _ Hk Hall Hrun). reflexivity.
  - exact calls_in_contents.
Qed.

End Requests.

(** Stand-ins for the helpers of [geminiHelper.js] in the examples below:
    a string content gives one text part, the parser knows the JSON texts
    of the examples, and the schema cleaner returns its argument. None of
    the examples depends on more. *)
Definition partsOfText (content : value) : result (list value) :=
  match content with
  | VStr "" => ret []
  | VStr _ => ret [ VObj [ ("text", content) ] ]
  | _ => ret []
  end.

Definition parseExamples (s : string) : option value :=
  if String.eqb s "{}" then Some (VObj [])
  else if String.eqb s "42" then Some (int 42)
  else if String.eqb s "null" then Some VNull
  else None.

Definition exampleBase : value -> value -> value -> result value :=
  geminiBase (VStr "signature") (VArr []) partsOfText OpenAIRequest.extractTextContent
    (OpenAIRequest.tryParseJSON parseExamples).

Definition exampleCLI : value -> value -> value -> result value :=
  geminiCLI (VStr "signature") (VArr []) partsOfText OpenAIRequest.extractTextContent
    (OpenAIRequest.tryParseJSON parseExamples) (fun schema => ret schema).

Definition userHi : value := VObj [ ("role", VStr "user"); ("content", VStr "hi") ].

(** C6 on a request with the effort high, and on one with an explicit
    budget besides. *)
Lemma thinking_budget_witness :
  (exists r,
     exampleCLI (VStr "gemini-2.5-pro")
       (VObj [ ("messages", VArr [userHi]); ("reasoning_effort", VStr "high") ])
       (VBool true) = inr r
     /\ getq "thinkingBudget" (getq "thinkingConfig" (getq "generationConfig" r))
        = int 32768)
  /\ (exists r,
        exampleCLI (VStr "gemini-2.5-pro")
          (VObj [ ("messages", VArr [userHi]); ("reasoning_effort", VStr "max");
                  ("thinking", VObj [ ("type", VStr "enabled");
                                      ("budget_tokens", int 2048) ]) ])
          (VBool true) = inr r
        /\ getq "thinkingBudget" (getq "thinkingConfig" (getq "generationConfig" r))
           = int 2048).
Proof.
  split.
  - destruct (thinking_budget_derivation (VStr "signature") (VArr []) partsOfText
                OpenAIRequest.extractTextContent
                (OpenAIRequest.tryParseJSON parseExamples) (fun schema => ret schema)
                (VStr "gemini-2.5-pro")
                (VObj [ ("messages", VArr [userHi]); ("reasoning_effort", VStr "high") ])
                (VBool true) _ "gemini-2.5-pro" eq_refl eq_refl
                (fun schema => ex_intro _ schema eq_refl))
      as (r & Hr & _ & _ & _ & Hhigh & _).
    exists r. split; [exact Hr | exact (Hhigh eq_refl eq_refl)].
  - destruct (thinking_budget_derivation (VStr "signature") (VArr []) partsOfText
                OpenAIRequest.extractTextContent
                (OpenAIRequest.tryParseJSON parseExamples) (fun schema => ret schema)
                (VStr "gemini-2.5-pro")
                (VObj [ ("messages", VArr [userHi]); ("reasoning_effort", VStr "max");
                        ("thinking", VObj [ ("type", VStr "enabled");
                                            ("budget_tokens", int 2048) ]) ])
                (VBool true) _ "gemini-2.5-pro" eq_refl eq_refl
                (fun schema => ex_intro _ schema eq_refl))
      as (r & Hr & Hexplicit & _).
    exists r. split; [exact Hr | exact (Hexplicit eq_refl)].
Defined.

(** C6, as stated, fails on a request with neither an effort nor an
    explicit budget: the translation has no thinking configuration, so no
    budget of 8192. *)
Lemma no_effort_no_budget :
  exists r,
    exampleCLI (VStr "gemini-2.5-pro") (VObj [ ("messages", VArr [userHi]) ]) (VBool true)
    = inr r
    /\ getq "reasoning_effort" (VObj [ ("messages", VArr [userHi]) ]) = VUndef
    /\ getq "thinking" (VObj [ ("messages", VArr [userHi]) ]) = VUndef
    /\ getq "thinkingConfig" (getq "generationConfig" r) = VUndef
    /\ getq "thinkingBudget" (getq "thinkingConfig" (getq "generationConfig" r))
       <> int 8192.
Proof.
  eexists. split; [reflexivity|]. repeat split. discriminate.
Qed.

Definition systemTerse : value :=
  VObj [ ("role", VStr "system"); ("content", VStr "Be terse") ].

Definition callWeather : value :=
  VObj [ ("id", VStr "call_1"); ("type", VStr "function");
         ("function", VObj [ ("name", VStr "weather"); ("arguments", VStr "{}") ]) ].

Definition assistantCalls : value :=
  VObj [ ("role", VStr "assistant"); ("content", VNull);
         ("tool_calls", VArr [callWeather]) ].

Definition toolAnswer (content : string) : value :=
  VObj [ ("role", VStr "tool"); ("tool_call_id", VStr "call_1");
         ("content", VStr content) ].

(** C7 on a request whose tool answers with the text of the empty
    object, and on a call whose answer parses to a number. *)
Lemma function_responses_witness :
  (exists r before modelParts toolParts after,
     exampleBase (VStr "gemini-2.5-pro")
       (VObj [ ("messages", VArr [userHi; assistantCalls; toolAnswer "{}"]) ])
       (VBool true) = inr r
     /\ getq "contents" r
        = VArr (before ++ contentEntry "model" modelParts
                       :: contentEntry "user" toolParts :: after)
     /\ map responseOf toolParts = [ VObj [ ("result", VObj []) ] ])
  /\ (exists part,
        functionResponse (OpenAIRequest.tryParseJSON parseExamples)
          [ ("call_1", VStr "weather") ] [ ("call_1", VStr "42") ] (VStr "call_1")
        = inr part
        /\ responseOf part = VObj [ ("result", VObj [ ("result", int 42) ]) ]).
Proof.
  destruct (function_responses_wrapped (VStr "signature") (VArr []) partsOfText
              OpenAIRequest.extractTextContent
              (OpenAIRequest.tryParseJSON parseExamples))
    as (Hcall & _ & _ & Hwhole).
  split.
  - destruct (Hwhole (VStr "gemini-2.5-pro")
                (VObj [ ("messages", VArr [userHi; assistantCalls; toolAnswer "{}"]) ])
                (VBool true) [userHi; assistantCalls; toolAnswer "{}"]
                [userHi] assistantCalls [toolAnswer "{}"] [callWeather]
                [ ("call_1", VStr "weather") ] [ ("call_1", VStr "{}") ] [])
      as (r & before & modelParts & toolParts & after & Hr & Hcontents & Hmap);
      try reflexivity.
    + discriminate.
    + repeat constructor; intros [contents si]; eexists; reflexivity.
    + exists r, before, modelParts, toolParts, after.
      split; [exact Hr|]. split; [exact Hcontents|].
      cbv in Hmap. injection Hmap as <-. reflexivity.
  - destruct (Hcall [ ("call_1", VStr "weather") ] [ ("call_1", VStr "42") ]
                (VStr "call_1") (or_introl eq_refl))
      as (part & Hpart & _ & _ & _ & Hprimitive).
    exists part. split; [exact Hpart | exact (Hprimitive eq_refl)].
Defined.

(** C7, as stated, fails on a tool answer that parses to an object: the
    response is not the object itself but the object under [result]. *)
Lemma object_response_wrapped :
  exists r part,
    exampleBase (VStr "gemini-2.5-pro")
      (VObj [ ("messages", VArr [userHi; assistantCalls; toolAnswer "{}"]) ])
      (VBool true) = inr r
    /\ getq "contents" r
       = VArr [ contentEntry "user" [ VObj [ ("text", VStr "hi") ] ];
                contentEntry "model"
                  [ VObj [ ("thoughtSignature", VStr "signature");
                           ("functionCall",
                            VObj [ ("id", VStr "call_1"); ("name", VStr "weather");
                                   ("args", VObj []) ]) ] ];
                contentEntry "user" [part] ]
    /\ OpenAIRequest.tryParseJSON parseExamples (VStr "{}") = VObj []
    /\ responseOf part = VObj [ ("result", VObj []) ]
    /\ responseOf part <> VObj [].
Proof.
  eexists _, _. split; [reflexivity|]. split; [reflexivity|].
  split; [reflexivity|]. split; [reflexivity | discriminate].
Qed.

(** C8 on a request made of a system message alone, and on one with a
    user message after it. *)
Lemma system_message_witness :
  (exists r,
     exampleBase (VStr "gemini-2.5-pro") (VObj [ ("messages", VArr [systemTerse]) ])
       (VBool true) = inr r
     /\ getq "systemInstruction" r = VUndef
     /\ getq "contents" r
        = VArr [ contentEntry "user" [ VObj [ ("text", VStr "Be terse") ] ] ])
  /\ (exists r,
        exampleBase (VStr "gemini-2.5-pro")
          (VObj [ ("messages", VArr [systemTerse; userHi]) ]) (VBool true) = inr r
        /\ getq "systemInstruction" r = systemInstructionOf (VStr "Be terse")).
Proof.
  destruct (system_message_conversion (VStr "signature") (VArr []) partsOfText
              OpenAIRequest.extractTextContent
              (OpenAIRequest.tryParseJSON parseExamples) (fun schema => ret schema))
    as (Hseveral & Halone & _).
  split.
  - destruct (Halone (VStr "gemini-2.5-pro") (VObj [ ("messages", VArr [systemTerse]) ])
                (VBool true) systemTerse [ VObj [ ("text", VStr "Be terse") ] ] []
                eq_refl eq_refl eq_refl eq_refl) as (r & Hr & Hsi & Hc).
    now exists r.
  - destruct (Hseveral (VStr "gemini-2.5-pro")
                (VObj [ ("messages", VArr [systemTerse; userHi]) ]) (VBool true)
                [systemTerse; userHi] [] systemTerse [userHi] [] [] (VStr "Be terse") [])
      as (r & Hr & Hsi & _); try reflexivity.
    + cbn. lia.
    + repeat constructor.
    + repeat constructor; intros [contents si]; eexists; reflexivity.
    + now exists r.
Defined.

(** C8, as stated, fails for a registered translator: the
    [openaiToGemini] of [openai.js], registered from OpenAI to Gemini,
    turns a sole system message into [systemInstruction] and emits no
    content entry. *)
Lemma registered_translator_keeps_instruction :
  exists reg r,
    In reg (registrations parseExamples (VStr "preamble") (fun _ => int 1024)
              (VStr "signature") (VArr []) partsOfText
              OpenAIRequest.extractTextContent
              (OpenAIRequest.tryParseJSON parseExamples) (fun schema => ret schema)
              (VStr "project") (VStr "request") (VStr "session"))
    /\ source reg = OPENAI /\ target reg = GEMINI
    /\ request reg (VStr "gemini-2.5-pro") (VObj [ ("messages", VArr [systemTerse]) ])
         (VBool true) VNull = inr r
    /\ getq "systemInstruction" r
       = VObj [ ("parts", VArr [ VObj [ ("text", VStr "Be terse") ] ]) ]
    /\ getq "contents" r = VArr [].
Proof.
  eexists _, _. split; [right; left; reflexivity|].
  repeat split.
Qed.

End GeminiFacts.

(** ** Invariants of a streamed exchange *)

(** The value of a closed term, computed. *)
Ltac computing t E :=
  let r := eval vm_compute in t in
  assert (E : t = r) by (vm_compute; reflexivity).

(** Taking the result of a handler apart, branch by branch. *)
Ltac branches H :=
  cbv zeta in H;
  repeat (cbn [bind ret] in H;
          match type of H with
          | context [bind ?m _] => destruct m eqn:?
          | context [if ?b then _ else _] => destruct b eqn:?
          | context [match ?x with _ => _ end] => destruct x eqn:?
          end);
  cbn [bind ret] in H;
  try discriminate H;
  try (injection H as <- <-).

Module StreamInvariants.
Import ClaudeStream.

(** An invariant of the state that every call keeps, and a property of
    the chunks that every call emits under it, hold over the whole
    exchange. *)
Lemma exchange_invariant (step : Z -> value -> state -> result (value * state))
    (allowed : value -> bool) (I : state -> Prop) (Q : value -> Prop) :
  (forall now ev st r st',
     allowed ev = true -> I st -> step now ev st = inr (r, st') ->
     I st' /\ Forall Q (chunks_of r)) ->
  forall evs st out st',
    forallb (fun ev => allowed (snd ev)) evs = true -> I st ->
    exchange step evs st = inr (out, st') ->
    I st' /\ Forall Q out.
Proof.
  intros Hstep. induction evs as [|[now ev] evs IH]; intros st out st' Hall Hst Hrun.
  - injection Hrun as <- <-. split; [exact Hst | constructor].
  - cbn [forallb snd] in Hall. apply andb_prop in Hall as [Hev Hall].
    cbn [exchange] in Hrun.
    destruct (step now ev st) as [e|[r st1]] eqn:E; [discriminate Hrun|].
    cbn [bind snd fst] in Hrun.
    destruct (exchange step evs st1) as [e|[more st2]] eqn:E'; [discriminate Hrun|].
    injection Hrun as <- <-.
    destruct (Hstep _ _ _ _ _ Hev Hst E) as [Hst1 Hr].
    destruct (IH _ _ _ Hall Hst1 E') as [Hst2 Hmore].
    split; [exact Hst2 | apply Forall_app; now split].
Qed.

Section Claude.
Variable str_num : string -> num.

(** The events that the translator handles. *)
Definition knownEvent (ev : value) : bool :=
  existsb (is_str (getq "type" ev))
    [ "message_start"; "content_block_start"; "content_block_delta";
      "content_block_stop"; "message_delta"; "message_stop" ].

(** The handler that a call dispatches to. *)
Lemma step_cases now ev st (P : result (value * state) -> Prop) :
  (knownEvent ev = false -> P (inr (VNull, st))) ->
  (is_str (getq "type" ev) "message_start" = true -> P (onMessageStart now ev st)) ->
  (is_str (getq "type" ev) "content_block_start" = true ->
   P (onContentBlockStart str_num now ev st)) ->
  (is_str (getq "type" ev) "content_block_delta" = true ->
   P (onContentBlockDelta now ev st)) ->
  (is_str (getq "type" ev) "content_block_stop" = true ->
   P (onContentBlockStop now ev st)) ->
  (is_str (getq "type" ev) "message_delta" = true -> P (onMessageDelta now ev st)) ->
  (is_str (getq "type" ev) "message_stop" = true -> P (onMessageStop now ev st)) ->
  P (claudeToOpenAIResponse str_num now ev st).
Proof.
  intros H0 H1 H2 H3 H4 H5 H6. unfold claudeToOpenAIResponse.
  destruct (truthy ev) eqn:T.
  2:{ apply H0. unfold knownEvent.
      destruct ev as [| |b|n|t|l|fs|i]; try discriminate T; reflexivity. }
  cbn [negb]. rewrite (get_truthy "type" ev T). cbn [bind].
  unfold knownEvent in H0. cbn [existsb] in H0.
  destruct (is_str (getq "type" ev) "message_start"); [now apply H1|].
  destruct (is_str (getq "type" ev) "content_block_start"); [now apply H2|].
  destruct (is_str (getq "type" ev) "content_block_delta"); [now apply H3|].
  destruct (is_str (getq "type" ev) "content_block_stop"); [now apply H4|].
  destruct (is_str (getq "type" ev) "message_delta"); [now apply H5|].
  destruct (is_str (getq "type" ev) "message_stop"); [now apply H6|].
  now apply H0.
Qed.

(** *** The id and the model of the chunks *)

(** The state [st'] names the same message and model as [st]; the chunk
    [c] carries the id and the model recorded in [st]. *)
Definition sameHeader (st st' : state) : Prop :=
  sget "messageId" st' = sget "messageId" st /\ sget "model" st' = sget "model" st.

Definition stamped (st : state) (c : value) : Prop :=
  getq "id" c = chunk_id st /\ getq "model" c = sget "model" st.

Lemma sameHeader_refl st : sameHeader st st.
Proof. now split. Qed.

Lemma sameHeader_sset st st1 k v :
  String.eqb "messageId" k = false -> String.eqb "model" k = false ->
  sameHeader st st1 -> sameHeader st (sset k v st1).
Proof.
  intros H1 H2 [Hid Hm]. split; rewrite sget_sset_other; assumption.
Qed.

Lemma sameHeader_toolCalls st st1 m :
  sameHeader st st1 -> sameHeader st (with_toolCalls m st1).
Proof. intros H. exact H. Qed.

Lemma stamped_createChunk now st st1 delta fr :
  sameHeader st st1 -> stamped st (createChunk now st1 delta fr).
Proof.
  intros [Hid Hm]. split; [|exact Hm].
  change (getq "id" (createChunk now st1 delta fr)) with (chunk_id st1).
  unfold chunk_id. now rewrite Hid.
Qed.

Lemma stamped_finishChunk now st st1 fr usage :
  sameHeader st st1 -> stamped st (finishChunk now st1 fr usage).
Proof.
  intros [Hid Hm]. split; [|exact Hm].
  change (getq "id" (finishChunk now st1 fr usage)) with (chunk_id st1).
  unfold chunk_id. now rewrite Hid.
Qed.

Ltac header :=
  repeat match goal with
         | |- sameHeader ?st ?st => apply sameHeader_refl
         | |- sameHeader _ (sset _ _ _) =>
             apply sameHeader_sset; [reflexivity | reflexivity |]
         | |- sameHeader _ (with_toolCalls _ _) => apply sameHeader_toolCalls
         | |- stamped _ (createChunk _ _ _ _) => apply stamped_createChunk
         | |- stamped _ (finishChunk _ _ _ _) => apply stamped_finishChunk
         | |- Forall _ [] => apply Forall_nil
         | |- Forall _ (_ :: _) => apply Forall_cons
         end.

Lemma step_header now ev st r st' :
  isMessageStart ev = false ->
  claudeToOpenAIResponse str_num now ev st = inr (r, st') ->
  sameHeader st st' /\ Forall (stamped st) (chunks_of r).
Proof.
  intros Hev. unfold isMessageStart in Hev.
  apply step_cases; try (intros Hty H); try (intros H).
  - injection H as <- <-. split; cbn [chunks_of]; header.
  - congruence.
  - unfold onContentBlockStart in H. branches H; split; cbn [chunks_of emit]; header.
  - unfold onContentBlockDelta in H. branches H; split; cbn [chunks_of emit]; header.
  - unfold onContentBlockStop in H. branches H; split; cbn [chunks_of emit]; header.
  - unfold onMessageDelta in H. branches H; split; cbn [chunks_of emit]; header.
  - unfold onMessageStop in H. branches H; split; cbn [chunks_of emit]; header.
Qed.

Lemma message_start_step now ev st :
  isMessageStart ev = true ->
  claudeToOpenAIResponse str_num now ev st = onMessageStart now ev st.
Proof.
  unfold isMessageStart. intros Hty.
  destruct (getq_str_obj _ _ _ Hty) as [fs ->].
  unfold claudeToOpenAIResponse. cbn [truthy negb get bind ret].
  change (obj_get fs "type") with (getq "type" (VObj fs)). now rewrite Hty.
Qed.

(** X1. In an exchange that opens with [message_start] and holds no
    second one, every chunk carries the id [chatcmpl-<id>] and the model
    of the opening message; the id is the message's own when it has one,
    and [msg_<clock>] otherwise. *)
Theorem chunks_share_id_and_model now0 ev0 evs st out st' :
  isMessageStart ev0 = true ->
  forallb (fun ev => negb (isMessageStart (snd ev))) evs = true ->
  exchange (claudeToOpenAIResponse str_num) ((now0, ev0) :: evs) st = inr (out, st') ->
  let id := or_else (getq "id" (getq "message" ev0))
                    (VStr ("msg_" ++ string_of_Z now0)%string) in
  Forall (fun c => getq "id" c = VStr ("chatcmpl-" ++ to_string id)%string
                   /\ getq "model" c = getq "model" (getq "message" ev0)) out.
Proof.
  intros Hstart Hevs Hrun id. cbn [exchange] in Hrun.
  rewrite (message_start_step _ _ _ Hstart) in Hrun.
  unfold onMessageStart in Hrun. cbv zeta in Hrun. cbn [bind ret snd fst] in Hrun.
  match type of Hrun with
  | context [exchange _ evs ?s] => set (st1 := s) in *
  end.
  destruct (exchange (claudeToOpenAIResponse str_num) evs st1) as [e|[more st2]] eqn:E;
    [discriminate Hrun|].
  cbn [bind ret fst snd emit chunks_of app] in Hrun. injection Hrun as <- <-.
  assert (Hid : chunk_id st1 = VStr ("chatcmpl-" ++ to_string id)%string).
  { unfold chunk_id, st1.
    rewrite !sget_sset_other by reflexivity. now rewrite sget_sset_same. }
  assert (Hmodel : sget "model" st1 = getq "model" (getq "message" ev0)).
  { unfold st1. rewrite sget_sset_other by reflexivity. apply sget_sset_same. }
  constructor.
  - split; [exact Hid | exact Hmodel].
  - destruct (exchange_invariant (claudeToOpenAIResponse str_num)
                (fun ev => negb (isMessageStart ev))
                (sameHeader st1) (stamped st1)) with (evs := evs) (st := st1)
                (out := more) (st' := st2) as [_ Hall].
    + intros now ev s r s' Hev Hs Hstep.
      apply negb_true_iff in Hev.
      destruct (step_header _ _ _ _ _ Hev Hstep) as [[H1 H2] Hr].
      destruct Hs as [H3 H4]. split; [split; congruence|].
      eapply Forall_impl; [|exact Hr].
      intros c [Hc1 Hc2]. split; [|congruence].
      rewrite Hc1. unfold chunk_id. now rewrite H3.
    + exact Hevs.
    + apply sameHeader_refl.
    + exact E.
    + eapply Forall_impl; [|exact Hall].
      intros c [Hc1 Hc2]. split; congruence.
Qed.

(** *** Finish reasons *)

(** The events that end a message. *)
Definition endsMessage (ev : value) : bool :=
  is_str (getq "type" ev) "message_delta" || is_str (getq "type" ev) "message_stop".

(** A finish reason of the OpenAI format, or none. *)
Definition finishReasonValue (v : value) : Prop :=
  v = VNull \/ v = VStr "stop" \/ v = VStr "length" \/ v = VStr "tool_calls".

(** The reason recorded in the state, if any, is one of the format. *)
Definition reasonRecorded (st : state) : Prop :=
  truthy (sget "finishReason" st) = true -> finishReasonValue (sget "finishReason" st).

Lemma convertStopReason_value v : finishReasonValue (convertStopReason v).
Proof.
  unfold convertStopReason, finishReasonValue.
  destruct (is_str v "end_turn"); [auto|].
  destruct (is_str v "max_tokens"); [auto|].
  destruct (is_str v "tool_use"); [auto|].
  destruct (is_str v "stop_sequence"); auto.
Qed.

Lemma reasonRecorded_sset st k v :
  String.eqb "finishReason" k = false -> reasonRecorded st -> reasonRecorded (sset k v st).
Proof. unfold reasonRecorded. intros Hk H. now rewrite sget_sset_other. Qed.

Lemma finishReasonOf_createChunk now st delta fr :
  finishReasonOf (createChunk now st delta fr) = fr.
Proof. reflexivity. Qed.

Lemma finishReasonOf_finishChunk now st fr usage :
  finishReasonOf (finishChunk now st fr usage) = fr.
Proof. reflexivity. Qed.

Ltac reasons :=
  repeat match goal with
         | |- reasonRecorded (sset _ _ _) =>
             apply reasonRecorded_sset; [reflexivity|]
         | |- reasonRecorded (with_toolCalls _ ?s) => change (reasonRecorded s)
         | |- Forall _ [] => apply Forall_nil
         | |- Forall _ (_ :: _) => apply Forall_cons
         | |- finishReasonValue (finishReasonOf (createChunk _ _ _ VNull)) => now left
         | |- finishReasonOf (createChunk _ _ _ VNull) = VNull => reflexivity
         end; try assumption.

Lemma step_reason now ev st r st' :
  reasonRecorded st ->
  claudeToOpenAIResponse str_num now ev st = inr (r, st') ->
  reasonRecorded st'
  /\ Forall (fun c => finishReasonValue (finishReasonOf c)) (chunks_of r)
  /\ (endsMessage ev = false -> Forall (fun c => finishReasonOf c = VNull) (chunks_of r)).
Proof.
  intros Hst. unfold endsMessage.
  apply step_cases; try (intros Hty H); try (intros H).
  - injection H as <- <-. cbn [chunks_of]. repeat split; intros; reasons.
  - unfold onMessageStart in H. branches H.
    cbn [chunks_of emit]. repeat split; intros; reasons.
  - unfold onContentBlockStart in H.
    branches H; cbn [chunks_of emit]; repeat split; intros; reasons.
  - unfold onContentBlockDelta in H.
    branches H; cbn [chunks_of emit]; repeat split; intros; reasons.
  - unfold onContentBlockStop in H.
    branches H; cbn [chunks_of emit]; repeat split; intros; reasons.
  - rewrite Hty. unfold onMessageDelta in H.
    branches H; cbn [chunks_of emit]; (split; [|split; [|discriminate]]); reasons.
    + intros _. rewrite sget_sset_same. apply convertStopReason_value.
    + rewrite finishReasonOf_finishChunk, sget_sset_same.
      apply convertStopReason_value.
  - rewrite Hty, orb_true_r. unfold onMessageStop in H.
    branches H; cbn [chunks_of emit]; (split; [|split; [|discriminate]]); reasons;
      rewrite finishReasonOf_finishChunk; unfold or_else;
      (destruct (truthy (sget "finishReason" st)) eqn:T; [exact (Hst T)|]);
      unfold finishReasonValue; auto.
Qed.

(** X2. No chunk of an exchange carries a finish reason before the
    provider ends the message: as long as no [message_delta] and no
    [message_stop] arrives, every emitted chunk has [finish_reason] null. *)
Theorem no_finish_reason_before_the_end evs st out st' :
  forallb (fun ev => negb (endsMessage (snd ev))) evs = true ->
  exchange (claudeToOpenAIResponse str_num) evs st = inr (out, st') ->
  Forall (fun c => finishReasonOf c = VNull) out.
Proof.
  intros Hevs Hrun.
  revert st out st' Hrun.
  induction evs as [|[now ev] evs IH]; intros st out st' Hrun.
  - injection Hrun as <- <-. constructor.
  - cbn [forallb snd] in Hevs. apply andb_prop in Hevs as [Hev Hevs].
    apply negb_true_iff in Hev. cbn [exchange] in Hrun.
    destruct (claudeToOpenAIResponse str_num now ev st) as [e|[r st1]] eqn:E;
      [discriminate Hrun|].
    cbn [bind snd fst] in Hrun.
    destruct (exchange (claudeToOpenAIResponse str_num) evs st1) as [e|[more st2]] eqn:E';
      [discriminate Hrun|].
    injection Hrun as <- <-. apply Forall_app. split; [|exact (IH Hevs _ _ _ E')].
    revert E. unfold endsMessage in Hev. apply orb_false_elim in Hev as [Hd Hs].
    apply step_cases; try (intros Hty H); try (intros H); try congruence.
    + injection H as <- <-. constructor.
    + unfold onMessageStart in H. branches H. cbn [chunks_of emit]. reasons.
    + unfold onContentBlockStart in H. branches H; cbn [chunks_of emit]; reasons.
    + unfold onContentBlockDelta in H. branches H; cbn [chunks_of emit]; reasons.
    + unfold onContentBlockStop in H. branches H; cbn [chunks_of emit]; reasons.
Qed.

(** X3. On a state that records no finish reason, or one of the OpenAI
    format, every chunk of an exchange has a [finish_reason] that is
    null, stop, length or tool_calls, whatever stop reasons the provider
    sends. *)
Theorem finish_reasons_are_openai_values evs st out st' :
  reasonRecorded st ->
  exchange (claudeToOpenAIResponse str_num) evs st = inr (out, st') ->
  Forall (fun c => finishReasonValue (finishReasonOf c)) out.
Proof.
  intros Hst Hrun.
  destruct (exchange_invariant (claudeToOpenAIResponse str_num) (fun _ => true)
              reasonRecorded (fun c => finishReasonValue (finishReasonOf c)))
    with (evs := evs) (st := st) (out := out) (st' := st') as [_ Hall].
  - intros now ev s r s' _ Hs Hstep.
    destruct (step_reason _ _ _ _ _ Hs Hstep) as (H1 & H2 & _). now split.
  - clear. induction evs; [reflexivity | exact IHevs].
  - exact Hst.
  - exact Hrun.
  - exact Hall.
Qed.

(** *** The flag [finishReasonSent] *)

Definition finishSent (st : state) : Prop :=
  truthy (sget "finishReasonSent" st) = true.

Lemma finishSent_sset st k v :
  String.eqb "finishReasonSent" k = false -> finishSent st -> finishSent (sset k v st).
Proof. unfold finishSent. intros Hk H. now rewrite sget_sset_other. Qed.

Lemma finishSent_set st : finishSent (sset "finishReasonSent" (VBool true) st).
Proof. unfold finishSent. now rewrite sget_sset_same. Qed.

Ltac flag_kept :=
  repeat match goal with
         | |- finishSent (sset "finishReasonSent" (VBool true) _) => apply finishSent_set
         | |- finishSent (sset _ _ _) => apply finishSent_sset; [reflexivity|]
         | |- finishSent (with_toolCalls _ ?s) => change (finishSent s)
         end; try assumption.

(** No call clears the flag. *)
Lemma step_finishSent now ev st r st' :
  finishSent st ->
  claudeToOpenAIResponse str_num now ev st = inr (r, st') -> finishSent st'.
Proof.
  intros Hst.
  apply step_cases; try (intros Hty H); try (intros H).
  - now injection H as <- <-.
  - unfold onMessageStart in H. branches H. flag_kept.
  - unfold onContentBlockStart in H. branches H; flag_kept.
  - unfold onContentBlockDelta in H. branches H; flag_kept.
  - unfold onContentBlockStop in H. branches H; flag_kept.
  - unfold onMessageDelta in H. branches H; flag_kept.
  - unfold onMessageStop in H. branches H; flag_kept.
Qed.

Lemma exchange_app step evs1 evs2 st :
  exchange step (evs1 ++ evs2) st
  = (a <- exchange step evs1 st ;;
     b <- exchange step evs2 (snd a) ;;
     ret (fst a ++ fst b, snd b)).
Proof.
  revert st. induction evs1 as [|[now ev] evs1 IH]; intros st.
  - cbn [app exchange bind ret fst snd].
    destruct (exchange step evs2 st) as [e|[b s]]; reflexivity.
  - cbn [app exchange]. destruct (step now ev st) as [e|[r st1]]; [reflexivity|].
    cbn [bind snd fst]. rewrite IH.
    destruct (exchange step evs1 st1) as [e|[a s1]]; [reflexivity|].
    cbn [bind ret snd fst].
    destruct (exchange step evs2 s1) as [e|[b s2]]; [reflexivity|].
    cbn [bind ret snd fst]. now rewrite app_assoc.
Qed.

(** X4. Once the finish reason has gone out, a [message_stop] adds
    nothing: on a state whose flag [finishReasonSent] is set, whatever
    events come first, a [message_stop] after them leaves the chunks of
    the exchange and its final state as they are without it. *)
Theorem message_stop_after_finish_is_silent evs now stop st :
  finishSent st ->
  is_str (getq "type" stop) "message_stop" = true ->
  exchange (claudeToOpenAIResponse str_num) (evs ++ [(now, stop)]) st
  = exchange (claudeToOpenAIResponse str_num) evs st.
Proof.
  intros Hst Hstop. rewrite exchange_app.
  destruct (exchange (claudeToOpenAIResponse str_num) evs st) as [e|[out st1]] eqn:E;
    [reflexivity|].
  cbn [bind snd fst].
  assert (Hst1 : finishSent st1).
  { destruct (exchange_invariant (claudeToOpenAIResponse str_num) (fun _ => true)
                finishSent (fun _ => True)) with (evs := evs) (st := st)
                (out := out) (st' := st1) as [H _]; try assumption.
    - intros n ev s r s' _ Hs Hstep. split; [exact (step_finishSent _ _ _ _ _ Hs Hstep)|].
      clear. induction (chunks_of r); constructor; auto.
    - clear. induction evs; [reflexivity | exact IHevs]. }
  assert (Hstep : claudeToOpenAIResponse str_num now stop st1 = inr (VNull, st1)).
  { destruct (getq_str_obj _ _ _ Hstop) as [fs ->].
    apply is_str_eq in Hstop.
    change (getq "type" (VObj fs)) with (obj_get fs "type") in Hstop.
    unfold claudeToOpenAIResponse. cbn [truthy negb get bind ret].
    rewrite Hstop. cbn [is_str String.eqb Ascii.eqb Bool.eqb].
    unfold onMessageStop. unfold finishSent in Hst1. now rewrite Hst1. }
  cbn [exchange]. rewrite Hstep. cbn [bind ret snd fst chunks_of app].
  now rewrite app_nil_r.
Qed.

(** *** Events of no known type *)

Lemma unknown_event_ignored now ev st :
  knownEvent ev = false -> claudeToOpenAIResponse str_num now ev st = inr (VNull, st).
Proof.
  intros H. apply step_cases; try reflexivity; intros Hty; exfalso;
    unfold knownEvent in H; cbn [existsb] in H; rewrite Hty in H;
    rewrite ?orb_true_r in H; discriminate H.
Qed.

(** X5. Events of a type the translator does not handle (a ping, an
    error event, a value that is no object) change nothing: an exchange
    gives the same chunks and the same final state as the exchange
    without them. *)
Theorem unknown_events_change_nothing evs st :
  exchange (claudeToOpenAIResponse str_num) evs st
  = exchange (claudeToOpenAIResponse str_num)
      (filter (fun ev => knownEvent (snd ev)) evs) st.
Proof.
  revert st. induction evs as [|[now ev] evs IH]; intros st; [reflexivity|].
  cbn [filter snd]. destruct (knownEvent ev) eqn:K.
  - cbn [exchange]. destruct (claudeToOpenAIResponse str_num now ev st) as [e|[r st1]];
      [reflexivity|].
    cbn [bind snd fst]. now rewrite IH.
  - cbn [exchange]. rewrite (unknown_event_ignored _ _ _ K).
    cbn [bind snd fst chunks_of app]. rewrite <- IH.
    destruct (exchange (claudeToOpenAIResponse str_num) evs st) as [e|[out st1]];
      reflexivity.
Qed.

(** *** The numbering of the tool calls *)

(** The [index] of the tool calls that the chunks announce: the entries
    of [tool_calls] that carry a [type], which the fragments of the
    arguments do not. *)
Definition announcedIndices (chunks : list value) : list value :=
  map (getq "index")
      (filter (fun tc => is_str (getq "type" tc) "function")
              (flat_map toolCallDeltas chunks)).

Definition counting (n : Z) (k : nat) : list value :=
  map (fun j => int (n + Z.of_nat j)) (seq 0 k).

Lemma announcedIndices_app a b :
  announcedIndices (a ++ b) = announcedIndices a ++ announcedIndices b.
Proof. unfold announcedIndices. now rewrite flat_map_app, filter_app, map_app. Qed.

Lemma counting_succ n k : counting n (S k) = int n :: counting (n + 1) k.
Proof.
  unfold counting. cbn [seq map]. rewrite Z.add_0_r. f_equal.
  rewrite <- seq_shift, map_map. apply map_ext. intros j.
  unfold int. do 2 f_equal. lia.
Qed.

Definition counter (st : state) : num := to_number str_num (sget "toolCallIndex" st).

Lemma counter_sset st k v :
  String.eqb "toolCallIndex" k = false -> counter (sset k v st) = counter st.
Proof. unfold counter. intros Hk. now rewrite sget_sset_other. Qed.

Ltac counter_kept :=
  cbn [chunks_of emit];
  repeat match goal with
         | |- context [counter (sset ?k _ _)] =>
             rewrite (counter_sset _ k) by reflexivity
         | |- context [counter (with_toolCalls ?m ?s)] =>
             change (counter (with_toolCalls m s)) with (counter s)
         end.

Lemma step_counter now ev st r st' n :
  isMessageStart ev = false ->
  counter st = Fin n ->
  claudeToOpenAIResponse str_num now ev st = inr (r, st') ->
  if startsToolUse ev
  then announcedIndices (chunks_of r) = [int n] /\ counter st' = Fin (n + 1)
  else announcedIndices (chunks_of r) = [] /\ counter st' = counter st.
Proof.
  intros Hev Hn. unfold isMessageStart in Hev. unfold startsToolUse.
  apply step_cases; try (intros Hty H); try (intros H).
  - injection H as <- <-. unfold knownEvent in Hty. cbn [existsb] in Hty.
    apply orb_false_elim in Hty as [_ Hty]. apply orb_false_elim in Hty as [Hty _].
    rewrite Hty. now split.
  - congruence.
  - rewrite Hty. cbn [andb]. unfold onContentBlockStart in H.
    assert (Hblock : get "content_block" ev = inr (getq "content_block" ev)).
    { destruct (getq_str_obj _ _ _ Hty) as [fs ->]. reflexivity. }
    rewrite Hblock in H. cbn [bind] in H.
    destruct (is_str (getq "type" (getq "content_block" ev)) "text") eqn:E1.
    { apply is_str_eq in E1. rewrite E1. cbn [is_str String.eqb Ascii.eqb Bool.eqb].
      branches H. counter_kept. now split. }
    destruct (is_str (getq "type" (getq "content_block" ev)) "thinking") eqn:E2.
    { apply is_str_eq in E2. rewrite E2. cbn [is_str String.eqb Ascii.eqb Bool.eqb].
      branches H. counter_kept. now split. }
    destruct (is_str (getq "type" (getq "content_block" ev)) "tool_use") eqn:E3.
    { branches H. counter_kept. fold (counter st). rewrite Hn. split; [reflexivity|].
      unfold counter. now rewrite sget_sset_same. }
    branches H. now split.
  - assert (Hno : is_str (getq "type" ev) "content_block_start" = false).
    { apply is_str_eq in Hty. now rewrite Hty. }
    rewrite Hno. cbn [andb]. unfold onContentBlockDelta in H.
    branches H; counter_kept; now split.
  - assert (Hno : is_str (getq "type" ev) "content_block_start" = false).
    { apply is_str_eq in Hty. now rewrite Hty. }
    rewrite Hno. cbn [andb]. unfold onContentBlockStop in H.
    branches H; counter_kept; now split.
  - assert (Hno : is_str (getq "type" ev) "content_block_start" = false).
    { apply is_str_eq in Hty. now rewrite Hty. }
    rewrite Hno. cbn [andb]. unfold onMessageDelta in H.
    branches H; counter_kept; now split.
  - assert (Hno : is_str (getq "type" ev) "content_block_start" = false).
    { apply is_str_eq in Hty. now rewrite Hty. }
    rewrite Hno. cbn [andb]. unfold onMessageStop in H.
    branches H; counter_kept; now split.
Qed.

Lemma run_counter evs : forall st out st' n,
  forallb (fun ev => negb (isMessageStart (snd ev))) evs = true ->
  counter st = Fin n ->
  exchange (claudeToOpenAIResponse str_num) evs st = inr (out, st') ->
  announcedIndices out = counting n (toolUseStarts evs)
  /\ counter st' = Fin (n + Z.of_nat (toolUseStarts evs)).
Proof.
  induction evs as [|[now ev] evs IH]; intros st out st' n Hevs Hn Hrun.
  - injection Hrun as <- <-. split; [reflexivity|]. rewrite Hn. f_equal.
    unfold toolUseStarts. cbn. lia.
  - cbn [forallb snd] in Hevs. apply andb_prop in Hevs as [Hev Hevs].
    apply negb_true_iff in Hev. cbn [exchange] in Hrun.
    destruct (claudeToOpenAIResponse str_num now ev st) as [e|[r st1]] eqn:E;
      [discriminate Hrun|].
    cbn [bind snd fst] in Hrun.
    destruct (exchange (claudeToOpenAIResponse str_num) evs st1) as [e|[more st2]] eqn:E';
      [discriminate Hrun|].
    injection Hrun as <- <-. rewrite announcedIndices_app.
    pose proof (step_counter _ _ _ _ _ _ Hev Hn E) as Hstep.
    unfold toolUseStarts. cbn [filter snd].
    destruct (startsToolUse ev).
    + destruct Hstep as [Hr Hn1].
      destruct (IH _ _ _ _ Hevs Hn1 E') as [Hmore Hn2].
      cbn [List.length]. rewrite counting_succ, Hr, Hmore. split; [reflexivity|].
      rewrite Hn2. f_equal. unfold toolUseStarts. lia.
    + destruct Hstep as [Hr Hn1]. rewrite Hn in Hn1.
      destruct (IH _ _ _ _ Hevs Hn1 E') as [Hmore Hn2].
      rewrite Hr, Hmore. now split.
Qed.

(** X6. The tool calls of an exchange are numbered from 0 in the order
    in which their blocks start, whatever the content block indices of
    the provider: in an exchange that opens with [message_start] and
    holds no second one, the tool calls announced carry the indices 0,
    1, ..., one for every [content_block_start] of a tool-use block. *)
Theorem tool_calls_numbered_from_zero now0 ev0 evs st out st' :
  isMessageStart ev0 = true ->
  forallb (fun ev => negb (isMessageStart (snd ev))) evs = true ->
  exchange (claudeToOpenAIResponse str_num) ((now0, ev0) :: evs) st = inr (out, st') ->
  announcedIndices out = counting 0 (toolUseStarts evs).
Proof.
  intros Hstart Hevs Hrun. cbn [exchange] in Hrun.
  rewrite (message_start_step _ _ _ Hstart) in Hrun.
  unfold onMessageStart in Hrun. cbv zeta in Hrun. cbn [bind ret snd fst] in Hrun.
  match type of Hrun with
  | context [exchange _ evs ?s] => set (st1 := s) in *
  end.
  destruct (exchange (claudeToOpenAIResponse str_num) evs st1) as [e|[more st2]] eqn:E;
    [discriminate Hrun|].
  cbn [bind ret fst snd emit chunks_of app] in Hrun. injection Hrun as <- <-.
  assert (Hn : counter st1 = Fin 0).
  { unfold counter, st1. now rewrite sget_sset_same. }
  destruct (run_counter _ _ _ _ _ Hevs Hn E) as [Hmore _].
  change (announcedIndices (?c :: more)) with (announcedIndices ([c] ++ more)).
  rewrite announcedIndices_app, Hmore. reflexivity.
Qed.

End Claude.
(** *** On an exchange *)

(** Events of the Claude wire format. *)
Definition messageStart : value :=
  VObj [ ("type", VStr "message_start");
         ("message", VObj [ ("id", VStr "msg_1"); ("model", VStr "claude-3") ]) ].

Definition textDelta (text : string) : value :=
  VObj [ ("type", VStr "content_block_delta"); ("index", int 0);
         ("delta", VObj [ ("type", VStr "text_delta"); ("text", VStr text) ]) ].

Definition toolUseStart (index : Z) (id name : string) : value :=
  VObj [ ("type", VStr "content_block_start"); ("index", int index);
         ("content_block", VObj [ ("type", VStr "tool_use"); ("id", VStr id);
                                  ("name", VStr name); ("input", VObj []) ]) ].

Definition messageDelta (stop_reason : string) : value :=
  VObj [ ("type", VStr "message_delta");
         ("delta", VObj [ ("stop_reason", VStr stop_reason) ]) ].

Definition messageStop : value := VObj [ ("type", VStr "message_stop") ].

(** The result of the exchange of the goal, computed. *)
Ltac computed E :=
  match goal with
  | |- context [exchange ?step ?events ?st] => computing (exchange step events st) E
  end.

Lemma chunks_share_id_and_model_witness :
  exists out st',
    exchange (claudeToOpenAIResponse (fun _ => NaN))
      [ (1000, messageStart); (2000, textDelta "Hi"); (3000, messageDelta "end_turn");
        (4000, messageStop) ] (mkState [] []) = inr (out, st')
    /\ List.length out = 3%nat
    /\ Forall (fun c => getq "id" c = VStr "chatcmpl-msg_1"
                        /\ getq "model" c = VStr "claude-3") out.
Proof.
  computed E. eexists _, _. split; [exact E|]. split; [reflexivity|].
  exact (chunks_share_id_and_model (fun _ => NaN) 1000 messageStart
           [ (2000, textDelta "Hi"); (3000, messageDelta "end_turn"); (4000, messageStop) ]
           (mkState [] []) _ _ eq_refl eq_refl E).
Defined.

Lemma no_finish_reason_witness :
  exists out st',
    exchange (claudeToOpenAIResponse (fun _ => NaN))
      [ (1000, messageStart); (2000, textDelta "Hi"); (2500, toolUseStart 1 "t1" "lookup") ]
      (mkState [] []) = inr (out, st')
    /\ List.length out = 3%nat
    /\ Forall (fun c => finishReasonOf c = VNull) out.
Proof.
  computed E. eexists _, _. split; [exact E|]. split; [reflexivity|].
  exact (no_finish_reason_before_the_end (fun _ => NaN)
           [ (1000, messageStart); (2000, textDelta "Hi");
             (2500, toolUseStart 1 "t1" "lookup") ]
           (mkState [] []) _ _ eq_refl E).
Defined.

Lemma finish_reasons_witness :
  exists out st',
    exchange (claudeToOpenAIResponse (fun _ => NaN))
      [ (1000, messageStart); (3000, messageDelta "refusal"); (4000, messageStop) ]
      (mkState [] []) = inr (out, st')
    /\ map finishReasonOf out = [ VNull; VStr "stop" ]
    /\ Forall (fun c => finishReasonValue (finishReasonOf c)) out.
Proof.
  computed E. eexists _, _. split; [exact E|]. split; [reflexivity|].
  refine (finish_reasons_are_openai_values (fun _ => NaN)
            [ (1000, messageStart); (3000, messageDelta "refusal"); (4000, messageStop) ]
            (mkState [] []) _ _ _ E).
  intros H. discriminate H.
Defined.

Lemma message_stop_witness :
  exchange (claudeToOpenAIResponse (fun _ => NaN))
    ([ (1000, messageStart); (2000, textDelta "Hi") ] ++ [ (4000, messageStop) ])
    (mkState [ ("finishReasonSent", VBool true) ] [])
  = exchange (claudeToOpenAIResponse (fun _ => NaN))
      [ (1000, messageStart); (2000, textDelta "Hi") ]
      (mkState [ ("finishReasonSent", VBool true) ] []).
Proof.
  apply (message_stop_after_finish_is_silent (fun _ => NaN)); reflexivity.
Defined.

Lemma tool_calls_numbered_witness :
  exists out st',
    exchange (claudeToOpenAIResponse (fun _ => NaN))
      [ (1000, messageStart); (2000, toolUseStart 1 "t1" "lookup");
        (2500, textDelta "Hi"); (3000, toolUseStart 5 "t2" "search") ]
      (mkState [] []) = inr (out, st')
    /\ announcedIndices out = [ int 0; int 1 ].
Proof.
  computed E. eexists _, _. split; [exact E|].
  exact (tool_calls_numbered_from_zero (fun _ => NaN) 1000 messageStart
           [ (2000, toolUseStart 1 "t1" "lookup"); (2500, textDelta "Hi");
             (3000, toolUseStart 5 "t2" "search") ]
           (mkState [] []) _ _ eq_refl eq_refl E).
Defined.

End StreamInvariants.
(** ** The OpenAI stream to Claude events: what one call does, in stages *)

Module ReverseStream.
Import ClaudeStream.

Lemma foldM_keeps {A S} (f : S -> A -> result S) (P : S -> Prop) l :
  (forall s x s', P s -> f s x = inr s' -> P s') ->
  forall s s', P s -> foldM f l s = inr s' -> P s'.
Proof.
  intros Hstep. induction l as [|x l IH]; intros s s' Hs Hrun.
  - injection Hrun as <-. exact Hs.
  - cbn [foldM] in Hrun. destruct (f s x) as [e|s1] eqn:E; [discriminate Hrun|].
    exact (IH _ _ (Hstep _ _ _ Hs E) Hrun).
Qed.

Section Stages.
Variable str_num : string -> num.
Variable now : Z.

(** The stages of [openaiToClaudeResponse], in the order of the code:
    the opening [message_start], the reasoning content, the regular
    content, the tool calls and the finish. *)
Definition opening (chunk : value) (st : state) : result (state * list value) :=
  if negb (truthy (sget "messageStartSent" st)) then
    let st := sset "messageStartSent" (VBool true) st in
    id <- get "id" chunk ;;
    mid <- first_message_id now id ;;
    let messageId :=
      if negb (truthy (VStr mid)) || String.eqb mid "chat"
         || (String.length mid <? 8)%nat
      then
        let ef := getq "extend_fields" chunk in
        or_else (getq "requestId" ef)
          (or_else (getq "traceId" ef) (VStr ("msg_" ++ string_of_Z now)%string))
      else VStr mid in
    let st := sset "messageId" messageId st in
    let st := sset "model" (or_else (getq "model" chunk) (VStr "unknown")) st in
    let st := sset "nextBlockIndex" (int 0) st in
    ret (st, [ VObj [ ("type", VStr "message_start");
                      ("message",
                       VObj [ ("id", sget "messageId" st);
                              ("type", VStr "message");
                              ("role", VStr "assistant");
                              ("model", sget "model" st);
                              ("content", VArr []);
                              ("stop_reason", VNull);
                              ("stop_sequence", VNull);
                              ("usage", VObj [ ("input_tokens", int 0);
                                               ("output_tokens", int 0) ]) ]) ] ])
  else ret (st, []).

Definition blockStart (index : value) (block : list (string * value)) : value :=
  VObj [ ("type", VStr "content_block_start");
         ("index", index);
         ("content_block", VObj block) ].

Definition blockDelta (index : value) (delta : list (string * value)) : value :=
  VObj [ ("type", VStr "content_block_delta");
         ("index", index);
         ("delta", VObj delta) ].

Definition blockStop (index : value) : value :=
  VObj [ ("type", VStr "content_block_stop"); ("index", index) ].

Definition startThinking (acc : state * list value) : state * list value :=
  let '(st, results) := acc in
  if negb (truthy (sget "thinkingBlockStarted" st)) then
    let '(n, st) := post_incr str_num "nextBlockIndex" st in
    let st := sset "thinkingBlockIndex" (VNum n) st in
    let st := sset "thinkingBlockStarted" (VBool true) st in
    (st, results ++ [ blockStart (sget "thinkingBlockIndex" st)
                        [ ("type", VStr "thinking"); ("thinking", VStr "") ] ])
  else (st, results).

Definition reasoning (delta : value) (acc : state * list value) : state * list value :=
  let reasoningContent :=
    or_else (getq "reasoning_content" delta) (getq "reasoning" delta) in
  if truthy reasoningContent then
    let '(st, results) := startThinking (stopTextBlock acc) in
    (st, results ++ [ blockDelta (sget "thinkingBlockIndex" st)
                        [ ("type", VStr "thinking_delta");
                          ("thinking", reasoningContent) ] ])
  else acc.

Definition startText (acc : state * list value) : state * list value :=
  let '(st, results) := acc in
  if negb (truthy (sget "textBlockStarted" st)) then
    let '(n, st) := post_incr str_num "nextBlockIndex" st in
    let st := sset "textBlockIndex" (VNum n) st in
    let st := sset "textBlockStarted" (VBool true) st in
    let st := sset "textBlockClosed" (VBool false) st in
    (st, results ++ [ blockStart (sget "textBlockIndex" st)
                        [ ("type", VStr "text"); ("text", VStr "") ] ])
  else (st, results).

Definition content (delta : value) (acc : state * list value) : state * list value :=
  if truthy (getq "content" delta) then
    let '(st, results) := startText (stopThinkingBlock acc) in
    (st, results ++ [ blockDelta (sget "textBlockIndex" st)
                        [ ("type", VStr "text_delta");
                          ("text", getq "content" delta) ] ])
  else acc.

Definition calls (delta : value) (acc : state * list value)
  : result (state * list value) :=
  if truthy (getq "tool_calls" delta) then
    tcs <- iter (getq "tool_calls" delta) ;;
    foldM (toolCallDelta str_num) tcs acc
  else ret acc.

Definition toolStops (st : state) : result (list value) :=
  mapM (fun entry : value * value =>
          blockIndex <- get "blockIndex" (snd entry) ;;
          ret (blockStop blockIndex))
       (toolCalls st).

Definition finishing (finish_reason : value) (acc : state * list value)
  : result (state * list value) :=
  if truthy finish_reason then
    let '(st, results) := stopTextBlock (stopThinkingBlock acc) in
    stops <- toolStops st ;;
    ret (st, results ++ stops
             ++ [ VObj [ ("type", VStr "message_delta");
                         ("delta", VObj [ ("stop_reason",
                                           convertFinishReason finish_reason) ]);
                         ("usage", VObj [ ("output_tokens", int 0) ]) ];
                  VObj [ ("type", VStr "message_stop") ] ])
  else ret acc.

(** The announcement of a tool call, and the forwarding of its
    arguments: the two halves of [toolCallDelta]. *)
Definition announce (idx id fn : value) (acc : state * list value) : state * list value :=
  if truthy id then
    let '(st, results) := stopTextBlock (stopThinkingBlock acc) in
    let '(toolBlockIndex, st) := post_incr str_num "nextBlockIndex" st in
    let name := or_else (getq "name" fn) (VStr "") in
    let st :=
      with_toolCalls
        (map_set idx (VObj [ ("id", id); ("name", name);
                             ("blockIndex", VNum toolBlockIndex) ])
                 (toolCalls st)) st in
    (st, results ++ [ blockStart (VNum toolBlockIndex)
                        [ ("type", VStr "tool_use");
                          ("id", id);
                          ("name", name);
                          ("input", VObj []) ] ])
  else acc.

Definition forward (idx fn : value) (acc : state * list value)
  : result (state * list value) :=
  let '(st, results) := acc in
  if truthy (getq "arguments" fn) then
    match map_get idx (toolCalls st) with
    | Some toolInfo =>
        if truthy toolInfo then
          blockIndex <- get "blockIndex" toolInfo ;;
          ret (st, results ++ [ blockDelta blockIndex
                                  [ ("type", VStr "input_json_delta");
                                    ("partial_json", getq "arguments" fn) ] ])
        else ret (st, results)
    | None => ret (st, results)
    end
  else ret (st, results).

Lemma toolCallDelta_stages acc tc :
  toolCallDelta str_num acc tc
  = (index <- get "index" tc ;;
     let idx := if nullish index then int 0 else index in
     id <- get "id" tc ;;
     forward idx (getq "function" tc) (announce idx id (getq "function" tc) acc)).
Proof.
  unfold toolCallDelta, forward, announce.
  destruct (get "index" tc) as [e|index]; [reflexivity|]. cbn [bind].
  destruct (get "id" tc) as [e|id]; [reflexivity|]. cbn [bind].
  destruct (truthy id); [|destruct acc; reflexivity].
  destruct (stopTextBlock (stopThinkingBlock acc)) as [st results].
  destruct (post_incr str_num "nextBlockIndex" st) as [n st1]. reflexivity.
Qed.

Lemma openaiToClaudeResponse_stages chunk st :
  openaiToClaudeResponse str_num now chunk st
  = if negb (truthy chunk) then ret (VNull, st) else
    choices <- get "choices" chunk ;;
    if negb (truthy (first choices)) then ret (VNull, st) else
    delta <- get "delta" (first choices) ;;
    acc <- opening chunk st ;;
    acc <- calls delta (content delta (reasoning delta acc)) ;;
    finish_reason <- get "finish_reason" (first choices) ;;
    acc <- finishing finish_reason acc ;;
    ret (emit (snd acc), fst acc).
Proof.
  unfold openaiToClaudeResponse.
  destruct (negb (truthy chunk)); [reflexivity|].
  destruct (get "choices" chunk) as [e|choices]; [reflexivity|]. cbn [bind].
  destruct (negb (truthy (first choices))); [reflexivity|].
  destruct (get "delta" (first choices)) as [e|delta]; [reflexivity|]. cbn [bind].
  fold (opening chunk st).
  destruct (opening chunk st) as [e|acc]; [reflexivity|]. cbn [bind].
  unfold reasoning, content, calls, finishing, toolStops, startThinking, startText,
    blockStart, blockDelta, blockStop.
  repeat (cbv beta iota zeta; cbn [bind ret fst snd]; try reflexivity;
          match goal with
          | |- context [match ?x with _ => _ end] =>
              lazymatch x with
              | context [match _ with _ => _ end] => fail
              | context [bind _ _] => fail
              | _ => destruct x
              end
          | |- context [bind ?m _] =>
              lazymatch m with
              | context [match _ with _ => _ end] => fail
              | context [bind _ _] => fail
              | _ => destruct m
              end
          | |- context [bind (mapM ?f ?l) _] => destruct (mapM f l)
          end).
Qed.

(** *** A call as a sequence of actions *)

(** What a call does to the state and to its results, one action at a
    time: it closes or opens the text or the thinking block, opens the
    block of a tool call, or pushes an event that opens no block. *)
Inductive action :=
| StopText
| StopThinking
| StartThinking
| StartText
| Announce (idx id fn : value)
| Push (event : value).

Definition act (a : action) (acc : state * list value) : state * list value :=
  match a with
  | StopText => stopTextBlock acc
  | StopThinking => stopThinkingBlock acc
  | StartThinking => startThinking acc
  | StartText => startText acc
  | Announce idx id fn =>
      let '(st, results) := acc in
      let '(toolBlockIndex, st) := post_incr str_num "nextBlockIndex" st in
      let name := or_else (getq "name" fn) (VStr "") in
      let st :=
        with_toolCalls
          (map_set idx (VObj [ ("id", id); ("name", name);
                               ("blockIndex", VNum toolBlockIndex) ])
                   (toolCalls st)) st in
      (st, results ++ [ blockStart (VNum toolBlockIndex)
                          [ ("type", VStr "tool_use");
                            ("id", id);
                            ("name", name);
                            ("input", VObj []) ] ])
  | Push event => (fst acc, snd acc ++ [event])
  end.

Definition run (acts : list action) (acc : state * list value) : state * list value :=
  fold_left (fun acc a => act a acc) acts acc.

(** The events that a call pushes outside of the opening of a block. *)
Definition passive (event : value) : bool :=
  existsb (is_str (getq "type" event))
    [ "content_block_delta"; "content_block_stop"; "message_delta"; "message_stop" ].

Definition plain (a : action) : Prop :=
  match a with Push event => passive event = true | _ => True end.

Definition performs (acc acc' : state * list value) : Prop :=
  exists acts, acc' = run acts acc /\ Forall plain acts.

Lemma performs_refl acc : performs acc acc.
Proof. exists []. now split. Qed.

Lemma performs_trans a b c : performs a b -> performs b c -> performs a c.
Proof.
  intros (l1 & -> & H1) (l2 & -> & H2). exists (l1 ++ l2). split.
  - unfold run. now rewrite fold_left_app.
  - apply Forall_app. now split.
Qed.

Lemma performs_act a acc : plain a -> performs acc (act a acc).
Proof. intros H. exists [a]. split; [reflexivity | now constructor]. Qed.

Lemma performs_push st results event :
  passive event = true -> performs (st, results) (st, results ++ [event]).
Proof. intros H. exact (performs_act (Push event) (st, results) H). Qed.

Lemma reasoning_performs delta acc : performs acc (reasoning delta acc).
Proof.
  unfold reasoning.
  destruct (truthy (or_else (getq "reasoning_content" delta) (getq "reasoning" delta)));
    [|apply performs_refl].
  eapply performs_trans; [apply (performs_act StopText); exact I|].
  eapply performs_trans; [apply (performs_act StartThinking); exact I|].
  cbn [act]. destruct (startThinking (stopTextBlock acc)) as [st results].
  now apply performs_push.
Qed.

Lemma content_performs delta acc : performs acc (content delta acc).
Proof.
  unfold content. destruct (truthy (getq "content" delta)); [|apply performs_refl].
  eapply performs_trans; [apply (performs_act StopThinking); exact I|].
  eapply performs_trans; [apply (performs_act StartText); exact I|].
  cbn [act]. destruct (startText (stopThinkingBlock acc)) as [st results].
  now apply performs_push.
Qed.

Lemma announce_performs idx id fn acc : performs acc (announce idx id fn acc).
Proof.
  unfold announce. destruct (truthy id); [|apply performs_refl].
  eapply performs_trans; [apply (performs_act StopThinking); exact I|].
  eapply performs_trans; [apply (performs_act StopText); exact I|].
  cbn [act]. apply (performs_act (Announce idx id fn)). exact I.
Qed.

Lemma forward_performs idx fn acc acc' :
  forward idx fn acc = inr acc' -> performs acc acc'.
Proof.
  unfold forward. destruct acc as [st results].
  destruct (truthy (getq "arguments" fn)); [|intros [= <-]; apply performs_refl].
  destruct (map_get idx (toolCalls st)) as [toolInfo|];
    [|intros [= <-]; apply performs_refl].
  destruct (truthy toolInfo); [|intros [= <-]; apply performs_refl].
  destruct (get "blockIndex" toolInfo) as [e|blockIndex]; [discriminate|].
  cbn [bind ret]. intros [= <-]. now apply performs_push.
Qed.

Lemma toolCallDelta_performs acc tc acc' :
  toolCallDelta str_num acc tc = inr acc' -> performs acc acc'.
Proof.
  rewrite toolCallDelta_stages.
  destruct (get "index" tc) as [e|index]; [discriminate|]. cbn [bind].
  destruct (get "id" tc) as [e|id]; [discriminate|]. cbn [bind]. intros H.
  eapply performs_trans; [apply announce_performs|].
  exact (forward_performs _ _ _ _ H).
Qed.

Lemma calls_performs delta acc acc' :
  calls delta acc = inr acc' -> performs acc acc'.
Proof.
  unfold calls. destruct (truthy (getq "tool_calls" delta));
    [|intros [= <-]; apply performs_refl].
  destruct (iter (getq "tool_calls" delta)) as [e|tcs]; [discriminate|]. cbn [bind].
  apply foldM_keeps; [|apply performs_refl].
  intros s x s' Hs Hx. eapply performs_trans; [exact Hs|].
  exact (toolCallDelta_performs _ _ _ Hx).
Qed.

Lemma toolStops_passive l : forall stops,
  mapM (fun entry : value * value =>
          blockIndex <- get "blockIndex" (snd entry) ;;
          ret (blockStop blockIndex)) l = inr stops ->
  Forall (fun e => passive e = true) stops.
Proof.
  induction l as [|x l IH]; intros stops H.
  - injection H as <-. constructor.
  - cbn [mapM] in H. destruct (get "blockIndex" (snd x)) as [e|b]; [discriminate H|].
    cbn [bind ret] in H.
    destruct (mapM _ l) as [e|rest] eqn:E; [discriminate H|].
    cbn [bind ret] in H. injection H as <-. constructor; [reflexivity|].
    now apply IH.
Qed.

Lemma performs_pushes st results events :
  Forall (fun e => passive e = true) events ->
  performs (st, results) (st, results ++ events).
Proof.
  intros H. revert results. induction H as [|e events He _ IH]; intros results.
  - rewrite app_nil_r. apply performs_refl.
  - eapply performs_trans; [apply (performs_push _ _ e He)|].
    replace (results ++ e :: events) with ((results ++ [e]) ++ events)
      by now rewrite <- app_assoc.
    apply IH.
Qed.

Lemma finishing_performs finish_reason acc acc' :
  finishing finish_reason acc = inr acc' -> performs acc acc'.
Proof.
  unfold finishing. destruct (truthy finish_reason);
    [|intros [= <-]; apply performs_refl].
  intros H.
  eapply performs_trans; [apply (performs_act StopThinking); exact I|].
  eapply performs_trans; [apply (performs_act StopText); exact I|].
  cbn [act]. destruct (stopTextBlock (stopThinkingBlock acc)) as [st results].
  unfold toolStops in H.
  destruct (mapM _ (toolCalls st)) as [e|stops] eqn:E; [discriminate H|].
  cbn [bind ret] in H. injection H as <-.
  apply performs_pushes. apply Forall_app. split.
  - exact (toolStops_passive _ _ E).
  - repeat constructor.
Qed.

(** A call that goes beyond its guards: the opening, then actions. *)
Lemma call_performs chunk st r st' :
  openaiToClaudeResponse str_num now chunk st = inr (r, st') ->
  (r = VNull /\ st' = st)
  \/ (truthy (first (getq "choices" chunk)) = true
      /\ exists acc results,
           opening chunk st = inr acc
           /\ performs acc (st', results) /\ r = emit results).
Proof.
  rewrite openaiToClaudeResponse_stages.
  destruct (truthy chunk) eqn:T; [|intros [= <- <-]; now left]. cbn [negb].
  rewrite (get_truthy "choices" chunk T). cbn [bind].
  destruct (truthy (first (getq "choices" chunk))) eqn:C;
    [|intros [= <- <-]; now left]. cbn [negb].
  destruct (get "delta" _) as [e|delta]; [discriminate|]. cbn [bind].
  destruct (opening chunk st) as [e|acc]; [discriminate|]. cbn [bind].
  destruct (calls delta _) as [e|acc1] eqn:E1; [discriminate|]. cbn [bind].
  destruct (get "finish_reason" _) as [e|finish_reason]; [discriminate|]. cbn [bind].
  destruct (finishing finish_reason acc1) as [e|acc2] eqn:E2; [discriminate|].
  cbn [bind ret]. intros [= <- <-]. right. split; [reflexivity|].
  exists acc, (snd acc2). split; [reflexivity|]. split; [|reflexivity].
  eapply performs_trans; [apply reasoning_performs|].
  eapply performs_trans; [apply content_performs|].
  eapply performs_trans; [exact (calls_performs _ _ _ E1)|].
  destruct acc2. exact (finishing_performs _ _ _ E2).
Qed.

End Stages.

Section Exchange.
Variable str_num : string -> num.

(** *** The opening event *)

Definition startSent (st : state) : Prop := truthy (sget "messageStartSent" st) = true.

Definition isStart (event : value) : bool := is_str (getq "type" event) "message_start".

Lemma startSent_sset st k v :
  String.eqb "messageStartSent" k = false -> startSent st -> startSent (sset k v st).
Proof. unfold startSent. intros Hk H. now rewrite sget_sset_other. Qed.

Ltac started :=
  repeat match goal with
         | |- startSent (sset _ _ _) => apply startSent_sset; [reflexivity|]
         | |- startSent (with_toolCalls _ ?s) => change (startSent s)
         | |- startSent (fst (?s, _)) => change (startSent s)
         end; try assumption.

Lemma passive_not_start event : passive event = true -> isStart event = false.
Proof.
  unfold passive, isStart. cbn [existsb]. intros H.
  repeat (apply orb_prop in H as [H|H]); try discriminate H;
    apply is_str_eq in H; now rewrite H.
Qed.

Lemma act_keeps_start a acc :
  plain a -> startSent (fst acc) ->
  startSent (fst (act str_num a acc))
  /\ exists events, snd (act str_num a acc) = snd acc ++ events
                    /\ Forall (fun e => isStart e = false) events.
Proof.
  intros Ha Hs. destruct acc as [st results]. cbn [fst snd] in *.
  destruct a as [| | | |idx id fn|event]; cbn [act].
  - unfold stopTextBlock.
    destruct (negb (truthy (sget "textBlockStarted" st)) || truthy (sget "textBlockClosed" st)).
    + split; [exact Hs|]. exists []. now rewrite app_nil_r.
    + cbn [fst snd]. split; [started|]. eexists. split; [reflexivity|]. now repeat constructor.
  - unfold stopThinkingBlock. destruct (negb (truthy (sget "thinkingBlockStarted" st))).
    + split; [exact Hs|]. exists []. now rewrite app_nil_r.
    + cbn [fst snd]. split; [started|]. eexists. split; [reflexivity|]. now repeat constructor.
  - unfold startThinking, post_incr.
    destruct (negb (truthy (sget "thinkingBlockStarted" st))).
    + cbn [fst snd]. split; [started|]. eexists. split; [reflexivity|]. now repeat constructor.
    + split; [exact Hs|]. exists []. now rewrite app_nil_r.
  - unfold startText, post_incr.
    destruct (negb (truthy (sget "textBlockStarted" st))).
    + cbn [fst snd]. split; [started|]. eexists. split; [reflexivity|]. now repeat constructor.
    + split; [exact Hs|]. exists []. now rewrite app_nil_r.
  - unfold post_incr. cbn [fst snd]. split; [started|].
    eexists. split; [reflexivity|]. now repeat constructor.
  - cbn [fst snd]. split; [exact Hs|]. eexists. split; [reflexivity|].
    constructor; [|constructor]. now apply passive_not_start.
Qed.

Lemma run_keeps_start acts : forall acc,
  Forall plain acts -> startSent (fst acc) ->
  startSent (fst (run str_num acts acc))
  /\ exists events, snd (run str_num acts acc) = snd acc ++ events
                    /\ Forall (fun e => isStart e = false) events.
Proof.
  induction acts as [|a acts IH]; intros acc Hall Hs.
  - split; [exact Hs|]. exists []. now rewrite app_nil_r.
  - inversion Hall as [|? ? Ha Hall']; subst.
    destruct (act_keeps_start a acc Ha Hs) as (Hs1 & ev1 & E1 & H1).
    destruct (IH _ Hall' Hs1) as (Hs2 & ev2 & E2 & H2).
    unfold run in *. cbn [fold_left]. split; [exact Hs2|].
    exists (ev1 ++ ev2). rewrite E2, E1, app_assoc. split; [reflexivity|].
    apply Forall_app. now split.
Qed.

Lemma opening_sent now chunk st :
  startSent st -> opening now chunk st = inr (st, []).
Proof. unfold startSent, opening. now intros ->. Qed.

Lemma opening_first now chunk st acc :
  truthy (sget "messageStartSent" st) = false ->
  opening now chunk st = inr acc ->
  startSent (fst acc)
  /\ to_number str_num (sget "nextBlockIndex" (fst acc)) = Fin 0
  /\ exists e, snd acc = [e] /\ isStart e = true.
Proof.
  unfold opening. intros -> H. cbn [negb] in H. cbv zeta in H.
  destruct (get "id" chunk) as [e|id]; [discriminate H|]. cbn [bind] in H.
  destruct (first_message_id now id) as [e|mid]; [discriminate H|].
  cbn [bind ret] in H. injection H as <-. cbn [fst snd]. split; [|split].
  - unfold startSent. rewrite !sget_sset_other by reflexivity. now rewrite sget_sset_same.
  - now rewrite sget_sset_same.
  - eexists. split; reflexivity.
Qed.

(** One call on a state whose flag is set: no [message_start]. *)
Lemma call_after_start now chunk st r st' :
  startSent st ->
  openaiToClaudeResponse str_num now chunk st = inr (r, st') ->
  startSent st' /\ Forall (fun e => isStart e = false) (chunks_of r).
Proof.
  intros Hs H. destruct (call_performs _ _ _ _ _ _ H) as [[-> ->]|(_ & acc & results & Ho & Hp & ->)].
  - split; [exact Hs | constructor].
  - rewrite (opening_sent _ _ _ Hs) in Ho. injection Ho as <-.
    destruct Hp as (acts & Hrun & Hall).
    destruct (run_keeps_start acts (st, []) Hall Hs) as (Hs' & events & E & Hev).
    rewrite <- Hrun in Hs', E. cbn [fst snd app] in *. subst results.
    split; [exact Hs'|]. destruct events; [constructor | exact Hev].
Qed.

(** X7. [message_start] opens the exchange and occurs once: on a state
    whose flag [messageStartSent] is not set, the first event that an
    exchange emits is a [message_start] and no later event is one; on a
    state whose flag is set, no event is one. *)
Theorem message_start_opens_the_exchange chunks st out st' :
  exchange (openaiToClaudeResponse str_num) chunks st = inr (out, st') ->
  if truthy (sget "messageStartSent" st)
  then Forall (fun e => isStart e = false) out
  else match out with
       | [] => True
       | e :: rest => isStart e = true /\ Forall (fun e => isStart e = false) rest
       end.
Proof.
  assert (Hafter : forall chunks st out st',
            startSent st ->
            exchange (openaiToClaudeResponse str_num) chunks st = inr (out, st') ->
            Forall (fun e => isStart e = false) out).
  { intros cs s o s' Hs Hrun.
    destruct (StreamInvariants.exchange_invariant (openaiToClaudeResponse str_num)
                (fun _ => true) startSent (fun e => isStart e = false))
      with (evs := cs) (st := s) (out := o) (st' := s') as [_ Hall]; try assumption.
    - intros n c s0 r s1 _ Hs0 Hstep. exact (call_after_start _ _ _ _ _ Hs0 Hstep).
    - clear. induction cs; [reflexivity | exact IHcs]. }
  revert st out st'.
  induction chunks as [|[now chunk] chunks IH]; intros st out st' Hrun.
  - injection Hrun as <- <-. destruct (truthy _); constructor.
  - destruct (truthy (sget "messageStartSent" st)) eqn:Hs.
    { exact (Hafter _ _ _ _ Hs Hrun). }
    cbn [exchange] in Hrun.
    destruct (openaiToClaudeResponse str_num now chunk st) as [e|[r st1]] eqn:E;
      [discriminate Hrun|].
    cbn [bind snd fst] in Hrun.
    destruct (exchange (openaiToClaudeResponse str_num) chunks st1) as [e|[more st2]] eqn:E';
      [discriminate Hrun|].
    cbn [bind ret fst snd] in Hrun. injection Hrun as <- <-.
    destruct (call_performs _ _ _ _ _ _ E) as [[-> ->]|(_ & acc & results & Ho & Hp & ->)].
    + cbn [chunks_of app]. specialize (IH _ _ _ E'). now rewrite Hs in IH.
    + destruct (opening_first _ _ _ _ Hs Ho) as (Hs1 & _ & e & Hacc & He).
      destruct Hp as (acts & Hrun & Hall).
      destruct (run_keeps_start acts acc Hall Hs1) as (Hs' & events & Eq & Hev).
      rewrite <- Hrun in Hs', Eq. cbn [fst snd] in Hs', Eq. rewrite Hacc in Eq.
      subst results. cbn [app emit chunks_of]. split; [exact He|].
      apply Forall_app. split; [exact Hev|]. exact (Hafter _ _ _ _ Hs' E').
Qed.

(** *** The numbering of the content blocks *)

Definition nextBlock (st : state) : num :=
  to_number str_num (sget "nextBlockIndex" st).

(** The [index] of the blocks that the events open. *)
Definition openedBlocks (events : list value) : list value :=
  map (getq "index")
      (filter (fun e => is_str (getq "type" e) "content_block_start") events).

Lemma openedBlocks_app a b : openedBlocks (a ++ b) = openedBlocks a ++ openedBlocks b.
Proof. unfold openedBlocks. now rewrite filter_app, map_app. Qed.

Lemma nextBlock_sset st k v :
  String.eqb "nextBlockIndex" k = false -> nextBlock (sset k v st) = nextBlock st.
Proof. unfold nextBlock. intros Hk. now rewrite sget_sset_other. Qed.

Lemma passive_opens_nothing event : passive event = true -> openedBlocks [event] = [].
Proof.
  unfold passive, openedBlocks. cbn [existsb filter]. intros H.
  repeat (apply orb_prop in H as [H|H]); try discriminate H;
    apply is_str_eq in H; now rewrite H.
Qed.

Lemma counting_app n j k :
  StreamInvariants.counting n (j + k)
  = StreamInvariants.counting n j ++ StreamInvariants.counting (n + Z.of_nat j) k.
Proof.
  revert n. induction j as [|j IH]; intros n.
  - cbn [plus]. unfold StreamInvariants.counting at 2. cbn. now rewrite Z.add_0_r.
  - cbn [plus]. rewrite !StreamInvariants.counting_succ, IH. cbn [app].
    do 3 f_equal. lia.
Qed.

(** Every action opens the blocks that the counter numbers, and moves
    the counter past them. *)
Lemma act_numbers a acc n :
  plain a -> nextBlock (fst acc) = Fin n ->
  exists k,
    openedBlocks (snd (act str_num a acc))
    = openedBlocks (snd acc) ++ StreamInvariants.counting n k
    /\ nextBlock (fst (act str_num a acc)) = Fin (n + Z.of_nat k).
Proof.
  intros Ha Hn. destruct acc as [st results]. cbn [fst snd] in *.
  assert (Hsame : forall st', nextBlock st' = nextBlock st ->
            openedBlocks results = openedBlocks results ++ StreamInvariants.counting n 0
            /\ nextBlock st' = Fin (n + Z.of_nat 0)).
  { intros st' ->. rewrite app_nil_r, Z.add_0_r. now split. }
  assert (Hone : forall st' block,
            nextBlock st' = Fin (n + 1) ->
            openedBlocks (results ++ [blockStart (int n) block])
            = openedBlocks results ++ StreamInvariants.counting n 1
            /\ nextBlock st' = Fin (n + Z.of_nat 1)).
  { intros st' block E. rewrite openedBlocks_app. split; [|exact E].
    f_equal. unfold StreamInvariants.counting. cbn. now rewrite Z.add_0_r. }
  destruct a as [| | | |idx id fn|event]; cbn [act].
  - unfold stopTextBlock.
    destruct (negb (truthy (sget "textBlockStarted" st)) || truthy (sget "textBlockClosed" st)).
    + exists 0%nat. now apply Hsame.
    + exists 0%nat. cbn [fst snd]. rewrite openedBlocks_app.
      change (openedBlocks [_]) with (@nil value). rewrite app_nil_r.
      apply Hsame. now rewrite !nextBlock_sset by reflexivity.
  - unfold stopThinkingBlock. destruct (negb (truthy (sget "thinkingBlockStarted" st))).
    + exists 0%nat. now apply Hsame.
    + exists 0%nat. cbn [fst snd]. rewrite openedBlocks_app.
      change (openedBlocks [_]) with (@nil value). rewrite app_nil_r.
      apply Hsame. now rewrite !nextBlock_sset by reflexivity.
  - unfold startThinking, post_incr. fold (nextBlock st). rewrite Hn.
    destruct (negb (truthy (sget "thinkingBlockStarted" st))).
    + exists 1%nat. cbn [fst snd].
      rewrite sget_sset_other by reflexivity. rewrite sget_sset_same.
      apply Hone. rewrite !nextBlock_sset by reflexivity.
      unfold nextBlock. now rewrite sget_sset_same.
    + exists 0%nat. now apply Hsame.
  - unfold startText, post_incr. fold (nextBlock st). rewrite Hn.
    destruct (negb (truthy (sget "textBlockStarted" st))).
    + exists 1%nat. cbn [fst snd].
      rewrite !sget_sset_other by reflexivity. rewrite sget_sset_same.
      apply Hone. rewrite !nextBlock_sset by reflexivity.
      unfold nextBlock. now rewrite sget_sset_same.
    + exists 0%nat. now apply Hsame.
  - unfold post_incr. fold (nextBlock st). rewrite Hn. exists 1%nat. cbn [fst snd].
    apply Hone. change (nextBlock (with_toolCalls ?m ?s)) with (nextBlock s).
    unfold nextBlock. now rewrite sget_sset_same.
  - exists 0%nat. cbn [fst snd]. rewrite openedBlocks_app, (passive_opens_nothing _ Ha).
    rewrite app_nil_r. now apply Hsame.
Qed.

Lemma run_numbers acts : forall acc n,
  Forall plain acts -> nextBlock (fst acc) = Fin n ->
  exists k,
    openedBlocks (snd (run str_num acts acc))
    = openedBlocks (snd acc) ++ StreamInvariants.counting n k
    /\ nextBlock (fst (run str_num acts acc)) = Fin (n + Z.of_nat k).
Proof.
  induction acts as [|a acts IH]; intros acc n Hall Hn.
  - exists 0%nat. cbn. rewrite app_nil_r, Z.add_0_r. now split.
  - inversion Hall as [|? ? Ha Hall']; subst.
    destruct (act_numbers a acc n Ha Hn) as (j & E1 & N1).
    destruct (IH _ _ Hall' N1) as (k & E2 & N2).
    exists (j + k)%nat. unfold run in *. cbn [fold_left].
    rewrite E2, E1, N2, counting_app, app_assoc. split; [reflexivity|].
    f_equal. lia.
Qed.

Lemma call_numbers now chunk st r st' n :
  startSent st -> nextBlock st = Fin n ->
  openaiToClaudeResponse str_num now chunk st = inr (r, st') ->
  exists k,
    openedBlocks (chunks_of r) = StreamInvariants.counting n k
    /\ nextBlock st' = Fin (n + Z.of_nat k) /\ startSent st'.
Proof.
  intros Hs Hn H.
  destruct (call_performs _ _ _ _ _ _ H) as [[-> ->]|(_ & acc & results & Ho & Hp & ->)].
  - exists 0%nat. rewrite Z.add_0_r. now repeat split.
  - rewrite (opening_sent _ _ _ Hs) in Ho. injection Ho as <-.
    destruct Hp as (acts & Hrun & Hall).
    destruct (run_numbers acts (st, []) n Hall Hn) as (k & E & N).
    destruct (run_keeps_start acts (st, []) Hall Hs) as (Hs' & _).
    rewrite <- Hrun in E, N, Hs'. cbn [fst snd app openedBlocks filter map] in *.
    exists k. split; [|now split]. destruct results; [exact E | exact E].
Qed.

Lemma exchange_numbers chunks : forall st out st' n,
  startSent st -> nextBlock st = Fin n ->
  exchange (openaiToClaudeResponse str_num) chunks st = inr (out, st') ->
  exists k, openedBlocks out = StreamInvariants.counting n k.
Proof.
  induction chunks as [|[now chunk] chunks IH]; intros st out st' n Hs Hn Hrun.
  - injection Hrun as <- <-. now exists 0%nat.
  - cbn [exchange] in Hrun.
    destruct (openaiToClaudeResponse str_num now chunk st) as [e|[r st1]] eqn:E;
      [discriminate Hrun|].
    cbn [bind snd fst] in Hrun.
    destruct (exchange (openaiToClaudeResponse str_num) chunks st1) as [e|[more st2]] eqn:E';
      [discriminate Hrun|].
    cbn [bind ret fst snd] in Hrun. injection Hrun as <- <-.
    destruct (call_numbers _ _ _ _ _ _ Hs Hn E) as (j & E1 & N1 & Hs1).
    destruct (IH _ _ _ _ Hs1 N1 E') as (k & E2).
    exists (j + k)%nat. now rewrite openedBlocks_app, E1, E2, counting_app.
Qed.

(** X8. The content blocks of an exchange are numbered from 0 in the
    order in which they open, thinking, text and tool-use blocks alike:
    on a state whose flag [messageStartSent] is not set, the indices of
    the [content_block_start] events of an exchange are 0, 1, 2, ... *)
Theorem content_blocks_numbered_from_zero chunks st out st' :
  truthy (sget "messageStartSent" st) = false ->
  exchange (openaiToClaudeResponse str_num) chunks st = inr (out, st') ->
  openedBlocks out = StreamInvariants.counting 0 (List.length (openedBlocks out)).
Proof.
  assert (Hlen : forall l n k, l = StreamInvariants.counting n k ->
                 l = StreamInvariants.counting n (List.length l)).
  { intros l n k ->. unfold StreamInvariants.counting.
    now rewrite length_map, length_seq. }
  revert st out st'.
  induction chunks as [|[now chunk] chunks IH]; intros st out st' Hs Hrun.
  - now injection Hrun as <- <-.
  - cbn [exchange] in Hrun.
    destruct (openaiToClaudeResponse str_num now chunk st) as [e|[r st1]] eqn:E;
      [discriminate Hrun|].
    cbn [bind snd fst] in Hrun.
    destruct (exchange (openaiToClaudeResponse str_num) chunks st1) as [e|[more st2]] eqn:E';
      [discriminate Hrun|].
    cbn [bind ret fst snd] in Hrun. injection Hrun as <- <-.
    destruct (call_performs _ _ _ _ _ _ E) as [[-> ->]|(_ & acc & results & Ho & Hp & ->)].
    + cbn [chunks_of app]. exact (IH _ _ _ Hs E').
    + destruct (opening_first _ _ _ _ Hs Ho) as (Hs1 & Hn & e & Hacc & He).
      destruct Hp as (acts & Hrun & Hall).
      destruct (run_numbers acts acc 0 Hall Hn) as (j & E1 & N1).
      destruct (run_keeps_start acts acc Hall Hs1) as (Hs' & _).
      rewrite <- Hrun in E1, N1, Hs'. cbn [fst snd] in E1, N1, Hs'.
      rewrite Hacc in E1.
      assert (He0 : openedBlocks [e] = []).
      { unfold openedBlocks. cbn [filter]. unfold isStart in He.
        apply is_str_eq in He. now rewrite He. }
      rewrite He0 in E1. cbn [app] in E1.
      destruct (exchange_numbers _ _ _ _ _ Hs' N1 E') as (k & E2).
      apply (Hlen _ 0 (j + k)%nat). rewrite openedBlocks_app, counting_app.
      cbn [Z.add]. f_equal; [|exact E2].
      destruct results; [exact E1 | exact E1].
Qed.

(** *** The end of the message *)

Lemma chunks_of_emit results : chunks_of (emit results) = results.
Proof. now destruct results. Qed.

Lemma toolStops_map st stops :
  toolStops st = inr stops ->
  stops = map (fun entry : value * value => blockStop (getq "blockIndex" (snd entry)))
              (toolCalls st).
Proof.
  unfold toolStops. generalize (toolCalls st). intros l. revert stops.
  induction l as [|x l IH]; intros stops H.
  - now injection H as <-.
  - cbn [mapM] in H. unfold getq. cbn [map].
    destruct (get "blockIndex" (snd x)) as [e|b]; [discriminate H|].
    cbn [bind ret] in H.
    destruct (mapM _ l) as [e|rest] eqn:E; [discriminate H|].
    cbn [bind ret] in H. injection H as <-. f_equal. now apply IH.
Qed.

Lemma stopThinkingBlock_toolCalls acc :
  toolCalls (fst (stopThinkingBlock acc)) = toolCalls (fst acc).
Proof.
  destruct acc as [st results]. unfold stopThinkingBlock.
  now destruct (negb (truthy (sget "thinkingBlockStarted" st))).
Qed.

Lemma stopTextBlock_toolCalls acc :
  toolCalls (fst (stopTextBlock acc)) = toolCalls (fst acc).
Proof.
  destruct acc as [st results]. unfold stopTextBlock.
  now destruct (negb (truthy (sget "textBlockStarted" st)) || truthy (sget "textBlockClosed" st)).
Qed.

(** X9. A chunk whose first choice carries a finish reason ends the
    message: the events of the call end with a [content_block_stop] for
    the block of every tool call recorded in the state, in the order of
    the Map, then a [message_delta] with the converted stop reason, then
    [message_stop]. *)
Theorem finish_reason_ends_the_message now chunk st r st' :
  truthy (getq "finish_reason" (first (getq "choices" chunk))) = true ->
  openaiToClaudeResponse str_num now chunk st = inr (r, st') ->
  exists events,
    chunks_of r
    = events
      ++ map (fun entry : value * value => blockStop (getq "blockIndex" (snd entry)))
             (toolCalls st')
      ++ [ VObj [ ("type", VStr "message_delta");
                  ("delta",
                   VObj [ ("stop_reason",
                           convertFinishReason
                             (getq "finish_reason" (first (getq "choices" chunk)))) ]);
                  ("usage", VObj [ ("output_tokens", int 0) ]) ];
           VObj [ ("type", VStr "message_stop") ] ].
Proof.
  intros Hfr. rewrite openaiToClaudeResponse_stages.
  destruct (truthy chunk) eqn:T.
  2:{ destruct chunk; try discriminate T; discriminate Hfr. }
  cbn [negb]. rewrite (get_truthy "choices" chunk T). cbn [bind].
  destruct (truthy (first (getq "choices" chunk))) eqn:C.
  2:{ destruct (first (getq "choices" chunk)); try discriminate C; discriminate Hfr. }
  cbn [negb]. rewrite !(get_truthy _ _ C).
  cbn [bind].
  destruct (opening now chunk st) as [e|acc]; [discriminate|]. cbn [bind].
  destruct (calls _ _ _) as [e|acc1]; [discriminate|]. cbn [bind].
  unfold finishing. rewrite Hfr.
  pose proof (stopThinkingBlock_toolCalls acc1) as H1.
  pose proof (stopTextBlock_toolCalls (stopThinkingBlock acc1)) as H2.
  destruct (stopTextBlock (stopThinkingBlock acc1)) as [s results].
  cbn [fst] in H2.
  destruct (toolStops s) as [e|stops] eqn:E; [discriminate|].
  cbn [bind ret fst snd]. intros [= <- <-].
  rewrite (toolStops_map _ _ E). exists results.
  now rewrite chunks_of_emit.
Qed.

(** X10. Closing a block twice closes it once: a second
    [stopTextBlock], or a second [stopThinkingBlock], pushes no event and
    leaves the state as the first one left it. *)
Theorem stops_are_idempotent acc :
  stopTextBlock (stopTextBlock acc) = stopTextBlock acc
  /\ stopThinkingBlock (stopThinkingBlock acc) = stopThinkingBlock acc.
Proof.
  destruct acc as [st results]. split.
  - unfold stopTextBlock at 2.
    destruct (negb (truthy (sget "textBlockStarted" st)) || truthy (sget "textBlockClosed" st))
      eqn:E.
    + unfold stopTextBlock. now rewrite E.
    + unfold stopTextBlock. rewrite E, sget_sset_same. reflexivity.
  - unfold stopThinkingBlock at 2.
    destruct (negb (truthy (sget "thinkingBlockStarted" st))) eqn:E.
    + unfold stopThinkingBlock. now rewrite E.
    + unfold stopThinkingBlock. rewrite E, sget_sset_same. reflexivity.
Qed.

(** X11. Arguments for a tool call that was never announced go
    nowhere: a tool-call delta without an id, whose index has no entry in
    [state.toolCalls], pushes no event and leaves the state as it was,
    whatever arguments it carries. *)
Theorem unannounced_arguments_dropped acc tc :
  nullish tc = false ->
  truthy (getq "id" tc) = false ->
  map_get (if nullish (getq "index" tc) then int 0 else getq "index" tc)
          (toolCalls (fst acc)) = None ->
  toolCallDelta str_num acc tc = inr acc.
Proof.
  intros Htc Hid Hget. rewrite toolCallDelta_stages.
  rewrite !(get_getq _ _ Htc). cbn [bind]. unfold announce. rewrite Hid.
  unfold forward. destruct acc as [st results]. cbn [fst] in Hget. rewrite Hget.
  destruct (truthy (getq "arguments" (getq "function" tc))); reflexivity.
Qed.

End Exchange.
(** *** On an exchange *)

(** Chunks of the OpenAI wire format: reasoning, then text, then a tool
    call and the finish reason. *)
Definition deltaChunk (delta : list (string * value)) (finish_reason : value) : value :=
  VObj [ ("id", VStr "chatcmpl-9f8e7d6c5b"); ("model", VStr "gpt-4o");
         ("choices", VArr [ VObj [ ("index", int 0); ("delta", VObj delta);
                                   ("finish_reason", finish_reason) ] ]) ].

Definition toolCallChunk : value :=
  deltaChunk [ ("tool_calls",
                VArr [ VObj [ ("index", int 0); ("id", VStr "call_1");
                              ("function", VObj [ ("name", VStr "lookup");
                                                  ("arguments", VStr "{}") ]) ] ]) ]
             VNull.

Definition exampleChunks : list (Z * value) :=
  [ (1000, deltaChunk [ ("reasoning_content", VStr "Let me see") ] VNull);
    (2000, deltaChunk [ ("content", VStr "Hi") ] VNull);
    (3000, toolCallChunk);
    (4000, deltaChunk [] (VStr "tool_calls")) ].

Lemma message_start_witness :
  exists e rest st',
    exchange (openaiToClaudeResponse (fun _ => NaN)) exampleChunks (mkState [] [])
    = inr (e :: rest, st')
    /\ isStart e = true /\ Forall (fun e => isStart e = false) rest.
Proof.
  StreamInvariants.computed E. eexists _, _, _. split; [exact E|].
  exact (message_start_opens_the_exchange (fun _ => NaN) exampleChunks (mkState [] [])
           _ _ E).
Defined.

Lemma content_blocks_numbered_witness :
  exists out st',
    exchange (openaiToClaudeResponse (fun _ => NaN)) exampleChunks (mkState [] [])
    = inr (out, st')
    /\ openedBlocks out = [ int 0; int 1; int 2 ].
Proof.
  StreamInvariants.computed E. eexists _, _. split; [exact E|].
  exact (content_blocks_numbered_from_zero (fun _ => NaN) exampleChunks (mkState [] [])
           _ _ eq_refl E).
Defined.

Lemma finish_reason_witness :
  let st := mkState [ ("messageStartSent", VBool true); ("nextBlockIndex", int 1) ]
                    [ (int 0, VObj [ ("id", VStr "call_1"); ("name", VStr "lookup");
                                     ("blockIndex", int 0) ]) ] in
  exists r st' events,
    openaiToClaudeResponse (fun _ => NaN) 4000 (deltaChunk [] (VStr "tool_calls")) st
    = inr (r, st')
    /\ chunks_of r
       = events
         ++ map (fun entry : value * value => blockStop (getq "blockIndex" (snd entry)))
                (toolCalls st')
         ++ [ VObj [ ("type", VStr "message_delta");
                     ("delta", VObj [ ("stop_reason", VStr "tool_use") ]);
                     ("usage", VObj [ ("output_tokens", int 0) ]) ];
              VObj [ ("type", VStr "message_stop") ] ].
Proof.
  intros st.
  destruct (openaiToClaudeResponse (fun _ => NaN) 4000 (deltaChunk [] (VStr "tool_calls")) st)
    as [e | [r st']] eqn:E; [vm_compute in E; discriminate E|].
  destruct (finish_reason_ends_the_message (fun _ => NaN) 4000
              (deltaChunk [] (VStr "tool_calls")) st r st' eq_refl E)
    as (events & Hevents).
  exists r, st', events. split; [reflexivity | exact Hevents].
Defined.

Lemma unannounced_arguments_witness :
  let tc := VObj [ ("index", int 2);
                   ("function", VObj [ ("arguments", VStr "{") ]) ] in
  let acc := (mkState [ ("messageStartSent", VBool true) ]
                      [ (int 0, VObj [ ("id", VStr "call_1"); ("name", VStr "lookup");
                                       ("blockIndex", int 0) ]) ], @nil value) in
  toolCallDelta (fun _ => NaN) acc tc = inr acc.
Proof.
  intros tc acc.
  apply (unannounced_arguments_dropped (fun _ => NaN) acc tc); reflexivity.
Defined.

End ReverseStream.

(** ** The Gemini stream to OpenAI chunks *)

Module GeminiStream.
Import Gemini.

Section Response.
Variable str_num : string -> num.
Variable JSON_stringify : value -> string.

Abbreviation responding := (geminiToOpenAIResponse str_num JSON_stringify).

(** The stages of [geminiToOpenAIResponse] after its guards: the opening
    chunk, the parts, the finish reason. *)
Definition opening (now : Z) (response : value) (st : state) : state * list value :=
  if negb (truthy (sget "messageId" st)) then
    let st := sset "messageId"
                (or_else (getq "responseId" response)
                   (VStr ("msg_" ++ string_of_Z now)%string)) st in
    let st := sset "model" (or_else (getq "modelVersion" response) (VStr "gemini")) st in
    let st := sset "functionIndex" (int 0) st in
    (st, [ geminiChunk now st (VObj [ ("role", VStr "assistant") ]) VNull ])
  else (st, []).

Definition parts (now : Z) (content : value) (acc : state * list value)
  : result (state * list value) :=
  if truthy (getq "parts" content) then
    ps <- iter (getq "parts" content) ;;
    foldM (partChunks str_num JSON_stringify now) ps acc
  else ret acc.

Definition finishReasonFor (reason : string) (st : state) : string :=
  if String.eqb (toLowerCase reason) "stop"
     && match toolCalls st with [] => false | _ => true end
  then "tool_calls" else toLowerCase reason.

Definition finishing (now : Z) (candidate : value) (acc : state * list value)
  : result (state * list value) :=
  if truthy (getq "finishReason" candidate) then
    reason <- OpenAIRequest.as_string (getq "finishReason" candidate) ;;
    let finishReason := finishReasonFor reason (fst acc) in
    ret (sset "finishReason" (VStr finishReason) (fst acc),
         snd acc ++ [ geminiChunk now (fst acc) (VObj []) (VStr finishReason) ])
  else ret acc.

Definition usageOf (response chunk : value) : value :=
  or_else (getq "usageMetadata" response) (getq "usageMetadata" chunk).

Definition recordUsage (usage : value) (st : state) : state :=
  if truthy usage then
    let promptTokens :=
      add (or_else (getq "promptTokenCount" usage) (int 0))
          (or_else (getq "thoughtsTokenCount" usage) (int 0)) in
    sset "usage"
      (VObj ([ ("prompt_tokens", promptTokens);
               ("completion_tokens", or_else (getq "candidatesTokenCount" usage) (int 0));
               ("total_tokens", or_else (getq "totalTokenCount" usage) (int 0)) ]
             ++ (if positive str_num (getq "thoughtsTokenCount" usage)
                 then [ ("completion_tokens_details",
                         VObj [ ("reasoning_tokens",
                                 getq "thoughtsTokenCount" usage) ]) ]
                 else [])))
      st
  else st.

Lemma responding_stages now chunk st :
  responding now chunk st
  = if negb (truthy chunk) then ret (VNull, st) else
    let response := or_else (getq "response" chunk) chunk in
    if negb (truthy response) || negb (truthy (first (getq "candidates" response)))
    then ret (VNull, st) else
    let candidate := first (getq "candidates" response) in
    acc <- parts now (getq "content" candidate) (opening now response st) ;;
    acc <- finishing now candidate acc ;;
    ret (emit (snd acc), recordUsage (usageOf response chunk) (fst acc)).
Proof. reflexivity. Qed.

(** *** The finish reason *)

Lemma falsy_has_no_field k v s : truthy v = false -> getq k v <> VStr s.
Proof.
  destruct v as [| |b|n|t|l|fs|i]; intros T; try discriminate T;
    unfold getq, get, ret, throw; try discriminate.
  - intros H. pose proof (is_str_inherited k s) as E. rewrite H in E.
    cbn in E. now rewrite String.eqb_refl in E.
  - intros H. pose proof (is_str_inherited k s) as E. rewrite H in E.
    cbn in E. now rewrite String.eqb_refl in E.
  - destruct (String.eqb k "length"); [discriminate|].
    intros H. pose proof (is_str_inherited k s) as E. rewrite H in E.
    cbn in E. now rewrite String.eqb_refl in E.
Qed.

Lemma recordUsage_keeps usage st k :
  String.eqb k "usage" = false -> sget k (recordUsage usage st) = sget k st.
Proof.
  intros Hk. unfold recordUsage. destruct (truthy usage); [|reflexivity].
  now rewrite sget_sset_other.
Qed.

Lemma recordUsage_toolCalls usage st : toolCalls (recordUsage usage st) = toolCalls st.
Proof. unfold recordUsage. now destruct (truthy usage). Qed.

(** X12. The chunk that carries the finish reason is the last of its
    call, and its reason is the provider's in lower case, except that
    stop becomes tool_calls when the exchange has recorded a tool call;
    the state records the same reason. *)
Theorem finish_reason_of_candidate now chunk st r st' reason :
  getq "finishReason"
    (first (getq "candidates" (or_else (getq "response" chunk) chunk))) = VStr reason ->
  reason <> "" ->
  responding now chunk st = inr (r, st') ->
  exists chunks last,
    chunks_of r = chunks ++ [last]
    /\ finishReasonOf last = VStr (finishReasonFor reason st')
    /\ sget "finishReason" st' = VStr (finishReasonFor reason st').
Proof.
  intros Hreason Hne. rewrite responding_stages. cbv zeta.
  set (response := or_else (getq "response" chunk) chunk) in *.
  set (candidate := first (getq "candidates" response)) in *.
  destruct (truthy chunk) eqn:T.
  2:{ exfalso. assert (Hc : truthy candidate = false).
      { unfold candidate, response.
        destruct chunk as [| |b|n|t|l|fs|i]; try discriminate T; reflexivity. }
      exact (falsy_has_no_field _ _ _ Hc Hreason). }
  cbn [negb].
  destruct (truthy candidate) eqn:C.
  2:{ exfalso. exact (falsy_has_no_field _ _ _ C Hreason). }
  cbn [negb]. rewrite orb_false_r.
  assert (Hr : truthy response = true).
  { destruct (truthy response) eqn:R; [reflexivity|]. exfalso.
    apply (falsy_has_no_field "finishReason" candidate reason); [|exact Hreason].
    unfold candidate. clear -R.
    destruct response as [| |b|n|t|l|fs|i]; try discriminate R; reflexivity. }
  rewrite Hr. cbn [negb].
  destruct (parts now _ _) as [e|acc]; [discriminate|]. cbn [bind].
  unfold finishing. rewrite Hreason.
  assert (Ht : truthy (VStr reason) = true).
  { cbn. apply negb_true_iff, String.eqb_neq, Hne. }
  rewrite Ht. cbn [OpenAIRequest.as_string bind ret fst snd].
  intros [= <- <-]. exists (snd acc), (geminiChunk now (fst acc) (VObj []) (VStr (finishReasonFor reason (fst acc)))).
  assert (Hfor : finishReasonFor reason
                   (recordUsage (usageOf response chunk)
                      (sset "finishReason" (VStr (finishReasonFor reason (fst acc))) (fst acc)))
                 = finishReasonFor reason (fst acc)).
  { unfold finishReasonFor. now rewrite recordUsage_toolCalls. }
  rewrite Hfor. split; [|split].
  - now destruct (snd acc).
  - reflexivity.
  - rewrite recordUsage_keeps by reflexivity. apply sget_sset_same.
Qed.

(** *** The opening chunk *)

Definition hasRole (c : value) : bool :=
  is_str (getq "role" (getq "delta" (first (getq "choices" c)))) "assistant".

Definition opened (st : state) : Prop := truthy (sget "messageId" st) = true.

(** The results grow by chunks that carry no role. *)
Definition quietly (acc acc' : state * list value) : Prop :=
  (opened (fst acc) -> opened (fst acc'))
  /\ exists chunks, snd acc' = snd acc ++ chunks
                    /\ Forall (fun c => hasRole c = false) chunks.

Lemma quietly_refl acc : quietly acc acc.
Proof. split; [auto|]. exists []. now rewrite app_nil_r. Qed.

Lemma quietly_trans a b c : quietly a b -> quietly b c -> quietly a c.
Proof.
  intros (H1 & l1 & E1 & Q1) (H2 & l2 & E2 & Q2). split; [auto|].
  exists (l1 ++ l2). rewrite E2, E1, app_assoc. split; [reflexivity|].
  apply Forall_app. now split.
Qed.

Lemma quietly_chunk now st st0 results delta fr :
  is_str (getq "role" delta) "assistant" = false ->
  quietly (st, results) (st, results ++ [geminiChunk now st0 delta fr]).
Proof.
  intros H. split; [auto|]. eexists. split; [reflexivity|].
  constructor; [exact H | constructor].
Qed.

Lemma opened_sset st k v :
  String.eqb "messageId" k = false -> opened st -> opened (sset k v st).
Proof. unfold opened. intros Hk H. now rewrite sget_sset_other. Qed.

Lemma functionCallChunk_quietly now acc fc :
  quietly acc (functionCallChunk str_num JSON_stringify now acc fc).
Proof.
  destruct acc as [st results]. unfold functionCallChunk, ClaudeStream.post_incr.
  cbv zeta. split.
  - cbn [fst]. intros H. change (opened (with_toolCalls ?m ?s)) with (opened s).
    now apply opened_sset.
  - eexists. split; [reflexivity|]. now repeat constructor.
Qed.

Lemma partChunks_quietly now acc part acc' :
  partChunks str_num JSON_stringify now acc part = inr acc' -> quietly acc acc'.
Proof.
  unfold partChunks. destruct (get "thoughtSignature" part) as [e|sig]; [discriminate|].
  cbn [bind]. cbv zeta.
  set (text := getq "text" part).
  assert (Htext : forall thought : bool,
            quietly acc
              (if negb (is_undef text) && negb (is_str text "")
               then (fst acc,
                     snd acc ++ [ geminiChunk now (fst acc)
                                    (VObj [ (if thought then "reasoning_content"
                                             else "content", text) ]) VNull ])
               else acc)).
  { intros thought. destruct (negb (is_undef text) && negb (is_str text ""));
      [|apply quietly_refl].
    destruct acc as [st results]. apply quietly_chunk. now destruct thought. }
  assert (Hcall : forall a, quietly a
            (if truthy (getq "functionCall" part)
             then functionCallChunk str_num JSON_stringify now a (getq "functionCall" part)
             else a)).
  { intros a. destruct (truthy (getq "functionCall" part));
      [apply functionCallChunk_quietly | apply quietly_refl]. }
  destruct (truthy (or_else sig (getq "thought_signature" part))).
  - intros [= <-]. eapply quietly_trans; [|apply Hcall].
    apply (Htext (match getq "thought" part with VBool true => true | _ => false end)).
  - match goal with
    | |- (if ?c then _ else _) = _ -> _ => destruct c
    end; intros [= <-].
    + eapply quietly_trans; [apply (Htext false)|].
      eapply quietly_trans; [apply Hcall|].
      match goal with
      | |- quietly ?a _ => destruct a as [s l]
      end. cbn [fst snd]. now apply quietly_chunk.
    + eapply quietly_trans; [apply (Htext false) | apply Hcall].
Qed.

Lemma parts_quietly now content acc acc' :
  parts now content acc = inr acc' -> quietly acc acc'.
Proof.
  unfold parts. destruct (truthy (getq "parts" content));
    [|intros [= <-]; apply quietly_refl].
  destruct (iter (getq "parts" content)) as [e|ps]; [discriminate|]. cbn [bind].
  apply ReverseStream.foldM_keeps; [|apply quietly_refl].
  intros s x s' Hs Hx. eapply quietly_trans; [exact Hs|].
  exact (partChunks_quietly _ _ _ _ Hx).
Qed.

Lemma finishing_quietly now candidate acc acc' :
  finishing now candidate acc = inr acc' -> quietly acc acc'.
Proof.
  unfold finishing. destruct (truthy (getq "finishReason" candidate));
    [|intros [= <-]; apply quietly_refl].
  destruct (OpenAIRequest.as_string _) as [e|reason]; [discriminate|].
  cbn [bind ret]. intros [= <-]. split.
  - cbn [fst]. intros H. now apply opened_sset.
  - eexists. split; [reflexivity|]. now repeat constructor.
Qed.

Lemma opening_opens now response st :
  opened (sset "functionIndex" (int 0)
            (sset "model" (or_else (getq "modelVersion" response) (VStr "gemini"))
               (sset "messageId"
                  (or_else (getq "responseId" response)
                     (VStr ("msg_" ++ string_of_Z now)%string)) st))).
Proof.
  unfold opened. rewrite !sget_sset_other by reflexivity. rewrite sget_sset_same.
  unfold or_else. destruct (truthy (getq "responseId" response)) eqn:T;
    [exact T | reflexivity].
Qed.

(** A call that goes beyond its guards: the opening, then chunks
    without a role. *)
Lemma call_quietly now chunk st r st' :
  responding now chunk st = inr (r, st') ->
  (r = VNull /\ st' = st)
  \/ exists response st1 results,
       quietly (opening now response st) (st1, results)
       /\ r = emit results
       /\ (opened st1 -> opened st').
Proof.
  rewrite responding_stages. cbv zeta.
  destruct (negb (truthy chunk)); [intros [= <- <-]; now left|].
  destruct (negb (truthy _) || negb (truthy _)); [intros [= <- <-]; now left|].
  destruct (parts now _ _) as [e|acc] eqn:E1; [discriminate|]. cbn [bind].
  destruct (finishing now _ acc) as [e|acc2] eqn:E2; [discriminate|]. cbn [bind ret].
  intros [= <- <-]. right. exists (or_else (getq "response" chunk) chunk), (fst acc2), (snd acc2).
  split; [|split; [reflexivity|]].
  - eapply quietly_trans; [exact (parts_quietly _ _ _ _ E1)|].
    destruct acc2. exact (finishing_quietly _ _ _ _ E2).
  - unfold recordUsage. destruct (truthy (usageOf _ _)); [|auto].
    intros H. now apply opened_sset.
Qed.

Lemma call_after_opening now chunk st r st' :
  opened st -> responding now chunk st = inr (r, st') ->
  opened st' /\ Forall (fun c => hasRole c = false) (chunks_of r).
Proof.
  intros Hs H.
  destruct (call_quietly _ _ _ _ _ H) as [[-> ->]|(response & st1 & results & Hq & -> & Hst)].
  - split; [exact Hs | constructor].
  - unfold opening in Hq. unfold opened in Hs. rewrite Hs in Hq. cbn [negb] in Hq.
    destruct Hq as (Ho & chunks & E & Hc). cbn [fst snd app] in *. subst results.
    split; [apply Hst, Ho, Hs|]. now rewrite ReverseStream.chunks_of_emit.
Qed.

(** X13. The chunk with the role opens the exchange and goes out once:
    on a state that has no message id yet, the first chunk that an
    exchange emits carries the role assistant and no later chunk carries
    a role; on a state that has one, no chunk carries a role. *)
Theorem role_chunk_opens_the_exchange chunks st out st' :
  exchange responding chunks st = inr (out, st') ->
  if truthy (sget "messageId" st)
  then Forall (fun c => hasRole c = false) out
  else match out with
       | [] => True
       | c :: rest => hasRole c = true /\ Forall (fun c => hasRole c = false) rest
       end.
Proof.
  assert (Hafter : forall chunks st out st',
            opened st -> exchange responding chunks st = inr (out, st') ->
            Forall (fun c => hasRole c = false) out).
  { intros cs s o s' Hs Hrun.
    destruct (StreamInvariants.exchange_invariant responding
                (fun _ => true) opened (fun c => hasRole c = false))
      with (evs := cs) (st := s) (out := o) (st' := s') as [_ Hall]; try assumption.
    - intros n c s0 r s1 _ Hs0 Hstep. exact (call_after_opening _ _ _ _ _ Hs0 Hstep).
    - clear. induction cs; [reflexivity | exact IHcs]. }
  revert st out st'.
  induction chunks as [|[now chunk] chunks IH]; intros st out st' Hrun.
  - injection Hrun as <- <-. destruct (truthy _); constructor.
  - destruct (truthy (sget "messageId" st)) eqn:Hs.
    { exact (Hafter _ _ _ _ Hs Hrun). }
    cbn [exchange] in Hrun.
    destruct (responding now chunk st) as [e|[r st1]] eqn:E; [discriminate Hrun|].
    cbn [bind snd fst] in Hrun.
    destruct (exchange responding chunks st1) as [e|[more st2]] eqn:E';
      [discriminate Hrun|].
    cbn [bind ret fst snd] in Hrun. injection Hrun as <- <-.
    destruct (call_quietly _ _ _ _ _ E)
      as [[-> ->]|(response & s1 & results & Hq & -> & Hst)].
    + cbn [chunks_of app]. specialize (IH _ _ _ E'). now rewrite Hs in IH.
    + unfold opening in Hq. rewrite Hs in Hq. cbn [negb] in Hq. cbv zeta in Hq.
      destruct Hq as (Ho & cs & Eq & Hc). cbn [fst snd app] in *. subst results.
      cbn [emit chunks_of app]. split; [reflexivity|].
      apply Forall_app. split; [exact Hc|].
      apply (Hafter _ _ _ _ (Hst (Ho (opening_opens _ _ _))) E').
Qed.

End Response.
(** *** On an exchange *)

(** Chunks of the Gemini wire format: a text part, then a text part
    with the finish reason. *)
Definition textCandidate (text : string) (more : list (string * value)) : value :=
  VObj [ ("responseId", VStr "resp_1"); ("modelVersion", VStr "gemini-2.5-pro");
         ("candidates",
          VArr [ VObj ([ ("content",
                          VObj [ ("role", VStr "model");
                                 ("parts", VArr [ VObj [ ("text", VStr text) ] ]) ]) ]
                       ++ more) ]) ].

Lemma finish_reason_of_candidate_witness :
  exists r st' chunks last,
    geminiToOpenAIResponse (fun _ => NaN) (fun _ => "{}") 1000
      (textCandidate "Hi" [ ("finishReason", VStr "STOP") ]) (mkState [] [])
    = inr (r, st')
    /\ chunks_of r = chunks ++ [last]
    /\ finishReasonOf last = VStr "stop".
Proof.
  computing (geminiToOpenAIResponse (fun _ => NaN) (fun _ => "{}") 1000
               (textCandidate "Hi" [ ("finishReason", VStr "STOP") ]) (mkState [] [])) E.
  assert (Hreason : "STOP" <> "") by discriminate.
  destruct (finish_reason_of_candidate (fun _ => NaN) (fun _ => "{}") 1000
              (textCandidate "Hi" [ ("finishReason", VStr "STOP") ]) (mkState [] [])
              _ _ "STOP" eq_refl Hreason E)
    as (chunks & last & Hlast & Hfinish & _).
  eexists _, _, chunks, last. split; [exact E|]. split; [exact Hlast | exact Hfinish].
Defined.

Lemma role_chunk_witness :
  exists c rest st',
    exchange (geminiToOpenAIResponse (fun _ => NaN) (fun _ => "{}"))
      [ (1000, textCandidate "Hel" []);
        (2000, textCandidate "lo" [ ("finishReason", VStr "STOP") ]) ] (mkState [] [])
    = inr (c :: rest, st')
    /\ hasRole c = true /\ Forall (fun c => hasRole c = false) rest.
Proof.
  StreamInvariants.computed E. eexists _, _, _. split; [exact E|].
  exact (role_chunk_opens_the_exchange (fun _ => NaN) (fun _ => "{}") _ (mkState [] [])
           _ _ E).
Defined.

End GeminiStream.
(** ** Tool call ids: [ToolName-timestamp-index] *)

Module ToolCallIds.
Import Gemini.

Fixpoint dashless (s : string) : bool :=
  match s with
  | EmptyString => true
  | String c r => negb (Ascii.eqb c "-") && dashless r
  end.

Lemma split_dash_nonempty s : split_dash s <> [].
Proof.
  destruct s as [|c r]; cbn [split_dash]; [discriminate|].
  destruct (Ascii.eqb c "-"); [discriminate|].
  destruct (split_dash r); discriminate.
Qed.

Lemma split_dash_dashless s : dashless s = true -> split_dash s = [s].
Proof.
  induction s as [|c r IH]; [reflexivity|]. cbn [dashless split_dash].
  intros H. apply andb_prop in H as [Hc Hr]. apply negb_true_iff in Hc.
  rewrite Hc, (IH Hr). reflexivity.
Qed.

Lemma split_dash_app a b :
  split_dash (a ++ String "-" b) = split_dash a ++ split_dash b.
Proof.
  induction a as [|c a IH]; [reflexivity|].
  cbn [String.append split_dash]. rewrite IH.
  destruct (Ascii.eqb c "-"); [reflexivity|].
  pose proof (split_dash_nonempty a) as Hne.
  destruct (split_dash a) as [|p ps]; [now elim Hne | reflexivity].
Qed.

Lemma concat_split_dash s : String.concat "-" (split_dash s) = s.
Proof.
  induction s as [|c r IH]; [reflexivity|]. cbn [split_dash].
  pose proof (split_dash_nonempty r) as Hne.
  destruct (Ascii.eqb c "-") eqn:E.
  - apply Ascii.eqb_eq in E. subst c.
    destruct (split_dash r) as [|p ps]; [now elim Hne|].
    cbn [String.concat String.append] in *. now rewrite IH.
  - destruct (split_dash r) as [|p ps]; [now elim Hne|].
    destruct ps as [|q qs]; cbn [String.concat String.append] in *; now rewrite IH.
Qed.

(** The name comes back out of an id built from it: whatever dashes the
    name holds, as long as the two last parts hold none. *)
Lemma nameOfId_built name stamp index :
  dashless stamp = true -> dashless index = true ->
  nameOfId (name ++ "-" ++ stamp ++ "-" ++ index) = name.
Proof.
  intros Hs Hi. unfold nameOfId.
  change (name ++ "-" ++ stamp ++ "-" ++ index)%string
    with (name ++ String "-" (stamp ++ String "-" index))%string.
  rewrite !split_dash_app, (split_dash_dashless _ Hs), (split_dash_dashless _ Hi).
  rewrite !length_app. cbn [List.length].
  replace (2 <? List.length (split_dash name) + (1 + 1))%nat with true.
  2:{ symmetry. apply Nat.ltb_lt. pose proof (split_dash_nonempty name).
      destruct (split_dash name); [congruence | cbn [List.length]; lia]. }
  replace (List.length (split_dash name) + (1 + 1) - 2)%nat
    with (List.length (split_dash name) + 0)%nat by lia.
  rewrite firstn_app_2. cbn [firstn]. rewrite app_nil_r. apply concat_split_dash.
Qed.

(** Decimal numerals hold no dash. *)
Lemma dashless_uint d : dashless (NilZero.string_of_uint d) = true.
Proof.
  assert (H : forall u, dashless (NilEmpty.string_of_uint u) = true).
  { induction u; cbn; auto. }
  destruct d; cbn; auto; apply H.
Qed.

Lemma dashless_string_of_Z z : 0 <= z -> dashless (string_of_Z z) = true.
Proof.
  intros Hz. unfold string_of_Z.
  destruct z as [|p|p]; [reflexivity| |lia].
  cbn [Z.to_int NilZero.string_of_int]. apply dashless_uint.
Qed.

Section Round.
Variable str_num : string -> num.
Variable JSON_stringify : value -> string.

(** X14. The id that the response translator gives a tool call names
    its function to the request translator: a function call [name],
    numbered [k] by the state at clock [now], is recorded in
    [state.toolCalls] under [k] with an id from which
    [idParts.slice(0, -2).join("-")] gives [name] back, whatever dashes
    the name holds. *)
Theorem tool_call_id_names_its_function now st results fc name k :
  getq "name" fc = VStr name ->
  to_number str_num (sget "functionIndex" st) = Fin k ->
  0 <= k -> 0 <= now ->
  exists toolCall id,
    map_get (int k)
      (toolCalls (fst (functionCallChunk str_num JSON_stringify now (st, results) fc)))
    = Some toolCall
    /\ getq "id" toolCall = VStr id
    /\ getq "name" (getq "function" toolCall) = VStr name
    /\ nameOfId id = name.
Proof.
  intros Hname Hk Hk0 Hnow.
  unfold functionCallChunk, ClaudeStream.post_incr. cbv zeta. rewrite Hk, Hname.
  cbn [fst toolCalls with_toolCalls].
  eexists _, _. split.
  { apply map_get_set_same. cbn. apply Z.eqb_refl. }
  split; [reflexivity|]. split; [reflexivity|].
  cbn [to_string]. apply nameOfId_built; now apply dashless_string_of_Z.
Qed.

End Round.
Lemma tool_call_id_witness :
  exists toolCall id,
    map_get (int 0)
      (toolCalls (fst (functionCallChunk (fun _ => NaN) (fun _ => "{}") 1000
                         (mkState [ ("functionIndex", int 0) ] [], [])
                         (VObj [ ("name", VStr "get-current-weather");
                                 ("args", VObj []) ]))))
    = Some toolCall
    /\ getq "id" toolCall = VStr id
    /\ getq "name" (getq "function" toolCall) = VStr "get-current-weather"
    /\ nameOfId id = "get-current-weather".
Proof.
  apply (tool_call_id_names_its_function (fun _ => NaN) (fun _ => "{}") 1000
           (mkState [ ("functionIndex", int 0) ] []) []
           (VObj [ ("name", VStr "get-current-weather"); ("args", VObj []) ])
           "get-current-weather" 0); [reflexivity | reflexivity | lia | lia].
Defined.

End ToolCallIds.

(** ** The request translators of [openai.js] *)

Module ClaudeRequests.
Import OpenAIRequest.

(** *** Image URLs *)

Fixpoint semicolonless (s : string) : bool :=
  match s with
  | EmptyString => true
  | String c r => negb (Ascii.eqb c ";") && semicolonless r
  end.

Lemma prefix_app p r : String.prefix p (p ++ r) = true.
Proof.
  induction p as [|c p IH]; cbn; [now destruct r|].
  destruct (ascii_dec c c) as [_|H]; [exact IH | now elim H].
Qed.

Lemma drop_app p r : drop (String.length p) (p ++ r) = r.
Proof. induction p as [|c p IH]; cbn; [now destruct r | exact IH]. Qed.

Lemma prefix_split p s :
  String.prefix p s = true -> s = (p ++ drop (String.length p) s)%string.
Proof.
  revert s. induction p as [|c p IH]; intros s H; [now destruct s|].
  destruct s as [|b s]; [discriminate H|]. cbn in H.
  destruct (ascii_dec c b) as [->|_]; [|discriminate H].
  cbn. f_equal. now apply IH.
Qed.

Lemma until_semicolon_built m r :
  semicolonless m = true -> until_semicolon (m ++ String ";" r) = (m, String ";" r).
Proof.
  induction m as [|c m IH]; [reflexivity|]. cbn [semicolonless]. intros H.
  apply andb_prop in H as [Hc Hm]. apply negb_true_iff in Hc.
  cbn [String.append until_semicolon]. now rewrite Hc, (IH Hm).
Qed.

Lemma until_semicolon_split s m rest :
  until_semicolon s = (m, rest) ->
  s = (m ++ rest)%string /\ semicolonless m = true.
Proof.
  revert m rest. induction s as [|c s IH]; intros m rest H.
  - injection H as <- <-. now split.
  - cbn [until_semicolon] in H. destruct (Ascii.eqb c ";") eqn:E.
    + injection H as <- <-. now split.
    + destruct (until_semicolon s) as [m' rest'] eqn:E'. injection H as <- <-.
      destruct (IH _ _ eq_refl) as [-> Hm]. split; [reflexivity|].
      cbn [semicolonless]. now rewrite E, Hm.
Qed.

(** What the pattern [^data:([^;]+);base64,(.+)$] accepts: a media type
    that is not empty and holds no semicolon, and a payload that is not
    empty and holds no line terminator. *)
Definition dataUri (url media data : string) : Prop :=
  url = ("data:" ++ media ++ ";base64," ++ data)%string
  /\ media <> "" /\ semicolonless media = true
  /\ data <> "" /\ no_line_terminator data = true.

Lemma match_data_uri_iff url media data :
  match_data_uri url = Some (media, data) <-> dataUri url media data.
Proof.
  unfold match_data_uri, dataUri. split.
  - destruct (String.prefix "data:" url) eqn:P; [|discriminate].
    destruct (until_semicolon (drop 5 url)) as [m rest] eqn:U.
    destruct (negb (String.eqb m "")) eqn:Hm; [|discriminate]. cbn [andb].
    destruct (String.prefix ";base64," rest) eqn:P2; [|discriminate].
    destruct (negb (String.eqb (drop 8 rest) "")) eqn:Hd; [|discriminate]. cbn [andb].
    destruct (no_line_terminator (drop 8 rest)) eqn:L; [|discriminate].
    intros [= <- <-].
    destruct (until_semicolon_split _ _ _ U) as [Hs Hsemi].
    apply prefix_split in P, P2. cbn [String.length] in P, P2.
    apply negb_true_iff, String.eqb_neq in Hm, Hd.
    split; [|now repeat split].
    rewrite P, Hs. rewrite P2 at 1. reflexivity.
  - intros (-> & Hm & Hsemi & Hd & L).
    change ("data:" ++ media ++ ";base64," ++ data)%string
      with ("data:" ++ (media ++ String ";" ("base64," ++ data)))%string.
    rewrite prefix_app.
    rewrite (drop_app "data:").
    rewrite (until_semicolon_built _ _ Hsemi).
    apply String.eqb_neq in Hm, Hd. rewrite Hm. cbn [negb andb].
    change (String ";" ("base64," ++ data))%string with (";base64," ++ data)%string.
    rewrite prefix_app, (drop_app ";base64,"), Hd, L. reflexivity.
Qed.

(** X15. An image part of a user message becomes an image block
    exactly when its URL is a base64 data URI, and the block carries the
    media type and the payload of the URI; an image part with any other
    URL (an http address, a data URI without payload) adds no block. *)
Theorem image_urls_decoded blocks part url :
  getq "type" part = VStr "image_url" ->
  getq "url" (getq "image_url" part) = VStr url ->
  (forall media data,
     dataUri url media data ->
     userPart blocks part
     = inr (blocks ++ [ VObj [ ("type", VStr "image");
                               ("source", VObj [ ("type", VStr "base64");
                                                 ("media_type", VStr media);
                                                 ("data", VStr data) ]) ] ]))
  /\ ((forall media data, ~ dataUri url media data) ->
      userPart blocks part = inr blocks).
Proof.
  intros Hty Hurl.
  assert (Hpart : exists fs, part = VObj fs).
  { apply (getq_str_obj "type" part "image_url"). rewrite Hty. apply is_str_refl. }
  destruct Hpart as [fs ->].
  assert (Himg : nullish (getq "image_url" (VObj fs)) = false).
  { destruct (getq "image_url" (VObj fs)); try reflexivity; discriminate Hurl. }
  assert (Hstep : userPart blocks (VObj fs)
                  = match match_data_uri url with
                    | Some (media, data) =>
                        inr (blocks ++ [ VObj [ ("type", VStr "image");
                                                ("source",
                                                 VObj [ ("type", VStr "base64");
                                                        ("media_type", VStr media);
                                                        ("data", VStr data) ]) ] ])
                    | None => inr blocks
                    end).
  { unfold userPart. cbn [get bind ret].
    change (obj_get fs "type") with (getq "type" (VObj fs)). rewrite Hty.
    cbn [is_str String.eqb Ascii.eqb Bool.eqb andb].
    change (obj_get fs "image_url") with (getq "image_url" (VObj fs)).
    rewrite (get_getq "url" _ Himg), Hurl. cbn [bind as_string ret].
    destruct (match_data_uri url) as [[media data]|]; reflexivity. }
  rewrite Hstep. split.
  - intros media data H. apply match_data_uri_iff in H. now rewrite H.
  - intros H. destruct (match_data_uri url) as [[media data]|] eqn:E; [|reflexivity].
    apply match_data_uri_iff in E. now elim (H media data).
Qed.

(** *** The tool choice *)


Section Claude.
Variable JSON_parse : string -> option value.
Variable CLAUDE_SYSTEM_PROMPT : value.
Variable adjustMaxTokens : value -> value.

Abbreviation toClaude := (openaiToClaude JSON_parse CLAUDE_SYSTEM_PROMPT adjustMaxTokens).
Abbreviation blocksOf := (getContentBlocksFromMessage JSON_parse).
Abbreviation merging := (mergeMessage JSON_parse).

(** The elements of an array. *)
Definition elements (v : value) : list value :=
  match v with VArr l => l | _ => [] end.

Definition isSystem (m : value) : bool := is_str (getq "role" m) "system".

(** The system list that [openaiToClaude] builds from the system
    texts. *)
Definition systemOf (texts : list value) : list value :=
  textBlock CLAUDE_SYSTEM_PROMPT
  :: match texts with
     | [] => []
     | _ => [ VObj [ ("type", VStr "text");
                     ("text", VStr (join newline texts));
                     ("cache_control", VObj [ ("type", VStr "ephemeral");
                                              ("ttl", VStr "1h") ]) ] ]
     end.

(** What a returned request holds, read back from the code. *)
Lemma toClaude_returns model body stream r :
  toClaude model body stream = inr r ->
  exists merged texts tools,
    claudeMessages JSON_parse body = inr (merged, texts)
    /\ match getq "tools" body with
       | VArr ts => exists converted,
                      mapM claudeTool ts = inr converted
                      /\ tools = [ ("tools", VArr (markLastTool converted)) ]
       | _ => tools = []
       end
    /\ getq "messages" r = VArr (map messageValue merged)
    /\ getq "system" r = VArr (systemOf texts)
    /\ getq "tools" r = obj_get tools "tools".
Proof.
  unfold openaiToClaude.
  destruct (get "temperature" body) as [e|temperature]; [discriminate|]. cbn [bind].
  destruct (claudeMessages JSON_parse body) as [e|[merged texts]]; [discriminate|].
  cbn [bind].
  destruct (match getq "tools" body with
            | VArr ts => converted <- mapM claudeTool ts ;;
                         ret [ ("tools", VArr (markLastTool converted)) ]
            | _ => ret []
            end) as [e|tools] eqn:Et; [discriminate|].
  cbn [bind ret]. intros [= <-]. exists merged, texts, tools.
  split; [reflexivity|]. split.
  { destruct (getq "tools" body) as [| |b|n|t|ts|o|i]; try (now injection Et as <-).
    destruct (mapM claudeTool ts) as [e|converted]; [discriminate Et|].
    injection Et as <-. now exists converted. }
  assert (Htools : tools = [] \/ exists v, tools = [ ("tools", v) ]).
  { destruct (getq "tools" body) as [| |b|n|t|ts|o|i]; try (injection Et as <-; now left).
    destruct (mapM claudeTool ts) as [e|converted]; [discriminate Et|].
    injection Et as <-. right. now eexists. }
  destruct (is_undef temperature);
    destruct Htools as [-> | [v ->]];
    destruct (truthy (getq "tool_choice" body)); repeat split; destruct texts; reflexivity.
Qed.

Lemma claudeMessages_returns body merged texts :
  claudeMessages JSON_parse body = inr (merged, texts) ->
  match getq "messages" body with
  | VArr l =>
      foldM systemPart l [] = inr texts
      /\ exists mf,
           foldM merging (filter (fun m => negb (isSystem m)) l) (mkMerge [] None [])
           = inr mf
           /\ merged = fst (markLastAssistant (messages (flushCurrentMessage mf)))
  | _ => merged = [] /\ texts = []
  end.
Proof.
  unfold claudeMessages, getq.
  destruct (get "messages" body) as [e|msgs]; [discriminate|]. cbn [bind].
  destruct msgs as [| |b|n|t|l|o|i]; try (intros [= <- <-]; now split).
  destruct (foldM systemPart l []) as [e|sp]; [discriminate|]. cbn [bind].
  destruct (foldM merging _ _) as [e|mf] eqn:E; [discriminate|]. cbn [bind ret].
  intros [= <- <-]. split; [reflexivity|]. now exists mf.
Qed.

(** *** The system list *)

Lemma systemParts_texts l : forall acc texts,
  foldM systemPart l acc = inr texts ->
  exists ts,
    mapM (fun m => textOf (getq "content" m)) (filter isSystem l) = inr ts
    /\ texts = acc ++ ts.
Proof.
  induction l as [|x l IH]; intros acc texts H.
  - injection H as <-. exists []. now rewrite app_nil_r.
  - cbn [foldM] in H. unfold systemPart at 1 in H. cbn [filter].
    change (isSystem x) with (is_str (getq "role" x) "system").
    destruct (get "role" x) as [e|role] eqn:Er; [discriminate H|].
    assert (Hx : nullish x = false) by (destruct x; try reflexivity; discriminate Er).
    rewrite (get_getq _ _ Hx) in Er. injection Er as <-. cbn [bind] in H.
    destruct (is_str (getq "role" x) "system").
    + rewrite (get_getq _ _ Hx) in H. cbn [bind] in H.
      destruct (textOf (getq "content" x)) as [e|t] eqn:Et; [discriminate H|].
      cbn [bind ret] in H. destruct (IH _ _ H) as (ts & Hts & ->).
      exists (t :: ts). cbn [mapM]. rewrite Et. cbn [bind]. rewrite Hts. cbn [bind ret].
      split; [reflexivity|]. now rewrite <- app_assoc.
    + cbn [bind ret] in H. exact (IH _ _ H).
Qed.

(** X17. The system list of a translated request starts with the
    preamble block, whatever the request holds; the texts of the system
    messages follow in one cached block, joined by newlines in message
    order, and that block is absent when the request has no system
    message (or no message array). *)
Theorem system_list_starts_with_the_preamble model body stream r :
  toClaude model body stream = inr r ->
  exists texts,
    mapM (fun m => textOf (getq "content" m))
         (filter isSystem (elements (getq "messages" body))) = inr texts
    /\ getq "system" r
       = VArr (textBlock CLAUDE_SYSTEM_PROMPT
               :: match texts with
                  | [] => []
                  | _ => [ VObj [ ("type", VStr "text");
                                  ("text", VStr (join newline texts));
                                  ("cache_control",
                                   VObj [ ("type", VStr "ephemeral");
                                          ("ttl", VStr "1h") ]) ] ]
                  end).
Proof.
  intros H. destruct (toClaude_returns _ _ _ _ H) as (merged & texts & tools & Hm & _ & _ & Hs & _).
  apply claudeMessages_returns in Hm.
  destruct (getq "messages" body) as [| |b|n|t|l|o|i];
    try (destruct Hm as [_ ->]; exists []; split; [reflexivity | exact Hs]).
  destruct Hm as [Hsys _]. destruct (systemParts_texts _ _ _ Hsys) as (ts & Hts & ->).
  exists ts. split; [exact Hts | exact Hs].
Qed.

(** *** The merged messages *)

(** The role under which the loop files a message. *)
Definition newRoleOf (msg : value) : string :=
  if is_str (getq "role" msg) "user" || is_str (getq "role" msg) "tool"
  then "user" else "assistant".

(** The blocks of a message in the order in which they leave the loop:
    the tool results, which go out in a message of their own, then the
    others. *)
Definition toolResultsFirst (blocks : list value) : list value :=
  filter (has_type "tool_result") blocks
  ++ filter (fun b => negb (has_type "tool_result" b)) blocks.

(** All the blocks that the loop holds, pushed or pending. *)
Definition held (m : merge) : list value :=
  flat_map snd (messages m) ++ currentParts m.

Definition wellFormed (message : string * list value) : Prop :=
  snd message <> [] /\ (fst message = "user" \/ fst message = "assistant").

Record wellMerged (m : merge) : Prop := {
  wm_messages : Forall wellFormed (messages m);
  wm_role : forall r, currentRole m = Some r -> r = "user" \/ r = "assistant";
  wm_pending : currentParts m <> [] -> currentRole m <> None
}.

Lemma flush_held m :
  wellMerged m ->
  wellMerged (flushCurrentMessage m)
  /\ held (flushCurrentMessage m) = held m
  /\ currentParts (flushCurrentMessage m) = []
  /\ currentRole (flushCurrentMessage m) = currentRole m.
Proof.
  intros [Hm Hr Hp]. unfold flushCurrentMessage, held.
  destruct (currentRole m) as [role|] eqn:Er.
  - destruct (currentParts m) as [|b bs] eqn:Ep.
    + rewrite Ep, Er. repeat split; try assumption; try congruence.
      intros r H. apply Hr. congruence.
    + cbn [messages currentRole currentParts]. repeat split.
      * apply Forall_app. split; [exact Hm|]. constructor; [|constructor].
        split; [discriminate|]. apply Hr. reflexivity.
      * intros r [= <-]. now apply Hr.
      * now intros H.
      * rewrite flat_map_app. cbn. now rewrite !app_nil_r.
  - rewrite Er. destruct (currentParts m) as [|b bs] eqn:Ep.
    + repeat split; try assumption; congruence.
    + exfalso. apply Hp; [discriminate | reflexivity].
Qed.

Lemma newRole_cases (s : bool) :
  (if s then "user" else "assistant") = "user"
  \/ (if s then "user" else "assistant") = "assistant".
Proof. destruct s; auto. Qed.

Lemma filter_nonempty_exists (f : value -> bool) l :
  existsb f l = true -> filter f l <> [].
Proof.
  induction l as [|x l IH]; [discriminate|]. cbn.
  destruct (f x); [discriminate | exact IH].
Qed.

(** One turn of the loop keeps the messages well formed and adds the
    blocks of its message to those held, tool results first. *)
Lemma merging_held m x m' :
  wellMerged m -> merging m x = inr m' ->
  exists bs,
    blocksOf x = inr bs
    /\ wellMerged m'
    /\ held m' = held m ++ toolResultsFirst bs.
Proof.
  intros Hwm. unfold mergeMessage.
  destruct (get "role" x) as [e|role]; [discriminate|]. cbn [bind].
  destruct (blocksOf x) as [e|bs]; [discriminate|]. cbn [bind ret].
  intros H. exists bs. split; [reflexivity|].
  destruct (flush_held m Hwm) as ([Fm Fr Fp] & Fh & Fe & Frole).
  set (newRole := if is_str role "user" || is_str role "tool" then "user" else "assistant")
    in *.
  assert (HnewRole : newRole = "user" \/ newRole = "assistant") by apply newRole_cases.
  unfold toolResultsFirst.
  destruct (existsb (has_type "tool_result") bs) eqn:Etr.
  - injection H as <-.
    pose proof (filter_nonempty_exists _ _ Etr) as Hne.
    destruct (filter (has_type "tool_result") bs) as [|t0 trs] eqn:Ef; [now elim Hne|].
    destruct (filter (fun b => negb (has_type "tool_result" b)) bs) as [|o0 os] eqn:Eo.
    + split.
      * split; cbn [messages currentRole currentParts].
        -- apply Forall_app. split; [exact Fm|]. constructor; [|constructor].
           split; [discriminate | now left].
        -- exact Fr.
        -- exact Fp.
      * unfold held in *. cbn [messages currentRole currentParts].
        rewrite flat_map_app. cbn [flat_map snd]. rewrite app_nil_r, Fe in *.
        rewrite !app_nil_r in *. now rewrite Fh.
    + split.
      * split; cbn [messages currentRole currentParts].
        -- apply Forall_app. split; [exact Fm|]. constructor; [|constructor].
           split; [discriminate | now left].
        -- intros r [= <-]. exact HnewRole.
        -- discriminate.
      * unfold held in *. cbn [messages currentRole currentParts].
        rewrite flat_map_app. cbn [flat_map snd]. rewrite Fe in *.
        rewrite !app_nil_r in *. cbn [app]. rewrite Fh. now rewrite <- app_assoc.
  - assert (Hnone : filter (has_type "tool_result") bs = []).
    { clear -Etr. induction bs as [|b bs IH]; [reflexivity|].
      cbn in *. apply orb_false_elim in Etr as [Hb Hbs]. rewrite Hb. now apply IH. }
    assert (Hall : filter (fun b => negb (has_type "tool_result" b)) bs = bs).
    { clear -Etr. induction bs as [|b bs IH]; [reflexivity|].
      cbn in *. apply orb_false_elim in Etr as [Hb Hbs]. rewrite Hb. cbn.
      f_equal. now apply IH. }
    rewrite Hnone, Hall. cbn [app].
    set (m1 := if match currentRole m with
                  | Some r => negb (String.eqb r newRole)
                  | None => true
                  end
               then mkMerge (messages (flushCurrentMessage m)) (Some newRole)
                      (currentParts (flushCurrentMessage m))
               else m) in *.
    assert (H1 : wellMerged m1 /\ held m1 = held m /\ currentRole m1 <> None).
    { unfold m1. destruct (match currentRole m with
                           | Some r => negb (String.eqb r newRole)
                           | None => true
                           end) eqn:Ec.
      - split; [|split; [|discriminate]].
        + split; cbn [messages currentRole currentParts]; [exact Fm | | discriminate].
          intros r [= <-]. exact HnewRole.
        + unfold held in *. cbn [messages currentParts]. exact Fh.
      - split; [exact Hwm|]. split; [reflexivity|].
        destruct (currentRole m); [discriminate | discriminate Ec]. }
    destruct H1 as ([Mm Mr Mp] & Mh & Mrole).
    set (m2 := mkMerge (messages m1) (currentRole m1) (currentParts m1 ++ bs)) in *.
    assert (H2 : wellMerged m2 /\ held m2 = held m ++ bs).
    { split.
      - split; cbn [messages currentRole currentParts]; [exact Mm | exact Mr|].
        intros _. exact Mrole.
      - unfold held in *. unfold m2. cbn [messages currentParts].
        now rewrite app_assoc, Mh. }
    destruct H2 as (W2 & Hh2).
    destruct (existsb (has_type "tool_use") bs); injection H as <-.
    + destruct (flush_held m2 W2) as (W3 & Hh3 & _). split; [exact W3|]. congruence.
    + now split.
Qed.

Lemma fold_merging_held l : forall m m',
  wellMerged m -> foldM merging l m = inr m' ->
  exists bss,
    mapM blocksOf l = inr bss
    /\ wellMerged m'
    /\ held m' = held m ++ flat_map toolResultsFirst bss.
Proof.
  induction l as [|x l IH]; intros m m' Hwm H.
  - injection H as <-. exists []. split; [reflexivity|]. split; [exact Hwm|].
    cbn [flat_map]. now rewrite app_nil_r.
  - cbn [foldM] in H. destruct (merging m x) as [e|m1] eqn:E; [discriminate H|].
    cbn [bind] in H.
    destruct (merging_held _ _ _ Hwm E) as (bs & Hbs & W1 & H1).
    destruct (IH _ _ W1 H) as (bss & Hbss & W2 & H2).
    exists (bs :: bss). cbn [mapM]. rewrite Hbs. cbn [bind]. rewrite Hbss.
    cbn [bind ret flat_map]. split; [reflexivity|]. split; [exact W2|].
    now rewrite H2, H1, <- app_assoc.
Qed.

Lemma initial_wellMerged : wellMerged (mkMerge [] None []).
Proof. split; cbn; [constructor | discriminate | congruence]. Qed.

(** *** The cache mark on the messages *)

Lemma markLast_last bs b :
  markLast (bs ++ [b]) = bs ++ [markBlock b].
Proof.
  induction bs as [|x bs IH]; [reflexivity|].
  cbn [app]. destruct (bs ++ [b]) as [|y r] eqn:E.
  - now destruct bs.
  - change (markLast (x :: y :: r)) with (x :: markLast (y :: r)). now rewrite IH.
Qed.

(** The loop that marks the last assistant message changes one block
    at most: the last block of one assistant message, which gets the
    mark. *)
Lemma markLastAssistant_one l :
  fst (markLastAssistant l) = l
  \/ exists pre content b post,
       l = pre ++ ("assistant", content ++ [b]) :: post
       /\ fst (markLastAssistant l)
          = pre ++ ("assistant", content ++ [markBlock b]) :: post.
Proof.
  assert (H : if snd (markLastAssistant l)
              then exists pre content b post,
                     l = pre ++ ("assistant", content ++ [b]) :: post
                     /\ fst (markLastAssistant l)
                        = pre ++ ("assistant", content ++ [markBlock b]) :: post
              else fst (markLastAssistant l) = l).
  { induction l as [|[role content] l IH]; [reflexivity|].
    cbn [markLastAssistant].
    destruct (markLastAssistant l) as [l' done]. cbn [fst snd] in IH.
    destruct done; cbn [fst snd].
    - destruct IH as (pre & c & b & post & -> & ->).
      now exists ((role, content) :: pre), c, b, post.
    - subst l'.
      destruct (String.eqb role "assistant"
                && match content with [] => false | _ => true end
                && truthy (last content VUndef)) eqn:E; cbn [fst snd]; [|reflexivity].
      apply andb_prop in E as [E _]. apply andb_prop in E as [Er Ec].
      apply String.eqb_eq in Er. subst role.
      destruct (exists_last (l := content)) as (c & b & ->);
        [now destruct content|].
      exists [], c, b, l. cbn [app]. now rewrite markLast_last. }
  destruct (snd (markLastAssistant l)); [now right | now left].
Qed.

Lemma markBlock_nonempty (l : list value) b : l ++ [markBlock b] <> [].
Proof. now destruct l. Qed.

Lemma wellFormed_marked l :
  Forall wellFormed l -> Forall wellFormed (fst (markLastAssistant l)).
Proof.
  intros H. destruct (markLastAssistant_one l) as [-> | (pre & c & b & post & E & ->)];
    [exact H|].
  rewrite E in H. apply Forall_app in H as [Hpre Hpost].
  inversion Hpost as [|? ? [_ Hrole] Hrest]; subst.
  apply Forall_app. split; [exact Hpre|]. constructor; [|exact Hrest].
  split; [apply markBlock_nonempty | exact Hrole].
Qed.

(** X18. Every message of a translated request has the role user or
    assistant and a content that is not empty: a message that gives no
    block leaves no empty message behind, and the roles system, tool and
    any other are gone. *)
Theorem messages_are_never_empty model body stream r :
  toClaude model body stream = inr r ->
  Forall (fun message =>
            exists role blocks,
              message = VObj [ ("role", VStr role); ("content", VArr blocks) ]
              /\ blocks <> []
              /\ (role = "user" \/ role = "assistant"))
         (elements (getq "messages" r)).
Proof.
  intros H.
  destruct (toClaude_returns _ _ _ _ H) as (merged & texts & tools & Hm & _ & -> & _).
  cbn [elements]. apply claudeMessages_returns in Hm.
  assert (Hw : Forall wellFormed merged).
  { destruct (getq "messages" body) as [| |b|n|t|l|o|i];
      try (destruct Hm as [-> _]; constructor).
    destruct Hm as (_ & mf & Hfold & ->).
    destruct (fold_merging_held _ _ _ initial_wellMerged Hfold) as (bss & _ & W & _).
    destruct (flush_held mf W) as ([Fm _ _] & _).
    now apply wellFormed_marked. }
  clear Hm. induction Hw as [|[role blocks] merged [Hb Hr] _ IH]; [constructor|].
  cbn [map]. constructor; [|exact IH]. now exists role, blocks.
Qed.

(** X19. No content block is lost, doubled or moved past another
    message: the blocks of the translated messages, read in order, are
    the blocks of the request's messages other than system ones, in
    message order and within a message the tool results first; one block
    at most differs, by the cache mark it has received. *)
Theorem blocks_are_conserved model body stream r :
  toClaude model body stream = inr r ->
  exists blocks,
    mapM blocksOf (filter (fun m => negb (isSystem m)) (elements (getq "messages" body)))
    = inr blocks
    /\ let sent := flat_map (fun message => elements (getq "content" message))
                            (elements (getq "messages" r)) in
       let given := flat_map toolResultsFirst blocks in
       sent = given
       \/ exists before b after,
            given = before ++ b :: after /\ sent = before ++ markBlock b :: after.
Proof.
  intros H.
  destruct (toClaude_returns _ _ _ _ H) as (merged & texts & tools & Hm & _ & -> & _).
  cbn [elements]. apply claudeMessages_returns in Hm.
  assert (Hflat : forall l,
            flat_map (fun message => elements (getq "content" message))
                     (map messageValue l)
            = flat_map snd l).
  { induction l as [|[role bs] l IH]; [reflexivity|]. cbn [map flat_map]. now rewrite IH. }
  cbv zeta. rewrite Hflat.
  destruct (getq "messages" body) as [| |b|n|t|l|o|i];
    try (destruct Hm as [-> _]; exists []; split; [reflexivity | now left]).
  destruct Hm as (_ & mf & Hfold & ->). cbn [elements].
  destruct (fold_merging_held _ _ _ initial_wellMerged Hfold) as (bss & Hbss & W & Hh).
  destruct (flush_held mf W) as (_ & Fh & Fe & _).
  exists bss. split; [exact Hbss|].
  assert (Hall : flat_map snd (messages (flushCurrentMessage mf))
                 = flat_map toolResultsFirst bss).
  { unfold held in *. rewrite Fe, app_nil_r in Fh. rewrite Fh, Hh. reflexivity. }
  destruct (markLastAssistant_one (messages (flushCurrentMessage mf)))
    as [-> | (pre & c & b & post & E & ->)]; [now left|].
  right. rewrite E in Hall. rewrite flat_map_app in *. cbn [flat_map snd] in *.
  exists (flat_map snd pre ++ c), b, (flat_map snd post).
  rewrite <- Hall, <- !app_assoc. cbn [app]. now split.
Qed.

(** *** Messages of one role, without tool blocks *)

Definition toolBlock (b : value) : bool :=
  has_type "tool_use" b || has_type "tool_result" b.

Lemma no_tool_block bs :
  forallb (fun b => negb (toolBlock b)) bs = true ->
  existsb (has_type "tool_use") bs = false
  /\ existsb (has_type "tool_result") bs = false.
Proof.
  induction bs as [|b bs IH]; [now split|]. cbn [forallb existsb]. intros H.
  apply andb_prop in H as [Hb Hbs]. destruct (IH Hbs) as [-> ->].
  unfold toolBlock in Hb. apply negb_true_iff, orb_false_elim in Hb as [-> ->].
  now split.
Qed.

(** The loop on messages of the role [role], none with a tool block:
    nothing is pushed, the blocks pile up in the pending parts. *)
Lemma merging_same_role role m x m' :
  messages m = [] ->
  (currentRole m = None /\ currentParts m = [] \/ currentRole m = Some role) ->
  newRoleOf x = role ->
  (forall bs, blocksOf x = inr bs -> forallb (fun b => negb (toolBlock b)) bs = true) ->
  merging m x = inr m' ->
  exists bs,
    blocksOf x = inr bs
    /\ messages m' = [] /\ currentRole m' = Some role
    /\ currentParts m' = currentParts m ++ bs.
Proof.
  intros Hm Hr Hrole Hbs. unfold mergeMessage.
  destruct (get "role" x) as [e|r] eqn:Er; [discriminate|].
  assert (Hx : nullish x = false) by (destruct x; try reflexivity; discriminate Er).
  rewrite (get_getq _ _ Hx) in Er. injection Er as <-. cbn [bind].
  fold (newRoleOf x). rewrite Hrole.
  destruct (blocksOf x) as [e|bs]; [discriminate|]. cbn [bind ret].
  destruct (no_tool_block bs (Hbs bs eq_refl)) as [-> ->].
  intros [= <-]. exists bs. split; [reflexivity|].
  destruct Hr as [[Hn Hp] | Hs].
  - rewrite Hn. unfold flushCurrentMessage. rewrite Hn. cbn [messages currentRole currentParts].
    now repeat split.
  - rewrite Hs, String.eqb_refl. cbn [negb messages currentRole currentParts].
    now repeat split.
Qed.

Lemma fold_same_role role l : forall m m',
  messages m = [] ->
  (currentRole m = None /\ currentParts m = [] \/ currentRole m = Some role) ->
  Forall (fun x => newRoleOf x = role
                   /\ forall bs, blocksOf x = inr bs ->
                                 forallb (fun b => negb (toolBlock b)) bs = true) l ->
  foldM merging l m = inr m' ->
  exists bss,
    mapM blocksOf l = inr bss
    /\ messages m' = []
    /\ (currentRole m' = None /\ currentParts m' = [] \/ currentRole m' = Some role)
    /\ currentParts m' = currentParts m ++ List.concat bss.
Proof.
  induction l as [|x l IH]; intros m m' Hm Hr Hall H.
  - injection H as <-. exists []. cbn [mapM List.concat]. rewrite app_nil_r. now repeat split.
  - inversion Hall as [|? ? [Hrole Hbs] Hall']; subst.
    cbn [foldM] in H. destruct (merging m x) as [e|m1] eqn:E; [discriminate H|].
    cbn [bind] in H.
    destruct (merging_same_role _ _ _ _ Hm Hr eq_refl Hbs E) as (bs & Hb & M1 & R1 & P1).
    destruct (IH _ _ M1 (or_intror R1) Hall' H) as (bss & Hbss & M2 & R2 & P2).
    exists (bs :: bss). cbn [mapM]. rewrite Hb. cbn [bind]. rewrite Hbss.
    cbn [bind ret List.concat]. split; [reflexivity|]. split; [exact M2|]. split; [exact R2|].
    now rewrite P2, P1, <- app_assoc.
Qed.

(** X20. Messages of one role merge into one: when the messages of the
    request other than system ones are all filed under the same role
    and none of them gives a tool-use or tool-result block, the
    translated request holds one message, of that role and with all
    their blocks in order (with the cache mark on its last block when it
    is an assistant message), or no message when there is no block. *)
Theorem same_role_messages_merge model body stream r role l :
  getq "messages" body = VArr l ->
  Forall (fun x => newRoleOf x = role
                   /\ forall bs, blocksOf x = inr bs ->
                                 forallb (fun b => negb (toolBlock b)) bs = true)
         (filter (fun m => negb (isSystem m)) l) ->
  toClaude model body stream = inr r ->
  exists blocks,
    mapM blocksOf (filter (fun m => negb (isSystem m)) l) = inr blocks
    /\ getq "messages" r
       = VArr (map messageValue
                 (fst (markLastAssistant
                         match List.concat blocks with
                         | [] => []
                         | bs => [ (role, bs) ]
                         end))).
Proof.
  intros Hl Hall H.
  destruct (toClaude_returns _ _ _ _ H) as (merged & texts & tools & Hm & _ & -> & _).
  apply claudeMessages_returns in Hm. rewrite Hl in Hm.
  destruct Hm as (_ & mf & Hfold & ->).
  destruct (fold_same_role role _ (mkMerge [] None []) mf eq_refl
              (or_introl (conj eq_refl eq_refl)) Hall Hfold)
    as (bss & Hbss & M & R & P).
  exists bss. split; [exact Hbss|]. cbn [currentParts app] in P.
  do 3 f_equal. unfold flushCurrentMessage. rewrite P, M.
  destruct R as [[Rn Rp] | Rs].
  - rewrite Rn. rewrite P in Rp. now rewrite M, Rp.
  - rewrite Rs. destruct (List.concat bss); cbn [messages]; rewrite ?M; reflexivity.
Qed.

(** *** A message that is null *)

Lemma mapM_throws {A B} (f : A -> result B) l e :
  (forall x e', f x = inl e' -> e' = TypeError) ->
  mapM f l = inl e -> e = TypeError.
Proof.
  intros Hf. revert e. induction l as [|x l IH]; intros e H; [discriminate H|].
  cbn [mapM] in H. destruct (f x) as [e'|y] eqn:E.
  - cbn [bind] in H. injection H as <-. exact (Hf _ _ E).
  - cbn [bind] in H. destruct (mapM f l) as [e'|ys]; [|discriminate H].
    cbn [bind] in H. injection H as <-. now apply IH.
Qed.

Lemma get_throws k v e : get k v = inl e -> e = TypeError.
Proof. destruct v; cbn; intros H; try discriminate H; now injection H as <-. Qed.

Lemma systemPart_throws acc x e : systemPart acc x = inl e -> e = TypeError.
Proof.
  unfold systemPart. destruct (get "role" x) as [e'|role] eqn:Er.
  { cbn [bind]. intros [= <-]. exact (get_throws _ _ _ Er). }
  cbn [bind]. destruct (is_str role "system"); [|discriminate].
  destruct (get "content" x) as [e'|content] eqn:Ec.
  { cbn [bind]. intros [= <-]. exact (get_throws _ _ _ Ec). }
  cbn [bind]. unfold textOf. destruct (is_string content); [discriminate|].
  unfold OpenAIRequest.extractTextContent.
  destruct content as [| |b|n|t|l|o|i]; try discriminate.
  destruct (mapM _ l) as [e'|tagged] eqn:Em; [|discriminate].
  cbn [bind]. intros [= <-]. revert Em. apply mapM_throws.
  intros c e1 Hc. destruct (get "type" c) as [e2|ty] eqn:Et; [|discriminate Hc].
  cbn [bind] in Hc. injection Hc as <-. exact (get_throws _ _ _ Et).
Qed.

Lemma fold_systemPart_null m l :
  In m l -> nullish m = true -> forall acc, foldM systemPart l acc = inl TypeError.
Proof.
  intros Hin Hm. induction l as [|x l IH]; intros acc; [now elim Hin|].
  cbn [foldM]. destruct (systemPart acc x) as [e|acc'] eqn:E.
  - cbn [bind]. now rewrite (systemPart_throws _ _ _ E).
  - cbn [bind]. destruct Hin as [-> | Hin]; [|now apply IH].
    exfalso. unfold systemPart in E. destruct m; try discriminate Hm; discriminate E.
Qed.

(** X21. A message that is null or undefined makes the translation
    throw: on a request whose message array holds such an entry,
    [openaiToClaude] raises a TypeError, wherever the entry stands and
    whatever the other messages are. *)
Theorem null_message_is_a_type_error model body stream l m :
  getq "messages" body = VArr l ->
  In m l -> nullish m = true ->
  toClaude model body stream = inl TypeError.
Proof.
  intros Hl Hin Hm.
  assert (Hbody : nullish body = false) by (destruct body; try reflexivity; discriminate Hl).
  unfold openaiToClaude, claudeMessages.
  rewrite !(get_getq _ _ Hbody), Hl. cbn [bind].
  now rewrite (fold_systemPart_null m l Hin Hm).
Qed.

(** *** The tools *)

(** [tool.type === "function" && tool.function ? tool.function : tool] *)
Definition toolDataOf (tool : value) : value :=
  if is_str (getq "type" tool) "function" && truthy (getq "function" tool)
  then getq "function" tool else tool.

Definition cacheMark : value :=
  VObj [ ("type", VStr "ephemeral"); ("ttl", VStr "1h") ].

Definition convertedTool (tool converted : value) : Prop :=
  exists fs,
    converted = VObj fs
    /\ obj_get fs "name" = getq "name" (toolDataOf tool)
    /\ truthy (obj_get fs "input_schema") = true
    /\ obj_get fs "cache_control" = VUndef.

Lemma claudeTool_converted tool converted :
  claudeTool tool = inr converted -> convertedTool tool converted.
Proof.
  unfold claudeTool. destruct (get "type" tool) as [e|ty] eqn:Et; [discriminate|].
  assert (Ht : nullish tool = false) by (destruct tool; try reflexivity; discriminate Et).
  rewrite (get_getq _ _ Ht) in Et. injection Et as <-. cbn [bind ret].
  fold (toolDataOf tool). intros [= <-]. eexists. split; [reflexivity|].
  split; [reflexivity|]. split; [|reflexivity].
  change (obj_get _ "input_schema")
    with (or_else (getq "parameters" (toolDataOf tool))
            (or_else (getq "input_schema" (toolDataOf tool))
               (VObj [ ("type", VStr "object");
                       ("properties", VObj []);
                       ("required", VArr []) ]))).
  unfold or_else.
  destruct (truthy (getq "parameters" (toolDataOf tool))) eqn:T1; [exact T1|].
  destruct (truthy (getq "input_schema" (toolDataOf tool))) eqn:T2; [exact T2|].
  reflexivity.
Qed.

Lemma mapM_Forall2 {A B} (f : A -> result B) (R : A -> B -> Prop) l :
  (forall x y, f x = inr y -> R x y) ->
  forall ys, mapM f l = inr ys -> Forall2 R l ys.
Proof.
  intros Hf. induction l as [|x l IH]; intros ys H.
  - injection H as <-. constructor.
  - cbn [mapM] in H. destruct (f x) as [e|y] eqn:E; [discriminate H|].
    cbn [bind] in H. destruct (mapM f l) as [e|rest]; [discriminate H|].
    cbn [bind ret] in H. injection H as <-. constructor; [now apply Hf | now apply IH].
Qed.

Lemma markLastTool_last l fs :
  markLastTool (l ++ [VObj fs])
  = l ++ [VObj (set_field "cache_control" cacheMark fs)].
Proof.
  induction l as [|x l IH]; [reflexivity|].
  cbn [app]. destruct (l ++ [VObj fs]) as [|y r] eqn:E.
  - now destruct l.
  - cbn [markLastTool]. rewrite <- IH. now destruct x.
Qed.

(** X22. Every tool of the request is converted, in order: the
    translated tool has the name of the OpenAI function (or of the tool
    itself, in the direct format) and an input schema that is never
    missing; the last tool, and only the last, carries the cache mark. A
    request without a tool array gives a request without [tools]. *)
Theorem tools_are_converted model body stream r :
  toClaude model body stream = inr r ->
  match getq "tools" body with
  | VArr tools =>
      exists converted,
        getq "tools" r = VArr converted
        /\ Forall2 (fun tool c =>
                      getq "name" c = getq "name" (toolDataOf tool)
                      /\ truthy (getq "input_schema" c) = true) tools converted
        /\ map (getq "cache_control") converted
           = match tools with
             | [] => []
             | _ => repeat VUndef (List.length tools - 1) ++ [cacheMark]
             end
  | _ => getq "tools" r = VUndef
  end.
Proof.
  intros H.
  destruct (toClaude_returns _ _ _ _ H) as (merged & texts & tf & _ & Ht & _ & _ & ->).
  destruct (getq "tools" body) as [| |b|n|t|ts|o|i]; try (now subst tf).
  destruct Ht as (cs & Hcs & ->). change (obj_get _ "tools") with (VArr (markLastTool cs)).
  exists (markLastTool cs). split; [reflexivity|].
  pose proof (mapM_Forall2 _ convertedTool ts claudeTool_converted cs Hcs) as Hall.
  clear Hcs H.
  assert (Hcase : cs = [] \/ exists init c, cs = init ++ [c]).
  { destruct cs as [|c0 cs0]; [now left | right].
    destruct (exists_last (l := c0 :: cs0)) as (init & c & E); [discriminate|].
    now exists init, c. }
  destruct Hcase as [-> | (init & c & ->)].
  { inversion Hall; subst. split; [constructor | reflexivity]. }
  apply Forall2_app_inv_r in Hall as (tinit & tlast & Hinit & Hlast & ->).
  inversion Hlast as [|t ? tl ? (fs & -> & Hn & Hs & Hc) Hnil]; subst.
  inversion Hnil; subst. rewrite markLastTool_last. split.
  - apply Forall2_app.
    + eapply Forall2_impl; [|exact Hinit].
      intros a b (fs' & -> & Hn' & Hs' & _). now split.
    + constructor; [|constructor].
      change (getq ?k (VObj ?f)) with (obj_get f k).
      rewrite !obj_get_set_other by reflexivity. now split.
  - rewrite map_app. cbn [map]. change (getq ?k (VObj ?f)) with (obj_get f k).
    rewrite obj_get_set_same.
    assert (Hmarks : map (getq "cache_control") init = repeat VUndef (List.length tinit)).
    { clear -Hinit. induction Hinit as [|a b ta tb (fs' & -> & _ & _ & Hc') _ IH];
        [reflexivity|].
      cbn [map List.length repeat]. now rewrite IH, <- Hc'. }
    rewrite Hmarks, length_app. cbn [List.length].
    replace (List.length tinit + 1 - 1)%nat with (List.length tinit) by lia.
    now destruct tinit.
Qed.

End Claude.
(** *** On requests *)

Definition exampleClaude : value -> value -> value -> result value :=
  openaiToClaude (fun _ => None) (VStr "preamble") (fun _ => int 1024).

Definition message (role content : string) : value :=
  VObj [ ("role", VStr role); ("content", VStr content) ].

Definition imagePart (url : string) : value :=
  VObj [ ("type", VStr "image_url"); ("image_url", VObj [ ("url", VStr url) ]) ].

Definition functionTool (name : string) : value :=
  VObj [ ("type", VStr "function");
         ("function", VObj [ ("name", VStr name);
                             ("description", VStr "A tool");
                             ("parameters", VObj [ ("type", VStr "object") ]) ]) ].

Lemma image_urls_witness :
  userPart [] (imagePart "data:image/png;base64,iVBORw0KGgo=")
  = inr [ VObj [ ("type", VStr "image");
                 ("source", VObj [ ("type", VStr "base64");
                                   ("media_type", VStr "image/png");
                                   ("data", VStr "iVBORw0KGgo=") ]) ] ]
  /\ userPart [] (imagePart "https://example.com/cat.png") = inr [].
Proof.
  split.
  - apply (proj1 (image_urls_decoded [] (imagePart "data:image/png;base64,iVBORw0KGgo=")
                    "data:image/png;base64,iVBORw0KGgo=" eq_refl eq_refl)
             "image/png" "iVBORw0KGgo=").
    unfold dataUri. repeat split; try reflexivity; discriminate.
  - apply (proj2 (image_urls_decoded [] (imagePart "https://example.com/cat.png")
                    "https://example.com/cat.png" eq_refl eq_refl)).
    intros media data [H _]. discriminate H.
Defined.

Lemma system_list_witness :
  exists r,
    exampleClaude (VStr "claude")
      (VObj [ ("messages", VArr [ message "system" "Be terse."; message "user" "Hi";
                                  message "system" "Be kind." ]) ])
      (VBool true) = inr r
    /\ getq "system" r
       = VArr [ textBlock (VStr "preamble");
                VObj [ ("type", VStr "text");
                       ("text", VStr ("Be terse." ++ newline ++ "Be kind."));
                       ("cache_control",
                        VObj [ ("type", VStr "ephemeral"); ("ttl", VStr "1h") ]) ] ].
Proof.
  computing (exampleClaude (VStr "claude")
               (VObj [ ("messages", VArr [ message "system" "Be terse."; message "user" "Hi";
                                           message "system" "Be kind." ]) ])
               (VBool true)) E.
  destruct (system_list_starts_with_the_preamble _ _ _ _ _ _ _ E) as (texts & Htexts & Hsys).
  vm_compute in Htexts. injection Htexts as <-.
  eexists. split; [exact E | exact Hsys].
Defined.

Lemma messages_never_empty_witness :
  exists r,
    exampleClaude (VStr "claude")
      (VObj [ ("messages", VArr [ message "system" "Be terse."; message "user" "";
                                  message "tool" "sunny"; message "assistant" "Hi" ]) ])
      (VBool true) = inr r
    /\ List.length (elements (getq "messages" r)) = 2%nat
    /\ Forall (fun message =>
                 exists role blocks,
                   message = VObj [ ("role", VStr role); ("content", VArr blocks) ]
                   /\ blocks <> []
                   /\ (role = "user" \/ role = "assistant"))
              (elements (getq "messages" r)).
Proof.
  computing (exampleClaude (VStr "claude")
               (VObj [ ("messages", VArr [ message "system" "Be terse."; message "user" "";
                                           message "tool" "sunny";
                                           message "assistant" "Hi" ]) ])
               (VBool true)) E.
  eexists. split; [exact E|]. split; [reflexivity|].
  exact (messages_are_never_empty _ _ _ _ _ _ _ E).
Defined.

Lemma blocks_conserved_witness :
  exists r blocks,
    exampleClaude (VStr "claude")
      (VObj [ ("messages", VArr [ message "user" "Hi"; message "assistant" "Hello";
                                  message "user" "Bye" ]) ])
      (VBool true) = inr r
    /\ mapM (getContentBlocksFromMessage (fun _ => None))
            [ message "user" "Hi"; message "assistant" "Hello"; message "user" "Bye" ]
       = inr blocks
    /\ let sent := flat_map (fun message => elements (getq "content" message))
                            (elements (getq "messages" r)) in
       let given := flat_map toolResultsFirst blocks in
       sent = given
       \/ exists before b after,
            given = before ++ b :: after /\ sent = before ++ markBlock b :: after.
Proof.
  computing (exampleClaude (VStr "claude")
               (VObj [ ("messages", VArr [ message "user" "Hi"; message "assistant" "Hello";
                                           message "user" "Bye" ]) ])
               (VBool true)) E.
  destruct (blocks_are_conserved _ _ _ _ _ _ _ E) as (blocks & Hblocks & Hsent).
  eexists _, blocks. split; [exact E|]. split; [exact Hblocks | exact Hsent].
Defined.

Definition helloWorld : value :=
  VObj [ ("messages", VArr [ message "user" "Hello"; message "system" "Be terse.";
                             message "user" "World" ]) ].

Lemma same_role_witness :
  exists r,
    exampleClaude (VStr "claude") helloWorld (VBool true) = inr r
    /\ getq "messages" r
       = VArr [ VObj [ ("role", VStr "user");
                       ("content", VArr [ textBlock (VStr "Hello");
                                          textBlock (VStr "World") ]) ] ].
Proof.
  computing (exampleClaude (VStr "claude") helloWorld (VBool true)) E.
  match type of E with
  | _ = inr ?r =>
      destruct (same_role_messages_merge (fun _ => None) (VStr "preamble")
                  (fun _ => int 1024) (VStr "claude") helloWorld (VBool true) r "user"
                  [ message "user" "Hello"; message "system" "Be terse.";
                    message "user" "World" ] eq_refl)
        as (blocks & Hblocks & Hmessages)
  end.
  - repeat constructor; intros bs H; vm_compute in H; injection H as <-; reflexivity.
  - exact E.
  - vm_compute in Hblocks. injection Hblocks as <-.
    eexists. split; [exact E | exact Hmessages].
Defined.

Lemma null_message_witness :
  exampleClaude (VStr "claude")
    (VObj [ ("messages", VArr [ message "user" "Hi"; VNull ]) ]) (VBool true)
  = inl TypeError.
Proof.
  apply (null_message_is_a_type_error (fun _ => None) (VStr "preamble") (fun _ => int 1024)
           (VStr "claude") _ (VBool true) [ message "user" "Hi"; VNull ] VNull).
  - reflexivity.
  - right. left. reflexivity.
  - reflexivity.
Defined.

Lemma tools_converted_witness :
  exists r converted,
    exampleClaude (VStr "claude")
      (VObj [ ("messages", VArr [ message "user" "Hi" ]);
              ("tools", VArr [ functionTool "lookup"; functionTool "search" ]) ])
      (VBool true) = inr r
    /\ getq "tools" r = VArr converted
    /\ map (getq "name") converted = [ VStr "lookup"; VStr "search" ]
    /\ map (getq "cache_control") converted = [ VUndef; cacheMark ].
Proof.
  computing (exampleClaude (VStr "claude")
               (VObj [ ("messages", VArr [ message "user" "Hi" ]);
                       ("tools", VArr [ functionTool "lookup"; functionTool "search" ]) ])
               (VBool true)) E.
  destruct (tools_are_converted _ _ _ _ _ _ _ E) as (converted & Htools & _ & Hmarks).
  vm_compute in Htools. injection Htools as <-.
  eexists _, _. split; [exact E|]. split; [reflexivity|]. split; [reflexivity | exact Hmarks].
Defined.

End ClaudeRequests.

(** ** The Gemini request translators *)

Module GeminiRequests.
Import Gemini.

Section Requests.
Variable DEFAULT_THINKING_GEMINI_SIGNATURE : value.
Variable DEFAULT_SAFETY_SETTINGS : value.
Variable convertOpenAIContentToParts : value -> result (list value).
Variable extractTextContent : value -> result value.
Variable tryParseJSON : value -> value.
Variable cleanJSONSchemaForAntigravity : value -> result value.

Abbreviation toGemini :=
  (openaiToGeminiBase DEFAULT_THINKING_GEMINI_SIGNATURE DEFAULT_SAFETY_SETTINGS
     convertOpenAIContentToParts extractTextContent tryParseJSON).
Abbreviation toGeminiCLI :=
  (openaiToGeminiCLI DEFAULT_THINKING_GEMINI_SIGNATURE DEFAULT_SAFETY_SETTINGS
     convertOpenAIContentToParts extractTextContent tryParseJSON
     cleanJSONSchemaForAntigravity).
Abbreviation converting :=
  (convertMessage DEFAULT_THINKING_GEMINI_SIGNATURE convertOpenAIContentToParts
     extractTextContent tryParseJSON).

(** *** The content entries *)

Definition filled (entry : value) : Prop :=
  exists role parts,
    entry = VObj [ ("role", VStr role); ("parts", VArr parts) ]
    /\ parts <> []
    /\ (role = "user" \/ role = "model").

Lemma filled_entry role parts :
  parts <> [] -> role = "user" \/ role = "model" -> filled (contentEntry role parts).
Proof. intros Hp Hr. now exists role, parts. Qed.

Lemma converting_filled t1 t2 n acc x acc' :
  Forall filled (fst acc) -> converting t1 t2 n acc x = inr acc' ->
  Forall filled (fst acc').
Proof.
  intros Hacc H. destruct acc as [contents si]. destruct acc' as [contents' si'].
  cbn [fst] in Hacc. unfold convertMessage in H.
  branches H; cbn [fst]; try assumption;
    repeat (apply Forall_app; split; try assumption);
    (constructor; [|constructor]); apply filled_entry; auto; discriminate.
Qed.

Lemma toGemini_returns model body stream g :
  toGemini model body stream = inr g ->
  exists t1 t2 contents si tools,
    foldM (converting t1 t2
             (List.length (ClaudeRequests.elements (getq "messages" body))))
          (ClaudeRequests.elements (getq "messages" body)) ([], None)
    = inr (contents, si)
    /\ convertTools body = inr tools
    /\ getq "contents" g = VArr contents
    /\ getq "tools" g = obj_get tools "tools"
    /\ exists fs, g = VObj fs.
Proof.
  unfold openaiToGeminiBase.
  destruct (get "temperature" body) as [e|temperature]; [discriminate|]. cbn [bind].
  change (match getq "messages" body with VArr l => l | _ => [] end)
    with (ClaudeRequests.elements (getq "messages" body)).
  destruct (buildNames _) as [e|t1]; [discriminate|]. cbn [bind].
  destruct (buildResponses _) as [e|t2]; [discriminate|]. cbn [bind].
  destruct (foldM _ _ _) as [e|[contents si]] eqn:E; [discriminate|]. cbn [bind].
  destruct (convertTools body) as [e|tools] eqn:Et; [discriminate|]. cbn [bind ret].
  intros [= <-]. exists t1, t2, contents, si, tools.
  split; [exact E|]. split; [reflexivity|]. split; [reflexivity|].
  split; [|now eexists].
  destruct (GeminiFacts.convertTools_keys _ _ Et) as [-> | [v ->]];
    destruct si; reflexivity.
Qed.

(** X23. Every entry of [contents] has the role user or model and at
    least one part: a message that converts to no part leaves no entry
    behind, a system message never becomes an entry of its own role, and
    the messages of any other role are left out. *)
Theorem contents_have_parts model body stream g :
  toGemini model body stream = inr g ->
  Forall (fun entry =>
            exists role parts,
              entry = VObj [ ("role", VStr role); ("parts", VArr parts) ]
              /\ parts <> []
              /\ (role = "user" \/ role = "model"))
         (ClaudeRequests.elements (getq "contents" g)).
Proof.
  intros H.
  destruct (toGemini_returns _ _ _ _ H) as (t1 & t2 & contents & si & tools & Hf & _ & -> & _).
  cbn [ClaudeRequests.elements].
  exact (ReverseStream.foldM_keeps _ (fun s => Forall filled (fst s)) _
           (fun s x s' Hs Hx => converting_filled _ _ _ _ _ _ Hs Hx)
           ([], None) (contents, si) (Forall_nil _) Hf).
Qed.

(** *** The function declarations *)




Lemma remove_field_gone k fs :
  ~ In k object_prototype_members -> obj_get (remove_field k fs) k = VUndef.
Proof.
  intros Hk. unfold obj_get.
  assert (H : assoc k (remove_field k fs) = None).
  { induction fs as [|[k' v] fs IH]; [reflexivity|]. cbn [remove_field filter fst].
    destruct (String.eqb k' k) eqn:E; cbn [negb]; [exact IH|].
    cbn [assoc]. rewrite String.eqb_sym, E. exact IH. }
  rewrite H. now apply GeminiFacts.inherited_undef.
Qed.

(** The cleaning of one declaration: the cleaned schema is under one of
    the two names, and the other name is gone. *)
Definition cleaned (isClaude : bool) (d : value) : Prop :=
  exists schema,
    truthy schema = true
    /\ cleanJSONSchemaForAntigravity schema
       = inr (getq (if isClaude then "parameters" else "parametersJsonSchema") d)
    /\ getq (if isClaude then "parametersJsonSchema" else "parameters") d = VUndef.



End Requests.
(** *** On requests *)

Definition weatherRequest : value :=
  VObj [ ("messages",
          VArr [ VObj [ ("role", VStr "system"); ("content", VStr "Be terse.") ];
                 VObj [ ("role", VStr "user"); ("content", VStr "Weather?") ];
                 VObj [ ("role", VStr "assistant"); ("content", VStr "") ];
                 VObj [ ("role", VStr "user"); ("content", VStr "In Paris.") ] ]);
         ("tools",
          VArr [ VObj [ ("type", VStr "function");
                        ("function",
                         VObj [ ("name", VStr "weather");
                                ("description", VStr "The weather of a city");
                                ("parameters",
                                 VObj [ ("type", VStr "object") ]) ]) ] ]) ].

Lemma contents_have_parts_witness :
  exists g,
    GeminiFacts.exampleBase (VStr "gemini-2.5-pro") weatherRequest (VBool true) = inr g
    /\ List.length (ClaudeRequests.elements (getq "contents" g)) = 2%nat
    /\ Forall (fun entry =>
                 exists role parts,
                   entry = VObj [ ("role", VStr role); ("parts", VArr parts) ]
                   /\ parts <> []
                   /\ (role = "user" \/ role = "model"))
              (ClaudeRequests.elements (getq "contents" g)).
Proof.
  computing (GeminiFacts.exampleBase (VStr "gemini-2.5-pro") weatherRequest (VBool true)) E.
  eexists. split; [exact E|]. split; [reflexivity|].
  exact (contents_have_parts (VStr "signature") (VArr []) GeminiFacts.partsOfText
           OpenAIRequest.extractTextContent
           (OpenAIRequest.tryParseJSON GeminiFacts.parseExamples)
           (VStr "gemini-2.5-pro") weatherRequest (VBool true) _ E).
Defined.


End GeminiRequests.
